(** * Endless PDF light conversion: watermark and metadata endpoints

    A shallow embedding of the two Express applications of the repository
    (the file [src/index.js] and the longer variant kept next to it, which
    also carries [utils/pdfMetadata.js]) together with the JavaScript
    built-ins they call, and the properties of the specification that can
    be settled on them.

    Conventions.
    - A JavaScript string is a [string]; each character stands for one
      UTF-16 code unit below 256.
    - A JavaScript number is an IEEE 754 binary64 value, [spec_float] with
      precision 53 and maximal exponent 1024; arithmetic rounds to nearest,
      ties to even.
    - [undefined] and [null] are [None]; a multipart text field is a string.
    - A thrown exception is the left injection of a sum; the handlers'
      [try]/[catch] turns it into a 500 response.
    - The PDF library, the network and the JavaScript engine's date parser
      are not part of the repository: what they return is read from a
      [World] record, over which every statement is quantified. *)

From Stdlib Require Import ZArith String Ascii List Lia Bool.
From Stdlib Require Import Floats.SpecFloat.
From stdpp Require Import base option gmap strings list.

Open Scope string_scope.
Open Scope Z_scope.

(* ===================================================================== *)
(** * JavaScript built-ins                                                *)
(* ===================================================================== *)

Module JS.

(** ** Exceptions *)

Record Error := mkError { name : string; message : string }.

Definition result (A : Type) : Type := Error + A.

Definition ok {A} (a : A) : result A := inr a.
Definition throw {A} (e : Error) : result A := inl e.

Definition TypeError (msg : string) : Error := mkError "TypeError" msg.
Definition RangeError (msg : string) : Error := mkError "RangeError" msg.
Definition ReferenceError (msg : string) : Error := mkError "ReferenceError" msg.

(** ** Truthiness of the values the handlers test *)

(** [!!s] for a string: the empty string is the only falsy string. *)
Definition truthy_string (s : string) : bool :=
  match s with EmptyString => false | String _ _ => true end.

(** [!!v] for a value that is a string or [undefined]/[null]. *)
Definition truthy (v : option string) : bool :=
  match v with None => false | Some s => truthy_string s end.

(** [a || b] on string-or-null operands. *)
Definition or_else (a b : option string) : option string :=
  if truthy a then a else b.

(** ** Strings *)

(** WhiteSpace and LineTerminator code units below 256: TAB, LF, VT, FF,
    CR, SP and NBSP. *)
Definition is_whitespace (c : ascii) : bool :=
  let n := N_of_ascii c in
  ((9 <=? n) && (n <=? 13) || (n =? 32) || (n =? 160))%N.

Fixpoint trimStart (s : string) : string :=
  match s with
  | String c s' => if is_whitespace c then trimStart s' else s
  | EmptyString => s
  end.

(** Drop trailing white space: a character is kept when something that
    is kept follows it or it is not white space itself. *)
Fixpoint trimEnd (s : string) : string :=
  match s with
  | EmptyString => EmptyString
  | String c s' =>
      match trimEnd s' with
      | EmptyString => if is_whitespace c then EmptyString else String c EmptyString
      | t => String c t
      end
  end.

(** [s.trim()] *)
Definition trim (s : string) : string := trimEnd (trimStart s).

(** [s.startsWith(p)] *)
Fixpoint startsWith (p s : string) : bool :=
  match p, s with
  | EmptyString, _ => true
  | String a p', String b s' => Ascii.eqb a b && startsWith p' s'
  | String _ _, EmptyString => false
  end.

(** [s.includes(p)] *)
Fixpoint includes (p s : string) : bool :=
  startsWith p s ||
  match s with
  | EmptyString => false
  | String _ s' => includes p s'
  end.

(** [s.replace(c, "")] for a one-character pattern: the first occurrence
    only. *)
Fixpoint remove_first (c : ascii) (s : string) : string :=
  match s with
  | EmptyString => EmptyString
  | String a s' => if Ascii.eqb a c then s' else String a (remove_first c s')
  end.

(** [s.split(c)] for a one-character separator: never empty, the empty
    string splits into one empty piece. *)
Fixpoint split (c : ascii) (s : string) : list string :=
  match s with
  | EmptyString => [EmptyString]
  | String a s' =>
      if Ascii.eqb a c then EmptyString :: split c s'
      else match split c s' with
           | piece :: rest => String a piece :: rest
           | [] => [String a EmptyString]
           end
  end.

(** ** Numbers *)

Definition number : Type := spec_float.

Definition prec : Z := 53.
Definition emax : Z := 1024.

Definition NaN : number := S754_nan.
Definition Infinity : number := S754_infinity false.

Definition add : number -> number -> number := SFadd prec emax.
Definition sub : number -> number -> number := SFsub prec emax.
Definition mul : number -> number -> number := SFmul prec emax.
Definition div : number -> number -> number := SFdiv prec emax.
Definition lt : number -> number -> bool := SFltb.
Definition le : number -> number -> bool := SFleb.

(** The number value of a mathematical integer. *)
Definition of_Z (z : Z) : number := binary_normalize prec emax z 0 false.

(** The number value of the rational [p/q], [p] and [q] positive, with the
    sign [s]: the quotient is developed to at least 64 bits and the
    remainder tells on which side of the midpoint the exact value lies. *)
Definition of_ratio (s : bool) (p q : positive) : number :=
  let k := Z.max 0 (Z.log2 (Zpos q) - Z.log2 (Zpos p) + 66) in
  let '(m, r) := Z.div_eucl (Z.shiftl (Zpos p) k) (Zpos q) in
  binary_round_aux prec emax s m (- k)
    (if r =? 0 then loc_Exact else loc_Inexact (Z.compare (2 * r) (Zpos q))).

(** The number value of [m * 10^e] with the sign [s]; a zero keeps the
    sign. *)
Definition of_decimal (s : bool) (m : N) (e : Z) : number :=
  match m with
  | N0 => S754_zero s
  | Npos p =>
      match e with
      | Zneg e' => of_ratio s p (10 ^ e')%positive
      | _ => of_ratio s (p * Z.to_pos (10 ^ e))%positive 1
      end
  end.

Definition isNaN (x : number) : bool :=
  match x with S754_nan => true | _ => false end.

(** [!!x] for a number: [NaN] and both zeros are falsy. *)
Definition truthy_number (x : number) : bool :=
  match x with S754_nan | S754_zero _ => false | _ => true end.

(** [Math.max(...)]: [NaN] when an argument is [NaN]; [+0] is above [-0]. *)
Definition max_step (highest x : number) : number :=
  match x, highest with
  | S754_zero false, S754_zero true => x
  | _, _ => if lt highest x then x else highest
  end.

Definition Math_max (args : list number) : number :=
  if existsb isNaN args then NaN
  else fold_left max_step args (S754_infinity true).

(** [Math.min(...)] *)
Definition min_step (lowest x : number) : number :=
  match x, lowest with
  | S754_zero true, S754_zero false => x
  | _, _ => if lt x lowest then x else lowest
  end.

Definition Math_min (args : list number) : number :=
  if existsb isNaN args then NaN
  else fold_left min_step args (S754_infinity false).

(** *** Numeric conversions of strings *)

Definition is_digit (c : ascii) : bool :=
  let n := N_of_ascii c in ((48 <=? n) && (n <=? 57))%N.

Definition digit_value (c : ascii) : N := (N_of_ascii c - 48)%N.

(** The longest run of decimal digits at the front of [s], and the rest. *)
Fixpoint span_digits (s : string) : list ascii * string :=
  match s with
  | String c s' =>
      if is_digit c then let '(ds, r) := span_digits s' in (c :: ds, r)
      else ([], s)
  | EmptyString => ([], s)
  end.

(** The value of a run of decimal digits, most significant first. *)
Definition decimal_value (ds : list ascii) : N :=
  fold_left (fun acc c => (10 * acc + digit_value c)%N) ds 0%N.

(** The sign of a literal: whether it is negative, and what follows. *)
Definition read_sign (s : string) : bool * string :=
  match s with
  | String "-" s' => (true, s')
  | String "+" s' => (false, s')
  | _ => (false, s)
  end.

(** ExponentPart, when one stands at the front of [s]: its value and the
    rest. The indicator alone, or followed by a bare sign, is no part. *)
Definition read_exponent (s : string) : option (Z * string) :=
  match s with
  | String c s' =>
      if Ascii.eqb c "e" || Ascii.eqb c "E" then
        let '(neg, s1) := read_sign s' in
        match span_digits s1 with
        | ([], _) => None
        | (ds, r) =>
            let v := Z.of_N (decimal_value ds) in
            Some (if neg then - v else v, r)
        end
      else None
  | EmptyString => None
  end.

(** StrUnsignedDecimalLiteral at the front of [s], with the sign [neg]
    already read: the number value of the longest literal and the rest of
    the string, or [None] when no literal starts there. *)
Definition read_unsigned_decimal (neg : bool) (s : string) : option (number * string) :=
  if startsWith "Infinity" s then
    Some (S754_infinity neg, string_of_list_ascii (skipn 8 (list_ascii_of_string s)))
  else
    let '(ip, r1) := span_digits s in
    let '(fp, r2, dot) :=
      match r1 with
      | String "." r => let '(fp, r') := span_digits r in (fp, r', true)
      | _ => ([], r1, false)
      end in
    match ip, fp with
    | [], [] => None
    | _, _ =>
        let m := decimal_value (ip ++ fp) in
        let k := Z.of_nat (List.length fp) in
        match read_exponent r2 with
        | Some (e, r3) => Some (of_decimal neg m (e - k), r3)
        | None => Some (of_decimal neg m (- k), r2)
        end
    end.

(** StrDecimalLiteral at the front of [s]. *)
Definition read_decimal (s : string) : option (number * string) :=
  let '(neg, s') := read_sign s in read_unsigned_decimal neg s'.

(** [parseFloat(s)] for a string [s]. *)
Definition parseFloat (s : string) : number :=
  match read_decimal (trimStart s) with
  | Some (x, _) => x
  | None => NaN
  end.

(** [parseFloat(v)] for a body field: [undefined] reads as the string
    "undefined", which starts no literal. *)
Definition parseFloat_field (v : option string) : number :=
  match v with
  | Some s => parseFloat s
  | None => parseFloat "undefined"
  end.

(** [parseFloat(x)] for a number [x]: the shortest decimal that reads back
    as [x] is read back; only the sign of zero is lost. *)
Definition parseFloat_number (x : number) : number :=
  match x with
  | S754_zero _ => S754_zero false
  | _ => x
  end.

(** The value of a digit in a radix up to 36, if it is one. *)
Definition radix_digit (radix : N) (c : ascii) : option N :=
  let n := N_of_ascii c in
  let v :=
    if ((48 <=? n) && (n <=? 57))%N then Some (n - 48)%N
    else if ((97 <=? n) && (n <=? 122))%N then Some (n - 87)%N
    else if ((65 <=? n) && (n <=? 90))%N then Some (n - 55)%N
    else None in
  match v with
  | Some d => if (d <? radix)%N then Some d else None
  | None => None
  end.

(** The digits of the longest run of radix-[radix] digits at the front. *)
Fixpoint span_radix (radix : N) (s : string) : list N :=
  match s with
  | String c s' =>
      match radix_digit radix c with
      | Some d => d :: span_radix radix s'
      | None => []
      end
  | EmptyString => []
  end.

Definition radix_value (radix : N) (ds : list N) : N :=
  fold_left (fun acc d => (radix * acc + d)%N) ds 0%N.

Definition has_hex_prefix (s : string) : bool :=
  startsWith "0x" s || startsWith "0X" s.

Definition drop2 (s : string) : string :=
  match s with
  | String _ (String _ r) => r
  | _ => s
  end.

(** [parseInt(s, radix)] for a string [s]; [radix] is [0] when the
    argument is left out. *)
Definition parseInt (s : string) (radix : N) : number :=
  let '(neg, s1) := read_sign (trimStart s) in
  if negb (radix =? 0)%N && ((radix <? 2) || (36 <? radix))%N then NaN
  else
    let strip := ((radix =? 0) || (radix =? 16))%N in
    let '(r, s2) :=
      if strip && has_hex_prefix s1 then (16%N, drop2 s1)
      else ((if (radix =? 0)%N then 10 else radix)%N, s1) in
    match span_radix r s2 with
    | [] => NaN
    | ds =>
        match radix_value r ds with
        | N0 => S754_zero neg
        | Npos p => of_Z (if neg then Zneg p else Zpos p)
        end
    end.

(** The integer part of a finite number, rounding toward zero. *)
Definition truncate (x : number) : option Z :=
  match x with
  | S754_zero _ => Some 0
  | S754_finite s m e =>
      let a := match e with
               | Zneg p => Z.shiftr (Zpos m) (Zpos p)
               | _ => Z.shiftl (Zpos m) e
               end in
      Some (if s then - a else a)
  | _ => None
  end.

(** [ToInt32]: [NaN] and the infinities give 0, the rest wraps modulo
    2^32 into the signed range. *)
Definition ToInt32 (x : number) : Z :=
  match truncate x with
  | None => 0
  | Some n =>
      let k := n mod 2 ^ 32 in
      if 2 ^ 31 <=? k then k - 2 ^ 32 else k
  end.

(** [x >> n] and [x & y] on 32-bit integers ([0 <= n < 32], [y >= 0]). *)
Definition shr32 (x : number) (n : Z) : Z := Z.shiftr (ToInt32 x) n.
Definition and32 (x y : Z) : Z := Z.land x y.

(** [ToNumber(s)] for a string: the whole of the trimmed string has to be
    a numeric literal; the empty string is [+0]; a literal in base 16, 8 or
    2 carries no sign. *)
Definition all_radix (radix : N) (s : string) : bool :=
  truthy_string s && (List.length (span_radix radix s) =? String.length s)%nat.

Definition ToNumber (s : string) : number :=
  let t := trim s in
  let based (radix : N) :=
    let ds := drop2 t in
    if all_radix radix ds then of_Z (Z.of_N (radix_value radix (span_radix radix ds)))
    else NaN in
  match t with
  | EmptyString => S754_zero false
  | _ =>
      if has_hex_prefix t then based 16%N
      else if startsWith "0o" t || startsWith "0O" t then based 8%N
      else if startsWith "0b" t || startsWith "0B" t then based 2%N
      else match read_decimal t with
           | Some (x, EmptyString) => x
           | _ => NaN
           end
  end.

(** ** Dates *)

(** A time value: milliseconds since the epoch, or [None] for [NaN] (an
    invalid date). *)
Definition Date : Type := option Z.

Definition msPerDay : Z := 86400000.
Definition msPerHour : Z := 3600000.
Definition msPerMinute : Z := 60000.
Definition msPerSecond : Z := 1000.

Definition Day (t : Z) : Z := t / msPerDay.
Definition TimeWithinDay (t : Z) : Z := t mod msPerDay.

Definition DaysInYear (y : Z) : Z :=
  if negb (y mod 4 =? 0) then 365
  else if negb (y mod 100 =? 0) then 366
  else if negb (y mod 400 =? 0) then 365
  else 366.

Definition DayFromYear (y : Z) : Z :=
  365 * (y - 1970) + (y - 1969) / 4 - (y - 1901) / 100 + (y - 1601) / 400.

(** The largest year whose first day is not after day [d]: the quotient by
    the mean length of a year is off by at most one. *)
Definition YearFromDay (d : Z) : Z :=
  let y := 1970 + (400 * d) / 146097 in
  if DayFromYear (y + 1) <=? d then y + 1
  else if DayFromYear y <=? d then y
  else y - 1.

Definition YearFromTime (t : Z) : Z := YearFromDay (Day t).

Definition InLeapYear (t : Z) : Z :=
  if DaysInYear (YearFromTime t) =? 366 then 1 else 0.

Definition DayWithinYear (t : Z) : Z := Day t - DayFromYear (YearFromTime t).

(** The day within the year on which month [m] (from 0) starts. *)
Definition month_start (leap m : Z) : Z :=
  match m with
  | 0 => 0
  | 1 => 31
  | 2 => 59 + leap
  | 3 => 90 + leap
  | 4 => 120 + leap
  | 5 => 151 + leap
  | 6 => 181 + leap
  | 7 => 212 + leap
  | 8 => 243 + leap
  | 9 => 273 + leap
  | 10 => 304 + leap
  | 11 => 334 + leap
  | _ => 365 + leap
  end.

Definition MonthFromTime (t : Z) : Z :=
  let d := DayWithinYear t in
  let leap := InLeapYear t in
  if d <? 31 then 0
  else if d <? 59 + leap then 1
  else if d <? 90 + leap then 2
  else if d <? 120 + leap then 3
  else if d <? 151 + leap then 4
  else if d <? 181 + leap then 5
  else if d <? 212 + leap then 6
  else if d <? 243 + leap then 7
  else if d <? 273 + leap then 8
  else if d <? 304 + leap then 9
  else if d <? 334 + leap then 10
  else 11.

Definition DateFromTime (t : Z) : Z :=
  DayWithinYear t - month_start (InLeapYear t) (MonthFromTime t) + 1.

Definition HourFromTime (t : Z) : Z := (t / msPerHour) mod 24.
Definition MinFromTime (t : Z) : Z := (t / msPerMinute) mod 60.
Definition SecFromTime (t : Z) : Z := (t / msPerSecond) mod 60.
Definition msFromTime (t : Z) : Z := t mod msPerSecond.

Definition MakeTime (hour min sec ms : Z) : Z :=
  hour * msPerHour + min * msPerMinute + sec * msPerSecond + ms.

(** The day number of the [date]-th day of month [month] (from 0) of
    [year]; months outside 0..11 carry into the year. *)
Definition MakeDay (year month date : Z) : Z :=
  let ym := year + month / 12 in
  let mn := month mod 12 in
  let leap := if DaysInYear ym =? 366 then 1 else 0 in
  DayFromYear ym + month_start leap mn + date - 1.

Definition MakeDate (day time : Z) : Z := day * msPerDay + time.

Definition TimeClip (time : Z) : Date :=
  if 8640000000000000 <? Z.abs time then None else Some time.

(** [Date.UTC(year, month, date, hours, minutes, seconds)] on integers: a
    year from 0 to 99 counts from 1900. *)
Definition Date_UTC (year month date hours minutes seconds : Z) : Date :=
  let yr := if (0 <=? year) && (year <=? 99) then 1900 + year else year in
  TimeClip (MakeDate (MakeDay yr month date) (MakeTime hours minutes seconds 0)).

(** The last [n] decimal digits of a natural number, most significant
    first. *)
Fixpoint pad (n : nat) (z : Z) : string :=
  match n with
  | O => EmptyString
  | S n' => pad n' (z / 10) ++ String (ascii_of_N (Z.to_N (48 + z mod 10))) EmptyString
  end.

(** [d.toISOString()]: throws on an invalid date; a year outside 0..9999
    is written with a sign and six digits. *)
Definition toISOString (d : Date) : result string :=
  match d with
  | None => throw (RangeError "Invalid time value")
  | Some t =>
      let y := YearFromTime t in
      let year :=
        if (0 <=? y) && (y <=? 9999) then pad 4 y
        else (if y <? 0 then "-" else "+") ++ pad 6 (Z.abs y) in
      ok (year ++ "-" ++ pad 2 (MonthFromTime t + 1) ++ "-" ++ pad 2 (DateFromTime t)
          ++ "T" ++ pad 2 (HourFromTime t) ++ ":" ++ pad 2 (MinFromTime t)
          ++ ":" ++ pad 2 (SecFromTime t) ++ "." ++ pad 3 (msFromTime t) ++ "Z")
  end.

End JS.

(* ===================================================================== *)
(** * The PDF library, as the handlers use it                             *)
(* ===================================================================== *)

Module PdfLib.
Import JS.

Definition Buffer : Type := list Byte.byte.

(** The objects a trailer or an Info dictionary holds. A dictionary is the
    only one with a [get] method; the two string kinds are the only ones
    with a [decodeText] method. *)
#[warnings="-register-all"]
Inductive PDFObject :=
| PDFRef (objectNumber : nat)
| PDFDict (entries : gmap string PDFObject)
| PDFString (value : string)
| PDFHexString (value : string)
| PDFName (key : string)
| PDFNumber (value : number).

Definition has_decodeText (o : PDFObject) : bool :=
  match o with PDFString _ | PDFHexString _ => true | _ => false end.

(** [pdfDoc.context]: [trailer] is [None] when the property is missing or
    is no object with a [get] method. *)
Record PDFContext := mkContext {
  trailer : option (gmap string PDFObject);
  indirectObjects : gmap nat PDFObject;
  headerVersion : option string
}.

(** [context.lookup(ref)]: a reference is followed, anything else is its
    own value. *)
Definition context_lookup (ctx : PDFContext) (ref : PDFObject) : option PDFObject :=
  match ref with
  | PDFRef n => indirectObjects ctx !! n
  | _ => Some ref
  end.

Record Color := mkColor { red : number; green : number; blue : number }.

(** [rgb(r, g, b)] refuses a channel below 0 or above 1. *)
Definition in_unit_range (x : number) : bool := negb (lt x (of_Z 0) || lt (of_Z 1) x).

Definition rgb (r g b : number) : result Color :=
  if in_unit_range r && in_unit_range g && in_unit_range b then ok (mkColor r g b)
  else throw (mkError "Error" "color channel must be at least 0 and at most 1").

Inductive Font := HelveticaBold.

Record PDFImage := mkImage { img_width : number; img_height : number }.

(** [{ type: "degrees", angle }] *)
Record Rotation := degrees_of { angle : number }.

(** The options object of a [page.drawText] call. *)
Record TextOptions := mkTextOptions {
  text_x : number;
  text_y : number;
  text_size : number;
  text_font : Font;
  text_color : Color;
  text_opacity : number;
  text_rotate : Rotation
}.

(** The options object of a [page.drawImage] call. *)
Record ImageOptions := mkImageOptions {
  image_x : number;
  image_y : number;
  image_width : number;
  image_height : number;
  image_opacity : number;
  image_rotate : Rotation
}.

Inductive DrawOperation :=
| DrawText (text : string) (options : TextOptions)
| DrawImage (image : PDFImage) (options : ImageOptions).

(** A page: its size and the draw calls it has received, oldest first. *)
Record PDFPage := mkPage {
  page_width : number;
  page_height : number;
  operations : list DrawOperation
}.

(** A loaded document: what its structured accessors return, its context
    and its pages. *)
Record PDFDocument := mkDocument {
  getTitle : option string;
  getAuthor : option string;
  getSubject : option string;
  getKeywords : option string;
  getCreator : option string;
  getProducer : option string;
  getCreationDate : option Date;
  getModificationDate : option Date;
  context : PDFContext;
  getPages : list PDFPage
}.

Definition setTitle (v : string) (d : PDFDocument) : PDFDocument :=
  mkDocument (Some v) (getAuthor d) (getSubject d) (getKeywords d) (getCreator d)
    (getProducer d) (getCreationDate d) (getModificationDate d) (context d) (getPages d).

Definition setAuthor (v : string) (d : PDFDocument) : PDFDocument :=
  mkDocument (getTitle d) (Some v) (getSubject d) (getKeywords d) (getCreator d)
    (getProducer d) (getCreationDate d) (getModificationDate d) (context d) (getPages d).

Definition setSubject (v : string) (d : PDFDocument) : PDFDocument :=
  mkDocument (getTitle d) (getAuthor d) (Some v) (getKeywords d) (getCreator d)
    (getProducer d) (getCreationDate d) (getModificationDate d) (context d) (getPages d).

(** [setKeywords(list)] stores the keywords joined by single spaces. *)
Definition setKeywords (v : list string) (d : PDFDocument) : PDFDocument :=
  mkDocument (getTitle d) (getAuthor d) (getSubject d) (Some (String.concat " " v))
    (getCreator d) (getProducer d) (getCreationDate d) (getModificationDate d)
    (context d) (getPages d).

Definition setCreator (v : string) (d : PDFDocument) : PDFDocument :=
  mkDocument (getTitle d) (getAuthor d) (getSubject d) (getKeywords d) (Some v)
    (getProducer d) (getCreationDate d) (getModificationDate d) (context d) (getPages d).

Definition setProducer (v : string) (d : PDFDocument) : PDFDocument :=
  mkDocument (getTitle d) (getAuthor d) (getSubject d) (getKeywords d) (getCreator d)
    (Some v) (getCreationDate d) (getModificationDate d) (context d) (getPages d).

Definition setCreationDate (v : Date) (d : PDFDocument) : PDFDocument :=
  mkDocument (getTitle d) (getAuthor d) (getSubject d) (getKeywords d) (getCreator d)
    (getProducer d) (Some v) (getModificationDate d) (context d) (getPages d).

Definition setModificationDate (v : Date) (d : PDFDocument) : PDFDocument :=
  mkDocument (getTitle d) (getAuthor d) (getSubject d) (getKeywords d) (getCreator d)
    (getProducer d) (getCreationDate d) (Some v) (context d) (getPages d).

Definition with_pages (ps : list PDFPage) (d : PDFDocument) : PDFDocument :=
  mkDocument (getTitle d) (getAuthor d) (getSubject d) (getKeywords d) (getCreator d)
    (getProducer d) (getCreationDate d) (getModificationDate d) (context d) ps.

(** What lies outside the repository: the library's parser, serializer,
    image decoders, text encoder and object printers, the network, and the
    engine's date parser and number formatter. *)
Record World := mkWorld {
  (** [PDFDocument.load(buffer, { updateMetadata })] *)
  load : Buffer -> bool -> result PDFDocument;
  (** [pdfDoc.save()] *)
  save : PDFDocument -> result Buffer;
  (** [pdfDoc.embedPng(buffer)], [pdfDoc.embedJpg(buffer)] *)
  embedPng : Buffer -> result PDFImage;
  embedJpg : Buffer -> result PDFImage;
  (** [fetch(url)] followed by [response.arrayBuffer()] *)
  fetch : string -> result Buffer;
  (** [Buffer.from(s, "base64")] *)
  base64 : string -> Buffer;
  (** the error [page.drawText] raises when the font cannot encode the
      text, if it does *)
  encodeText : string -> option Error;
  (** [val.decodeText()] and [String(val)] *)
  decodeText : PDFObject -> result string;
  toString : PDFObject -> string;
  (** the time value of [new Date(s)] *)
  Date_parse : string -> Date;
  (** [x.toFixed(2)] *)
  toFixed2 : number -> string
}.

End PdfLib.

(* ===================================================================== *)
(** * Requests, responses and effects                                     *)
(* ===================================================================== *)

Module Http.
Import JS PdfLib.

(** What a handler does besides answering: outbound requests and console
    output, in order. [ConsoleError (Some label) e] is
    [console.error(label, e)], [ConsoleError None e] is
    [console.error(e)]. *)
Inductive Event :=
| Fetched (url : string)
| ConsoleWarn (msg : string)
| ConsoleError (label : option string) (e : Error).

(** A computation that logs events and returns or throws. *)
Definition M (A : Type) : Type := list Event * result A.

Definition ret {A} (a : A) : M A := ([], ok a).

Definition bind {A B} (m : M A) (k : A -> M B) : M B :=
  match m with
  | (t, inl e) => (t, inl e)
  | (t, inr a) => let '(t', r) := k a in ((t ++ t')%list, r)
  end.

Definition lift {A} (r : result A) : M A := ([], r).
Definition emit (e : Event) : M unit := ([e], ok tt).

Notation "'let*' x ':=' m 'in' k" := (bind m (fun x => k))
  (at level 10, x name, m at level 100, k at level 200).

(** An uploaded file, as multer's memory storage hands it over. *)
Record File := mkFile { buffer : Buffer; mimetype : string }.

(** [req.files] of the watermark route and [req.body]. *)
Record WatermarkRequest := mkWatermarkRequest {
  files_pdf : option File;
  files_image : option File;
  body : gmap string string
}.

(** [req.file] of the metadata routes and [req.body]. *)
Record MetadataRequest := mkMetadataRequest {
  file : option File;
  fields : gmap string string
}.

Record Technical := mkTechnical {
  pageCount : nat;
  fileSizeKB : string;
  pdfVersion : string;
  pageSize : string
}.

Inductive Body :=
| ErrorBody (error : string)
| MetadataBody (metadata customFields : list (string * string)) (technical : Technical)
| BasicMetadataBody (title author subject producer company manager : option string)
    (count : nat).

Inductive Response :=
| Json (status : nat) (b : Body)
| Pdf (filename : string) (content : Buffer).

(** [try { ... } catch (err) { console.error(label, err); res.status(500).json({ error: err.message }) }],
    with [console.error(err)] where the handler gives no label. *)
Definition try_catch (label : option string) (m : M Response) : list Event * Response :=
  match m with
  | (t, inr r) => (t, r)
  | (t, inl e) => ((t ++ [ConsoleError label e])%list, Json 500 (ErrorBody (message e)))
  end.

(** The variant of the two metadata handlers of [src/index.js], which do
    not log the error. *)
Definition try_catch_silent (m : M Response) : list Event * Response :=
  match m with
  | (t, inr r) => (t, r)
  | (t, inl e) => (t, Json 500 (ErrorBody (message e)))
  end.

End Http.

(* ===================================================================== *)
(** * The code both applications share                                    *)
(* ===================================================================== *)

(** The watermark handler of [src/index.js] is a compressed copy of the
    longer one: the colour conversion, the image resolution, the page loop
    and the call of the provenance stamper read the same in both, and are
    embedded once. *)

Module Shared.
Import JS PdfLib Http.

(** [utils/pdfMetadata.js], [addEndlessForgeMetadata]. The first statement
    of the [else] branch reads [infoDictRef], which neither the function,
    nor the module, nor the global object declares: evaluating it raises a
    ReferenceError, and the statements after it (the creation of the Info
    dictionary and the three raw fields) are never reached. *)
Definition addEndlessForgeMetadata (pdfDoc : PDFDocument) : M PDFDocument :=
  let producer := "Endless Forge PDF API" in
  let* _ :=
    match trailer (context pdfDoc) with
    | None =>
        emit (ConsoleWarn "pdfDoc.context.trailer is missing or invalid. Skipping internal metadata dictionary setup.")
    | Some _ =>
        lift (throw (ReferenceError "infoDictRef is not defined"))
    end in
  ret (setTitle "Generated PDF" (setCreator "Endless Forge" (setProducer producer pdfDoc))).

(** [hexToRgb(hex)] *)
Definition hexToRgb (hex : string) : result Color :=
  let bigint := parseInt (remove_first "#" hex) 16 in
  let r := div (of_Z (and32 (shr32 bigint 16) 255)) (of_Z 255) in
  let g := div (of_Z (and32 (shr32 bigint 8) 255)) (of_Z 255) in
  let b := div (of_Z (and32 (ToInt32 bigint) 255)) (of_Z 255) in
  rgb r g b.

(** The image to stamp, resolved once per request: the uploaded file,
    else the [image] body field as a data URL or a remote URL. *)
Definition embedImage (w : World) (imageFile : option File) (image : option string)
  : M (option PDFImage) :=
  match imageFile with
  | Some f =>
      let* img := lift (if includes "png" (mimetype f) then embedPng w (buffer f)
                        else embedJpg w (buffer f)) in
      ret (Some img)
  | None =>
      match image with
      | Some url =>
          if truthy_string url then
            let* imgBuffer :=
              if startsWith "data:image" url then
                match split "," url !! 1%nat with
                | Some base64Data => ret (Some (base64 w base64Data))
                | None => lift (throw (TypeError "The first argument must be of type string or an instance of Buffer, ArrayBuffer, or Array or an Array-like Object. Received undefined"))
                end
              else if startsWith "http" url then
                let* _ := emit (Fetched url) in
                let* b := lift (fetch w url) in
                ret (Some b)
              else ret None in
            match imgBuffer with
            | Some b =>
                let* img := lift (if includes "png" url then embedPng w b else embedJpg w b) in
                ret (Some img)
            | None => ret None
            end
          else ret None
      | None => ret None
      end
  end.

(** The variables the page loop reads, as the destructuring of [req.body]
    and the lines after it leave them; a field that is [None] has its
    default, written below where the field is used. *)
Record Settings := mkSettings {
  text : option string;
  size : option string;
  color : option string;
  position : option string;
  scale : option string;
  shadow : option string;
  opacity : number;
  rotationAngle : number;
  embeddedImg : option PDFImage
}.

(** [size / 2] and [parseInt(size)], with the default [50]. *)
Definition size_number (size : option string) : number :=
  match size with Some s => ToNumber s | None => of_Z 50 end.

Definition font_size (size : option string) : number :=
  match size with Some s => parseInt s 0 | None => of_Z 50 end.

(** [scale] as a factor, with the default [1]. *)
Definition scale_number (scale : option string) : number :=
  match scale with Some s => ToNumber s | None => of_Z 1 end.

(** [if (shadow)], with the default [false]. *)
Definition shadow_on (shadow : option string) : bool := truthy shadow.

(** [parseFloat(degrees) || 0], with the default [45]. *)
Definition rotation_of (degrees : option string) : number :=
  let a := match degrees with Some s => parseFloat s | None => of_Z 45 end in
  if truthy_number a then a else of_Z 0.

(** The anchor of a page for a position name, with the default
    ["center"]; the margin is 30. *)
Definition anchor (position : option string) (width height : number) : number * number :=
  let margin := of_Z 30 in
  let p := default "center" position in
  if String.eqb p "top-left" then (margin, sub height margin)
  else if String.eqb p "top-right" then (sub width margin, sub height margin)
  else if String.eqb p "bottom-left" then (margin, margin)
  else if String.eqb p "bottom-right" then (sub width margin, margin)
  else (div width (of_Z 2), div height (of_Z 2)).

(** [page.drawText(text, options)] *)
Definition drawText (w : World) (t : string) (o : TextOptions) (page : PDFPage)
  : result PDFPage :=
  match encodeText w t with
  | Some e => throw e
  | None => ok (mkPage (page_width page) (page_height page)
                  (operations page ++ [DrawText t o])%list)
  end.

(** [page.drawImage(image, options)] *)
Definition drawImage (img : PDFImage) (o : ImageOptions) (page : PDFPage) : PDFPage :=
  mkPage (page_width page) (page_height page) (operations page ++ [DrawImage img o])%list.

Definition black : Color := mkColor (of_Z 0) (of_Z 0) (of_Z 0).

(** The body of [pages.forEach]. *)
Definition watermarkPage (w : World) (s : Settings) (page : PDFPage) : result PDFPage :=
  let '(x, y) := anchor (position s) (page_width page) (page_height page) in
  let half := div (size_number (size s)) (of_Z 2) in
  let rotate := degrees_of (rotationAngle s) in
  let with_text :=
    match text s with
    | Some t =>
        if truthy_string t then
          match (if shadow_on (shadow s) then
                   drawText w t
                     (mkTextOptions (add (sub x half) (of_Z 2)) (sub (sub y half) (of_Z 2))
                        (font_size (size s)) HelveticaBold black
                        (mul (opacity s) (of_decimal false 5 (-1))) rotate) page
                 else ok page) with
          | inl e => throw e
          | inr page1 =>
              match hexToRgb (default "#cccccc" (color s)) with
              | inl e => throw e
              | inr c =>
                  drawText w t
                    (mkTextOptions (sub x half) (sub y half) (font_size (size s))
                       HelveticaBold c (parseFloat_number (opacity s)) rotate) page1
              end
          end
        else ok page
    | None => ok page
    end in
  match with_text with
  | inl e => throw e
  | inr page2 =>
      match embeddedImg s with
      | Some img =>
          let imgWidth := mul (img_width img) (scale_number (scale s)) in
          let imgHeight := mul (img_height img) (scale_number (scale s)) in
          ok (drawImage img
                (mkImageOptions (sub x (div imgWidth (of_Z 2))) (sub y (div imgHeight (of_Z 2)))
                   imgWidth imgHeight (parseFloat_number (opacity s)) rotate) page2)
      | None => ok page2
      end
  end.

(** [pages.forEach(...)]: the pages in order; the first exception ends the
    loop. *)
Fixpoint watermarkPages (w : World) (s : Settings) (pages : list PDFPage)
  : result (list PDFPage) :=
  match pages with
  | [] => ok []
  | page :: rest =>
      match watermarkPage w s page with
      | inl e => throw e
      | inr page' =>
          match watermarkPages w s rest with
          | inl e => throw e
          | inr rest' => ok (page' :: rest')
          end
      end
  end.

(** The handler from the loading of the document to the stamper, given
    the effective opacity: the document that goes to [save]. Embedding the
    standard font between the two neither fails nor shows in a draw call
    other than as its name. *)
Definition watermarkDocument (w : World) (req : WatermarkRequest) (pdfFile : File)
    (opacity : number) : M PDFDocument :=
  let* pdfDoc := lift (load w (buffer pdfFile) true) in
  let* img := embedImage w (files_image req) (body req !! "image") in
  let s := mkSettings (body req !! "text") (body req !! "size") (body req !! "color")
             (body req !! "position") (body req !! "scale") (body req !! "shadow")
             opacity (rotation_of (body req !! "degrees")) img in
  let* pages := lift (watermarkPages w s (getPages pdfDoc)) in
  addEndlessForgeMetadata (with_pages pages pdfDoc).

(** [if (v) pdfDoc.setX(f(v))] *)
Definition set_if {A} (v : option string) (f : string -> A)
    (setter : A -> PDFDocument -> PDFDocument) (d : PDFDocument) : PDFDocument :=
  match v with
  | Some s => if truthy_string s then setter (f s) d else d
  | None => d
  end.

(** The end of the handler: serialize and send as an attachment. *)
Definition sendPdf (w : World) (filename : string) (pdfDoc : PDFDocument) : M Response :=
  let* pdfBytes := lift (save w pdfDoc) in
  ret (Pdf filename pdfBytes).

End Shared.

(* ===================================================================== *)
(** * The longer application (watermark, metadata read, metadata write)   *)
(* ===================================================================== *)

Module Part000.
Import JS PdfLib Http Shared.

(** The effective opacity: [0.3] when the field does not read as a number,
    else the number clamped into [0, 1]. *)
Definition opacity_of (field : option string) : number :=
  let rawOpacity := parseFloat_field field in
  if isNaN rawOpacity then of_decimal false 3 (-1)
  else Math_min [Math_max [rawOpacity; of_Z 0]; of_Z 1].

(** [POST /pdf/watermark] *)
Definition watermark (w : World) (req : WatermarkRequest) : list Event * Response :=
  try_catch (Some "Watermark error:")
    match files_pdf req with
    | None => ret (Json 400 (ErrorBody "Upload a PDF file under field 'pdf'"))
    | Some pdfFile =>
        if negb (truthy (body req !! "text")) && negb (truthy (body req !! "image"))
           && negb (bool_decide (is_Some (files_image req)))
        then ret (Json 400 (ErrorBody "Provide either watermark text or image"))
        else
          let* pdfDoc := watermarkDocument w req pdfFile (opacity_of (body req !! "opacity")) in
          sendPdf w "watermarked.pdf" pdfDoc
    end.

(** The Info dictionary as the read handler resolves it: any failure on
    the way from the trailer leaves [null]. *)
Definition infoDict (pdfDoc : PDFDocument) : option (gmap string PDFObject) :=
  match trailer (context pdfDoc) with
  | None => None
  | Some t =>
      match t !! "Info" with
      | None => None
      | Some infoRef =>
          match context_lookup (context pdfDoc) infoRef with
          | Some (PDFDict d) => Some d
          | _ => None
          end
      end
  end.

(** [safeGet(key)] *)
Definition safeGet (w : World) (info : option (gmap string PDFObject)) (key : string)
  : option string :=
  match info with
  | None => None
  | Some d =>
      match d !! key with
      | None => None
      | Some val =>
          if has_decodeText val then
            match decodeText w val with
            | inr s => Some s
            | inl _ => Some (toString w val)
            end
          else Some (toString w val)
      end
  end.

(** A group of exactly [n] decimal digits at the front of [s], and the
    rest. *)
Fixpoint digits_group (n : nat) (s : string) : option (string * string) :=
  match n with
  | O => Some (EmptyString, s)
  | S n' =>
      match s with
      | String c s' =>
          if is_digit c then
            match digits_group n' s' with
            | Some (g, r) => Some (String c g, r)
            | None => None
            end
          else None
      | EmptyString => None
      end
  end.

(** The six groups of [/^D:(\d{4})(\d{2})(\d{2})(\d{2})(\d{2})(\d{2})/]. *)
Definition match_pdf_date (s : string) : option (string * string * string * string * string * string) :=
  if startsWith "D:" s then
    match digits_group 4 (drop2 s) with
    | Some (y, r1) =>
    match digits_group 2 r1 with
    | Some (m, r2) =>
    match digits_group 2 r2 with
    | Some (d, r3) =>
    match digits_group 2 r3 with
    | Some (h, r4) =>
    match digits_group 2 r4 with
    | Some (min, r5) =>
    match digits_group 2 r5 with
    | Some (sec, _) => Some (y, m, d, h, min, sec)
    | None => None end
    | None => None end
    | None => None end
    | None => None end
    | None => None end
    | None => None end
  else None.

(** [Number(g)] for a group of digits: the integer it writes. *)
Definition Number_of_digits (g : string) : Z :=
  Z.of_N (decimal_value (list_ascii_of_string g)).

(** [parsePdfDate(str)] *)
Definition parsePdfDate (str : option string) : result (option string) :=
  match str with
  | None => ok None
  | Some s =>
      if negb (truthy_string s) then ok None
      else
        match match_pdf_date s with
        | None => ok None
        | Some (y, m, d, h, min, sec) =>
            match toISOString
                    (Date_UTC (Number_of_digits y) (Number_of_digits m - 1) (Number_of_digits d)
                       (Number_of_digits h) (Number_of_digits min) (Number_of_digits sec)) with
            | inl e => throw e
            | inr iso => ok (Some iso)
            end
        end
  end.

(** [parsePdfDate(safeGet(key)) || structured?.toISOString() || null] *)
Definition date_entry (raw : option string) (structured : option Date) : result (option string) :=
  match parsePdfDate raw with
  | inl e => throw e
  | inr parsed =>
      if truthy parsed then ok parsed
      else
        match structured with
        | None => ok None
        | Some d =>
            match toISOString d with
            | inl e => throw e
            | inr iso => ok (if truthy_string iso then Some iso else None)
            end
        end
  end.

(** [Object.fromEntries(Object.entries(o).filter(([_, v]) => v))] *)
Definition drop_falsy (entries : list (string * option string)) : list (string * string) :=
  omap (fun '(k, v) => match v with
                       | Some s => if truthy_string s then Some (k, s) else None
                       | None => None
                       end) entries.

(** The [metadata] object before filtering, in the order of its keys. *)
Definition core_metadata (w : World) (pdfDoc : PDFDocument)
  : result (list (string * option string)) :=
  let info := infoDict pdfDoc in
  match date_entry (safeGet w info "CreationDate") (getCreationDate pdfDoc) with
  | inl e => throw e
  | inr creationDate =>
      match date_entry (safeGet w info "ModDate") (getModificationDate pdfDoc) with
      | inl e => throw e
      | inr modificationDate =>
          ok [ ("title", or_else (getTitle pdfDoc) (safeGet w info "Title"));
               ("author", or_else (getAuthor pdfDoc) (safeGet w info "Author"));
               ("subject", or_else (getSubject pdfDoc) (safeGet w info "Subject"));
               ("keywords", or_else (getKeywords pdfDoc) (safeGet w info "Keywords"));
               ("creator", or_else (getCreator pdfDoc) (safeGet w info "Creator"));
               ("producer", or_else (getProducer pdfDoc) (safeGet w info "Producer"));
               ("creationDate", creationDate);
               ("modificationDate", modificationDate) ]
      end
  end.

Definition custom_fields (w : World) (pdfDoc : PDFDocument) : list (string * option string) :=
  let info := infoDict pdfDoc in
  [ ("company", safeGet w info "Company");
    ("manager", safeGet w info "Manager");
    ("sourceModified", safeGet w info "SourceModified");
    ("category", safeGet w info "Category");
    ("comments", safeGet w info "Comments") ].

Definition technical_info (w : World) (pdfBuffer : Buffer) (pdfDoc : PDFDocument) : Technical :=
  let pages := getPages pdfDoc in
  mkTechnical (List.length pages)
    (toFixed2 w (div (of_Z (Z.of_nat (List.length pdfBuffer))) (of_Z 1024)))
    (match headerVersion (context pdfDoc) with
     | Some v => if truthy_string v then v else "Unknown"
     | None => "Unknown"
     end)
    (match pages with
     | firstPage :: _ =>
         toFixed2 w (page_width firstPage) ++ "x" ++ toFixed2 w (page_height firstPage)
     | [] => "Unknown"
     end).

(** [POST /pdf/metadata/get] *)
Definition metadata_get (w : World) (req : MetadataRequest) : list Event * Response :=
  try_catch (Some "Metadata read error:")
    match file req with
    | None => ret (Json 400 (ErrorBody "Please upload a PDF file."))
    | Some f =>
        let* pdfDoc := lift (load w (buffer f) false) in
        let* metadata := lift (core_metadata w pdfDoc) in
        ret (Json 200 (MetadataBody (drop_falsy metadata)
                         (drop_falsy (custom_fields w pdfDoc))
                         (technical_info w (buffer f) pdfDoc)))
    end.

(** The eight conditional setters of the write handler, in order. *)
Definition writeMetadata (w : World) (b : gmap string string) (pdfDoc : PDFDocument)
  : PDFDocument :=
  let d1 := set_if (b !! "title") id setTitle pdfDoc in
  let d2 := set_if (b !! "author") id setAuthor d1 in
  let d3 := set_if (b !! "subject") id setSubject d2 in
  let d4 := set_if (b !! "keywords") (fun k => map trim (split "," k)) setKeywords d3 in
  let d5 := set_if (b !! "creator") id setCreator d4 in
  let d6 := set_if (b !! "producer") id setProducer d5 in
  let d7 := set_if (b !! "creationDate") (Date_parse w) setCreationDate d6 in
  set_if (b !! "modDate") (Date_parse w) setModificationDate d7.

(** [POST /pdf/metadata/set] *)
Definition metadata_set (w : World) (req : MetadataRequest) : list Event * Response :=
  try_catch (Some "Metadata edit error:")
    match file req with
    | None => ret (Json 400 (ErrorBody "Upload a PDF"))
    | Some f =>
        let* pdfDoc := lift (load w (buffer f) true) in
        sendPdf w "metadata-updated.pdf" (writeMetadata w (fields req) pdfDoc)
    end.

End Part000.

(* ===================================================================== *)
(** * [src/index.js]                                                      *)
(* ===================================================================== *)

Module Index.
Import JS PdfLib Http Shared.

(** [Math.min(Math.max(parseFloat(req.body.opacity) || 0.3, 0), 1)] *)
Definition opacity_of (field : option string) : number :=
  let parsed := parseFloat_field field in
  Math_min [Math_max [if truthy_number parsed then parsed else of_decimal false 3 (-1); of_Z 0];
            of_Z 1].

(** [POST /pdf/watermark] *)
Definition watermark (w : World) (req : WatermarkRequest) : list Event * Response :=
  try_catch None
    match files_pdf req with
    | None => ret (Json 400 (ErrorBody "Upload a PDF file"))
    | Some pdfFile =>
        let* pdfDoc := watermarkDocument w req pdfFile (opacity_of (body req !! "opacity")) in
        sendPdf w "watermarked.pdf" pdfDoc
    end.

(** [safeGet(key)]: every failure, that of [decodeText] included, gives
    [null]. *)
Definition safeGet (w : World) (pdfDoc : PDFDocument) (key : string) : option string :=
  match trailer (context pdfDoc) with
  | None => None
  | Some t =>
      match match t !! "Info" with
            | Some infoRef => context_lookup (context pdfDoc) infoRef
            | None => None
            end with
      | Some (PDFDict d) =>
          match d !! key with
          | Some val =>
              if has_decodeText val then
                match decodeText w val with
                | inr s => Some s
                | inl _ => None
                end
              else Some (toString w val)
          | None => None
          end
      | _ => None
      end
  end.

(** [POST /pdf/metadata/get] *)
Definition metadata_get (w : World) (req : MetadataRequest) : list Event * Response :=
  try_catch_silent
    match file req with
    | None => ret (Json 400 (ErrorBody "Upload a PDF file."))
    | Some f =>
        let* pdfDoc := lift (load w (buffer f) false) in
        ret (Json 200 (BasicMetadataBody (getTitle pdfDoc) (getAuthor pdfDoc)
                         (getSubject pdfDoc) (getProducer pdfDoc)
                         (safeGet w pdfDoc "Company") (safeGet w pdfDoc "Manager")
                         (List.length (getPages pdfDoc))))
    end.

(** The five conditional setters of the write handler, in order. *)
Definition writeMetadata (b : gmap string string) (pdfDoc : PDFDocument) : PDFDocument :=
  let d1 := set_if (b !! "title") id setTitle pdfDoc in
  let d2 := set_if (b !! "author") id setAuthor d1 in
  let d3 := set_if (b !! "subject") id setSubject d2 in
  let d4 := set_if (b !! "keywords") (split ",") setKeywords d3 in
  set_if (b !! "producer") id setProducer d4.

(** [POST /pdf/metadata/set] *)
Definition metadata_set (w : World) (req : MetadataRequest) : list Event * Response :=
  try_catch_silent
    match file req with
    | None => ret (Json 400 (ErrorBody "Upload a PDF"))
    | Some f =>
        let* pdfDoc := lift (load w (buffer f) true) in
        sendPdf w "metadata-updated.pdf" (writeMetadata (fields req) pdfDoc)
    end.

End Index.

(* ===================================================================== *)
(** * Vocabulary of the statements                                        *)
(* ===================================================================== *)

(** Notions the statements below are phrased in. None of them is used by
    the handlers. *)

Module Reading.
Import JS PdfLib Http Shared.

(** ** Calendar *)

Definition is_leap (y : Z) : bool :=
  (y mod 4 =? 0) && (negb (y mod 100 =? 0) || (y mod 400 =? 0)).

Definition leap_days (y : Z) : Z := if is_leap y then 1 else 0.

(** The length of month [m] (from 1) of year [y]. *)
Definition days_in_month (y m : Z) : Z :=
  match m with
  | 1 => 31 | 2 => if is_leap y then 29 else 28 | 3 => 31 | 4 => 30
  | 5 => 31 | 6 => 30 | 7 => 31 | 8 => 31 | 9 => 30 | 10 => 31 | 11 => 30 | 12 => 31
  | _ => 0
  end.

(** ** Legacy date strings *)

Fixpoint all_digits (s : string) : bool :=
  match s with
  | EmptyString => true
  | String c r => is_digit c && all_digits r
  end.

(** A run of exactly [n] decimal digits. *)
Definition is_group (n : nat) (g : string) : bool :=
  (String.length g =? n)%nat && all_digits g.

(** [s] starts with [D:] and fourteen digits. *)
Definition pdf_date_shaped (s : string) : Prop :=
  exists y m d h mi sec rest,
    is_group 4 y = true /\ is_group 2 m = true /\ is_group 2 d = true /\
    is_group 2 h = true /\ is_group 2 mi = true /\ is_group 2 sec = true /\
    s = "D:" ++ y ++ m ++ d ++ h ++ mi ++ sec ++ rest.

(** ** Opacity *)

Definition default_opacity : number := of_decimal false 3 (-1).

(** [x] brought into [0, 1]; a zero comes out as [+0]. *)
Definition clamp01 (x : number) : number :=
  if lt x (of_Z 0) then of_Z 0
  else if lt (of_Z 1) x then of_Z 1
  else match x with S754_zero _ => of_Z 0 | _ => x end.

(** ** Colours *)

Definition is_hex_digit (c : ascii) : bool :=
  match radix_digit 16 c with Some _ => true | None => false end.

(** Six hexadecimal digits, with or without a leading [#]. *)
Definition well_formed_hex (s : string) : bool :=
  let t := match s with String "#" r => r | _ => s end in
  (String.length t =? 6)%nat && forallb is_hex_digit (list_ascii_of_string t).

(** The channel value of a byte. *)
Definition channel (k : Z) : number := div (of_Z k) (of_Z 255).

(** Byte [k] of an integer, counted from the low end, in two's
    complement. *)
Definition byte_of (k n : Z) : Z := (n / 256 ^ k) mod 256.

(** ** The watermark pipeline *)

Definition warning : string :=
  "pdfDoc.context.trailer is missing or invalid. Skipping internal metadata dictionary setup.".

(** The three structured fields the stamper writes. *)
Definition stamped (d : PDFDocument) : PDFDocument :=
  setTitle "Generated PDF" (setCreator "Endless Forge" (setProducer "Endless Forge PDF API" d)).

(** The settings the page loop runs with for a request. *)
Definition settings_of (req : WatermarkRequest) (opacity : number) (img : option PDFImage)
  : Settings :=
  mkSettings (body req !! "text") (body req !! "size") (body req !! "color")
    (body req !! "position") (body req !! "scale") (body req !! "shadow")
    opacity (rotation_of (body req !! "degrees")) img.

Definition missing_content : Response :=
  Json 400 (ErrorBody "Provide either watermark text or image").



(** ** Metadata *)

(** The rule of the write handler for one field: a non-empty string
    overwrites, anything else leaves the old value. *)
Definition overwrite {A} (v : option string) (f : string -> A) (old : option A) : option A :=
  match v with
  | Some s => if truthy_string s then Some (f s) else old
  | None => old
  end.

(** The rule as the specification words it: a field counts when something
    is left of it after trimming. *)
Definition overwrite_trimmed (v : option string) (old : option string) : option string :=
  match v with
  | Some s => if truthy_string (trim s) then Some s else old
  | None => old
  end.

(** The value of a key in a JSON object, given as its entries. *)
Definition entry {A} (key : string) (entries : list (string * A)) : option A :=
  snd <$> find (fun kv => String.eqb (fst kv) key) entries.

(** The fallback of a date field: the structured accessor's date in ISO
    form, [null] without one, a RangeError for an invalid date. *)
Definition structured_date (structured : option Date) : result (option string) :=
  match structured with
  | None => inr None
  | Some d => match toISOString d with inl e => inl e | inr iso => inr (Some iso) end
  end.

(** What the filter of the read handler leaves of a value. *)
Definition kept (v : option string) : option string := if truthy v then v else None.

(** ** The page loop *)

(** The number of draw calls the page loop adds to each page. *)
Definition draw_calls (s : Settings) : nat :=
  ((if truthy (text s) then (if shadow_on (shadow s) then 2 else 1) else 0)
   + match embeddedImg s with Some _ => 1 | None => 0 end)%nat.

(** One page and what the loop made of it: same size, the old draw calls
    first, [n] new ones after them. *)
Definition extends_by (n : nat) (p p' : PDFPage) : Prop :=
  page_width p' = page_width p /\ page_height p' = page_height p
  /\ exists ops, operations p' = (operations p ++ ops)%list /\ List.length ops = n.

(** The four position names the page loop knows besides the centre. *)
Definition corner_names : list string :=
  ["top-left"; "top-right"; "bottom-left"; "bottom-right"].

(** The value of a hexadecimal digit, and of a pair of them. *)
Definition hex_digit_value (c : ascii) : Z :=
  match radix_digit 16 c with Some d => Z.of_N d | None => 0 end.

Definition hex_byte (hi lo : ascii) : Z := 16 * hex_digit_value hi + hex_digit_value lo.

(** The six digits [RRGGBB]. *)
Definition hex6 (r1 r2 g1 g2 b1 b2 : ascii) : string :=
  String r1 (String r2 (String g1 (String g2 (String b1 (String b2 EmptyString))))).

(** ** Requests and responses *)

(** The URLs of the outbound requests in a trace. *)
Definition fetches (t : list Event) : list string :=
  omap (fun e => match e with Fetched url => Some url | _ => None end) t.

(** The one URL a watermark request can make the service fetch. *)
Definition remote_image (req : WatermarkRequest) : list string :=
  match files_image req, body req !! "image" with
  | None, Some url =>
      if negb (startsWith "data:image" url) && startsWith "http" url then [url] else []
  | _, _ => []
  end.

(** The request with its [image] field set to [v]. *)
Definition with_image_field (v : string) (req : WatermarkRequest) : WatermarkRequest :=
  mkWatermarkRequest (files_pdf req) (files_image req) (<[ "image" := v ]> (body req)).

(** Something to stamp on the pages came with the request. *)
Definition has_content (req : WatermarkRequest) : bool :=
  truthy (body req !! "text") || truthy (body req !! "image")
  || bool_decide (is_Some (files_image req)).

(** The error [Buffer.from] raises for a data URL without a comma. *)
Definition no_payload : Error :=
  TypeError "The first argument must be of type string or an instance of Buffer, ArrayBuffer, or Array or an Array-like Object. Received undefined".

(** The error of reading the identifier the stamper never declares. *)
Definition undeclared : Error := ReferenceError "infoDictRef is not defined".

(** The answer of a handler's [catch]. *)
Definition server_error (e : Error) : Response := Json 500 (ErrorBody (message e)).

(** The error of [toISOString] on an invalid date. *)
Definition invalid_time : Error := RangeError "Invalid time value".

(** ** Strings *)

(** The number of occurrences of a character. *)
Fixpoint count_char (c : ascii) (s : string) : nat :=
  match s with
  | EmptyString => 0
  | String a s' => ((if Ascii.eqb a c then 1 else 0) + count_char c s')%nat
  end.


(** ** The metadata record *)

(** Every field of the record a read answers with, against the document
    [d] it was read from: the six string fields from the accessor, else
    the raw entry; the five custom fields from the raw entry; each left
    out when empty. *)
Definition resolved (w : World) (d : PDFDocument) (m c : list (string * string)) : Prop :=
  let raw := Part000.safeGet w (Part000.infoDict d) in
  entry "title" m = kept (or_else (getTitle d) (raw "Title"))
  /\ entry "author" m = kept (or_else (getAuthor d) (raw "Author"))
  /\ entry "subject" m = kept (or_else (getSubject d) (raw "Subject"))
  /\ entry "keywords" m = kept (or_else (getKeywords d) (raw "Keywords"))
  /\ entry "creator" m = kept (or_else (getCreator d) (raw "Creator"))
  /\ entry "producer" m = kept (or_else (getProducer d) (raw "Producer"))
  /\ entry "company" c = kept (raw "Company")
  /\ entry "manager" c = kept (raw "Manager")
  /\ entry "sourceModified" c = kept (raw "SourceModified")
  /\ entry "category" c = kept (raw "Category")
  /\ entry "comments" c = kept (raw "Comments").

(** No value of the record is empty. *)
Definition all_nonempty (entries : list (string * string)) : Prop :=
  List.Forall (fun kv => snd kv <> "") entries.

End Reading.

(* ===================================================================== *)
(** * Sample documents, worlds and requests                               *)
(* ===================================================================== *)

Module Fixtures.
Import JS PdfLib Http Shared.

Definition letter : PDFPage := mkPage (of_Z 612) (of_Z 792) [].

(** A one-page document with a title of its own and no trailer on its
    context. *)
Definition report : PDFDocument :=
  mkDocument (Some "Quarterly figures") (Some "A. Author") None None None None None None
    (mkContext None ∅ None) [letter].

(** A document whose Info dictionary carries a creation date with a time
    zone, 12:00 at +02:00, which its structured accessor reads as the
    instant 10:00 UTC. *)
Definition zoned : PDFDocument :=
  mkDocument None None None None None None (Some (Some 1686823200000)) None
    (mkContext (Some {[ "Info" := PDFRef 1 ]})
       {[ 1%nat := PDFDict {[ "CreationDate" := PDFString "D:20230615120000+02'00'" ]} ]}
       None)
    [letter].

Definition plain_decode (o : PDFObject) : result string :=
  match o with
  | PDFString v | PDFHexString v => ok v
  | _ => throw (TypeError "val.decodeText is not a function")
  end.

(** A world in which every upload parses as [d], every call succeeds and
    every serialization is empty. *)
Definition serving (d : PDFDocument) : World :=
  mkWorld (fun _ _ => ok d) (fun _ => ok []) (fun _ => ok (mkImage (of_Z 100) (of_Z 50)))
    (fun _ => ok (mkImage (of_Z 100) (of_Z 50))) (fun _ => ok []) (fun _ => [])
    (fun _ => None) plain_decode (fun _ => "[object]") (fun _ => None) (fun _ => "0.00").

Definition quiet : World := serving report.

(** The same world with the network down. *)
Definition offline : World :=
  mkWorld (load quiet) (save quiet) (embedPng quiet) (embedJpg quiet)
    (fun _ => throw (TypeError "fetch failed")) (base64 quiet) (encodeText quiet)
    (decodeText quiet) (toString quiet) (Date_parse quiet) (toFixed2 quiet).

Definition upload : File := mkFile [] "application/pdf".

Definition draft_request : WatermarkRequest :=
  mkWatermarkRequest (Some upload) None {[ "text" := "DRAFT" ]}.

Definition remote_image_request : WatermarkRequest :=
  mkWatermarkRequest (Some upload) None
    (<[ "image" := "http://example.org/logo.png" ]> {[ "text" := "DRAFT" ]}).

Definition empty_request : WatermarkRequest :=
  mkWatermarkRequest (Some upload) None ∅.

(** A world whose serializer writes down the creation date and the title
    of a document, and whose parser reads that format: one character for
    the date ([n] for none, [i] for an invalid one, else the sign and the
    sixteen digits of the time value), then one for the title ([N] for
    none, else [T] and the title). An empty upload reads as a document
    without either. Its date parser knows the epoch in ISO form and
    takes every other string for an invalid date. *)
Definition date_code (d : option Date) : string :=
  match d with
  | None => "n"
  | Some None => "i"
  | Some (Some t) => (if t <? 0 then "-" else "+") ++ pad 16 (Z.abs t)
  end.

Definition title_code (t : option string) : string :=
  match t with None => "N" | Some s => String "T" s end.

Definition read_date (s : string) : option Date * string :=
  let value r := Part000.Number_of_digits (substring 0 16 r) in
  let rest r := substring 16 (String.length r - 16) r in
  match s with
  | String "i" r => (Some None, r)
  | String "+" r => (Some (Some (value r)), rest r)
  | String "-" r => (Some (Some (- value r)), rest r)
  | String _ r => (None, r)
  | EmptyString => (None, EmptyString)
  end.

Definition read_title (s : string) : option string :=
  match s with String "T" t => Some t | _ => None end.

Definition archive_load (b : Buffer) : PDFDocument :=
  let '(date, r) := read_date (string_of_list_byte b) in
  mkDocument (read_title r) None None None None None date None (mkContext None ∅ None)
    [letter].

Definition archive_save (d : PDFDocument) : Buffer :=
  list_byte_of_string (date_code (getCreationDate d) ++ title_code (getTitle d)).

Definition archive : World :=
  mkWorld (fun b _ => ok (archive_load b)) (fun d => ok (archive_save d))
    (embedPng quiet) (embedJpg quiet) (fetch quiet) (base64 quiet) (encodeText quiet)
    (decodeText quiet) (toString quiet)
    (fun s => if String.eqb s "1970-01-01T00:00:00.000Z" then Some 0 else None)
    (toFixed2 quiet).

(** The bytes of a document titled "Report Q1": without a creation date,
    with the epoch as its creation date, and with an invalid one. *)
Definition undated_report : File := mkFile (list_byte_of_string "nTReport Q1") "application/pdf".

Definition dated_report : File :=
  mkFile (list_byte_of_string "+0000000000000000TReport Q1") "application/pdf".

Definition misdated_report : File :=
  mkFile (list_byte_of_string "iTReport Q1") "application/pdf".

(** An upload with an invalid creation date and no title. *)
Definition misdated_upload : File := mkFile (list_byte_of_string "iN") "application/pdf".

Definition title_request : MetadataRequest :=
  mkMetadataRequest (Some upload) {[ "title" := "Report Q1" ]}.

(** The same write with a creation date that is no date. *)
Definition misdated_request : MetadataRequest :=
  mkMetadataRequest (Some upload)
    (<[ "creationDate" := "garbage" ]> {[ "title" := "Report Q1" ]}).

Definition draft_settings : Settings :=
  mkSettings (Some "DRAFT") None None None None (Some "yes") (of_decimal false 3 (-1))
    (of_Z 45) (Some (mkImage (of_Z 100) (of_Z 50))).

(** A one-page document with a trailer that names no Info dictionary. *)
Definition filed : PDFDocument :=
  mkDocument (Some "Quarterly figures") None None None None None None None
    (mkContext (Some ∅) ∅ (Some "1.7")) [letter].

Definition no_header : Error := mkError "Error" "No PDF header found".

(** A world in which no upload parses. *)
Definition unreadable : World :=
  mkWorld (fun _ _ => throw no_header) (save quiet)
    (embedPng quiet) (embedJpg quiet) (fetch quiet) (base64 quiet) (encodeText quiet)
    (decodeText quiet) (toString quiet) (Date_parse quiet) (toFixed2 quiet).

Definition inline_image_request : WatermarkRequest :=
  mkWatermarkRequest (Some upload) None {[ "image" := "data:image/png;base64" ]}.

Definition local_image_request : WatermarkRequest :=
  mkWatermarkRequest (Some upload) None {[ "image" := "logo.png" ]}.

Definition stamp_file : File := mkFile [] "image/png".

Definition stamp_request : WatermarkRequest :=
  mkWatermarkRequest (Some upload) (Some stamp_file) {[ "text" := "DRAFT" ]}.

Definition zoned_upload : MetadataRequest := mkMetadataRequest (Some upload) ∅.

End Fixtures.

(* ===================================================================== *)
(** * Properties                                                          *)
(* ===================================================================== *)

Module NumberFacts.
Import JS Reading Fixtures.

Lemma SFcompare_antisym (x y : number) :
  SFcompare x y = option_map CompOpp (SFcompare y x).
Proof.
  destruct x as [s1|s1| |s1 m1 e1], y as [s2|s2| |s2 m2 e2]; simpl;
    try reflexivity; try (destruct s1; reflexivity); try (destruct s2; reflexivity);
    try (destruct s1, s2; reflexivity).
  destruct s1, s2; simpl; try reflexivity;
    rewrite (Z.compare_antisym e1 e2); destruct (e1 ?= e2); simpl; try reflexivity;
    rewrite (ZC4 m1 m2); try rewrite CompOpp_involutive; reflexivity.
Qed.

Lemma not_lt_le (x y : number) :
  isNaN x = false -> isNaN y = false -> lt x y = false -> le y x = true.
Proof.
  unfold lt, le, SFltb, SFleb. intros Hx Hy.
  rewrite (SFcompare_antisym y x).
  destruct (SFcompare x y) as [[]|] eqn:E; simpl; try congruence.
  destruct x, y; simpl in *; try discriminate; try (destruct s; discriminate);
  try (destruct s0; discriminate); try (destruct s, s0; discriminate).
Qed.

Lemma lt_le (x y : number) : lt x y = true -> le x y = true.
Proof. unfold lt, le, SFltb, SFleb. destruct (SFcompare x y) as [[]|]; congruence. Qed.

End NumberFacts.

Module ColourFacts.
Import JS PdfLib Shared NumberFacts Reading Fixtures.

Lemma byte_mask_range (x : Z) : 0 <= and32 x 255 <= 255.
Proof.
  unfold and32. change 255 with (Z.ones 8) at 1 2. rewrite Z.land_ones by lia.
  pose proof (Z.mod_pos_bound x (2 ^ 8) ltac:(lia)). change (Z.ones 8) with 255. lia.
Qed.

Lemma channel_table :
  forallb (fun k => in_unit_range (channel (Z.of_nat k))) (seq 0 256) = true.
Proof. vm_compute. reflexivity. Qed.

Lemma channel_in_unit_range (k : Z) : 0 <= k <= 255 -> in_unit_range (channel k) = true.
Proof.
  intros Hk. pose proof channel_table as T. rewrite forallb_forall in T.
  specialize (T (Z.to_nat k)). rewrite Z2Nat.id in T by lia. apply T.
  apply in_seq. lia.
Qed.

Lemma rgb_of_bytes (r g b : Z) :
  0 <= r <= 255 -> 0 <= g <= 255 -> 0 <= b <= 255 ->
  rgb (channel r) (channel g) (channel b) = inr (mkColor (channel r) (channel g) (channel b)).
Proof.
  intros Hr Hg Hb. unfold rgb.
  rewrite !channel_in_unit_range by assumption. reflexivity.
Qed.

Lemma byte_of_shift (n : Z) :
  and32 (Z.shiftr n 16) 255 = byte_of 2 n /\ and32 (Z.shiftr n 8) 255 = byte_of 1 n
  /\ and32 n 255 = byte_of 0 n.
Proof.
  unfold and32, byte_of. change 255 with (Z.ones 8).
  rewrite !Z.land_ones, !Z.shiftr_div_pow2 by lia.
  change (2 ^ 16) with (256 ^ 2). change (2 ^ 8) with 256. change (256 ^ 1) with 256.
  change (256 ^ 0) with 1. rewrite Z.div_1_r. repeat split.
Qed.

Lemma byte_of_range (k n : Z) : 0 <= byte_of k n <= 255.
Proof. unfold byte_of. pose proof (Z.mod_pos_bound (n / 256 ^ k) 256 ltac:(lia)). lia. Qed.

(** C6, as the code has it: [hexToRgb] raises on no input. Whatever the
    string, it returns the colour whose red, green and blue channels are
    bytes 2, 1 and 0 of the 32-bit integer of [parseInt] on the string
    without its first [#], each over 255 and so within [0, 1]; when
    [parseInt] gives [NaN] the colour is black. Malformed strings get a
    colour: "zzzzzz" black, "fff" (0, 15/255, 1), " ff0000" red, "-ff"
    (1, 1, 1/255), "#-1" white, "0xff" blue, and the eight digits
    "#12345678" (52/255, 86/255, 120/255). *)
Theorem hexToRgb_never_fails :
  (forall hex : string,
      let n := ToInt32 (parseInt (remove_first "#" hex) 16) in
      hexToRgb hex
      = inr (mkColor (channel (byte_of 2 n)) (channel (byte_of 1 n)) (channel (byte_of 0 n)))
      /\ (forall k, 0 <= byte_of k n <= 255 /\ in_unit_range (channel (byte_of k n)) = true)
      /\ (parseInt (remove_first "#" hex) 16 = NaN -> hexToRgb hex = inr black))
  /\ hexToRgb "zzzzzz" = inr black
  /\ hexToRgb "fff" = inr (mkColor (channel 0) (channel 15) (channel 255))
  /\ hexToRgb " ff0000" = inr (mkColor (channel 255) (channel 0) (channel 0))
  /\ hexToRgb "-ff" = inr (mkColor (channel 255) (channel 255) (channel 1))
  /\ hexToRgb "#-1" = inr (mkColor (channel 255) (channel 255) (channel 255))
  /\ hexToRgb "0xff" = inr (mkColor (channel 0) (channel 0) (channel 255))
  /\ hexToRgb "#12345678" = inr (mkColor (channel 52) (channel 86) (channel 120))
  /\ channel 0 = of_Z 0 /\ channel 255 = of_Z 1.
Proof.
  split; [|repeat split; vm_compute; reflexivity].
  intros hex n. split; [|split].
  - unfold hexToRgb, shr32. fold n.
    destruct (byte_of_shift n) as (-> & -> & ->).
    apply rgb_of_bytes; apply byte_of_range.
  - intros k. split; [apply byte_of_range|]. apply channel_in_unit_range, byte_of_range.
  - intros HN. unfold hexToRgb. rewrite HN. vm_compute. reflexivity.
Qed.

Lemma hexToRgb_malformed_returns_black :
  well_formed_hex "zzzzzz" = false /\ hexToRgb "zzzzzz" = inr black /\
  well_formed_hex "fff" = false /\
  hexToRgb "fff" = inr (mkColor (channel 0) (channel 15) (channel 255)).
Proof. vm_compute. repeat split; reflexivity. Qed.

End ColourFacts.

Module OpacityFacts.
Import JS PdfLib Shared NumberFacts Reading Fixtures.

Lemma min_max_clamp (x : number) :
  isNaN x = false -> Math_min [Math_max [x; of_Z 0]; of_Z 1] = clamp01 x.
Proof.
  destruct x as [s|s| |s m e]; try discriminate; intros _.
  - destruct s; reflexivity.
  - destruct s; reflexivity.
  - destruct s; [reflexivity|].
    unfold clamp01, Math_max, Math_min. simpl.
    change (of_Z 0) with (S754_zero false). simpl.
    destruct (lt (of_Z 1) (S754_finite false m e)) eqn:E; unfold lt in *; simpl in *.
    + unfold JS.lt in E. simpl in E. rewrite E. reflexivity.
    + unfold JS.lt in E. simpl in E. rewrite E. reflexivity.
Qed.

Lemma clamp01_range (x : number) :
  isNaN x = false -> le (of_Z 0) (clamp01 x) = true /\ le (clamp01 x) (of_Z 1) = true.
Proof.
  intros Hx. unfold clamp01.
  destruct (lt x (of_Z 0)) eqn:E0; [split; reflexivity|].
  destruct (lt (of_Z 1) x) eqn:E1; [split; reflexivity|].
  assert (le (of_Z 0) x = true) by (apply not_lt_le; auto).
  assert (le x (of_Z 1) = true) by (apply not_lt_le; auto).
  destruct x; try discriminate; split; auto.
Qed.

(** C2: in the longer handler the opacity fields -5, 0, 0.5, 1, 2 and
    "not a number" give 0, 0, 0.5, 1, 1 and 0.3; a missing field and every
    field that reads as [NaN] give 0.3, every other field its number
    clamped into [0, 1], and the result always lies in [0, 1]. The handler
    of [src/index.js] gives 0.3 for the field 0. *)
Theorem opacity_clamp_and_default :
  map Part000.opacity_of
      [Some "-5"; Some "0"; Some "0.5"; Some "1"; Some "2"; Some "not a number"]
    = [of_Z 0; of_Z 0; of_decimal false 5 (-1); of_Z 1; of_Z 1; default_opacity]
  /\ Part000.opacity_of None = default_opacity
  /\ (forall v, isNaN (parseFloat_field v) = true -> Part000.opacity_of v = default_opacity)
  /\ (forall v, isNaN (parseFloat_field v) = false ->
        Part000.opacity_of v = clamp01 (parseFloat_field v))
  /\ (forall v, le (of_Z 0) (Part000.opacity_of v) = true
                /\ le (Part000.opacity_of v) (of_Z 1) = true)
  /\ map Index.opacity_of
      [Some "-5"; Some "0"; Some "0.5"; Some "1"; Some "2"; Some "not a number"]
    = [of_Z 0; default_opacity; of_decimal false 5 (-1); of_Z 1; of_Z 1; default_opacity].
Proof.
  split; [vm_compute; reflexivity|].
  split; [vm_compute; reflexivity|].
  split; [intros v Hv; unfold Part000.opacity_of; rewrite Hv; reflexivity|].
  split; [intros v Hv; unfold Part000.opacity_of; rewrite Hv; apply min_max_clamp, Hv|].
  split; [|vm_compute; reflexivity].
  intros v. unfold Part000.opacity_of.
  destruct (isNaN (parseFloat_field v)) eqn:Hv; [vm_compute; split; reflexivity|].
  rewrite min_max_clamp by exact Hv. apply clamp01_range, Hv.
Qed.
End OpacityFacts.

Module DateFacts.
Import JS Reading Fixtures.

Lemma DaysInYear_leap (y : Z) : DaysInYear y = if is_leap y then 366 else 365.
Proof.
  unfold DaysInYear, is_leap.
  destruct (y mod 4 =? 0) eqn:E4; simpl; [|reflexivity].
  destruct (y mod 100 =? 0) eqn:E100; simpl; [|reflexivity].
  destruct (y mod 400 =? 0); reflexivity.
Qed.

Lemma DayFromYear_succ (y : Z) : DayFromYear (y + 1) = DayFromYear y + DaysInYear y.
Proof.
  unfold DayFromYear, DaysInYear.
  destruct (y mod 4 =? 0) eqn:E4; destruct (y mod 100 =? 0) eqn:E100;
    destruct (y mod 400 =? 0) eqn:E400; simpl;
    rewrite ?Z.eqb_eq, ?Z.eqb_neq in *; Z.to_euclidean_division_equations; lia.
Qed.

Lemma DayFromYear_mono (y y' : Z) : y <= y' -> DayFromYear y <= DayFromYear y'.
Proof. unfold DayFromYear. intros. Z.to_euclidean_division_equations. lia. Qed.

Lemma YearFromDay_bounds (d : Z) :
  DayFromYear (YearFromDay d) <= d < DayFromYear (YearFromDay d + 1).
Proof.
  unfold YearFromDay.
  set (y := 1970 + 400 * d / 146097).
  destruct (DayFromYear (y + 1) <=? d) eqn:E1; [apply Z.leb_le in E1|apply Z.leb_gt in E1].
  - split; [exact E1|]. subst y. unfold DayFromYear in *. Z.to_euclidean_division_equations. lia.
  - destruct (DayFromYear y <=? d) eqn:E2; [apply Z.leb_le in E2|apply Z.leb_gt in E2].
    + split; assumption.
    + replace (y - 1 + 1) with y by lia. split; [|exact E2].
      subst y. unfold DayFromYear in *. Z.to_euclidean_division_equations. lia.
Qed.

Lemma YearFromDay_unique (d y : Z) :
  DayFromYear y <= d < DayFromYear (y + 1) -> YearFromDay d = y.
Proof.
  intros H. pose proof (YearFromDay_bounds d) as B.
  destruct (Z.lt_trichotomy (YearFromDay d) y) as [L|[E|G]]; [|exact E|].
  - pose proof (DayFromYear_mono (YearFromDay d + 1) y ltac:(lia)). lia.
  - pose proof (DayFromYear_mono (y + 1) (YearFromDay d) ltac:(lia)). lia.
Qed.

Lemma time_fields (day H MI S : Z) :
  0 <= H < 24 -> 0 <= MI < 60 -> 0 <= S < 60 ->
  let t := MakeDate day (MakeTime H MI S 0) in
  Day t = day /\ HourFromTime t = H /\ MinFromTime t = MI /\ SecFromTime t = S
  /\ msFromTime t = 0.
Proof.
  intros HH HM HS. unfold MakeDate, MakeTime, Day, HourFromTime, MinFromTime,
    SecFromTime, msFromTime, msPerDay, msPerHour, msPerMinute, msPerSecond.
  repeat split; Z.to_euclidean_division_equations; lia.
Qed.

Lemma month_cases (M : Z) : 1 <= M <= 12 ->
  M = 1 \/ M = 2 \/ M = 3 \/ M = 4 \/ M = 5 \/ M = 6 \/ M = 7 \/ M = 8 \/ M = 9
  \/ M = 10 \/ M = 11 \/ M = 12.
Proof. lia. Qed.

Lemma day_fields (Y M D : Z) :
  1 <= M <= 12 -> 1 <= D <= days_in_month Y M ->
  let day := MakeDay Y (M - 1) D in
  YearFromDay day = Y
  /\ day - DayFromYear Y = month_start (leap_days Y) (M - 1) + D - 1.
Proof.
  intros HM HD day.
  assert (Hday : day = DayFromYear Y + month_start (leap_days Y) (M - 1) + D - 1).
  { unfold day, MakeDay. replace ((M - 1) / 12) with 0 by (Z.to_euclidean_division_equations; lia).
    replace ((M - 1) mod 12) with (M - 1) by (Z.to_euclidean_division_equations; lia).
    rewrite Z.add_0_r, DaysInYear_leap. unfold leap_days. destruct (is_leap Y); reflexivity. }
  split; [|lia].
  apply YearFromDay_unique. rewrite DayFromYear_succ, DaysInYear_leap, Hday.
  unfold days_in_month, leap_days in *.
  destruct (month_cases M HM) as [E|[E|[E|[E|[E|[E|[E|[E|[E|[E|[E|E]]]]]]]]]]]; subst M;
    simpl in *; destruct (is_leap Y); simpl in *; lia.
Qed.

Lemma calendar_fields (Y M D H MI S : Z) :
  1 <= M <= 12 -> 1 <= D <= days_in_month Y M ->
  0 <= H < 24 -> 0 <= MI < 60 -> 0 <= S < 60 ->
  let t := MakeDate (MakeDay Y (M - 1) D) (MakeTime H MI S 0) in
  YearFromTime t = Y /\ MonthFromTime t = M - 1 /\ DateFromTime t = D
  /\ HourFromTime t = H /\ MinFromTime t = MI /\ SecFromTime t = S /\ msFromTime t = 0.
Proof.
  intros HM HD HH HMI HS t.
  destruct (time_fields (MakeDay Y (M - 1) D) H MI S HH HMI HS) as (Ed & Eh & Em & Es & Ems).
  fold t in Ed, Eh, Em, Es, Ems.
  destruct (day_fields Y M D HM HD) as (Ey & Ew).
  assert (EY : YearFromTime t = Y) by (unfold YearFromTime; rewrite Ed; exact Ey).
  assert (EL : InLeapYear t = leap_days Y).
  { unfold InLeapYear. rewrite EY, DaysInYear_leap. unfold leap_days.
    destruct (is_leap Y); reflexivity. }
  assert (EW : DayWithinYear t = month_start (leap_days Y) (M - 1) + D - 1).
  { unfold DayWithinYear. rewrite EY, Ed. exact Ew. }
  repeat split; try assumption.
  - unfold MonthFromTime. rewrite EW, EL. unfold days_in_month, leap_days in *.
    destruct (month_cases M HM) as [E|[E|[E|[E|[E|[E|[E|[E|[E|[E|[E|E]]]]]]]]]]]; subst M;
      simpl in *; destruct (is_leap Y); simpl in *;
      repeat match goal with
             | |- context [?a <? ?b] => destruct (Z.ltb_spec a b); try lia
             end; reflexivity.
  - unfold DateFromTime. rewrite EW, EL.
    assert (EM : MonthFromTime t = M - 1).
    { unfold MonthFromTime. rewrite EW, EL. unfold days_in_month, leap_days in *.
      destruct (month_cases M HM) as [E|[E|[E|[E|[E|[E|[E|[E|[E|[E|[E|E]]]]]]]]]]]; subst M;
        simpl in *; destruct (is_leap Y); simpl in *;
        repeat match goal with
               | |- context [?a <? ?b] => destruct (Z.ltb_spec a b); try lia
               end; reflexivity. }
    rewrite EM. lia.
Qed.
End DateFacts.
Module DigitFacts.
Import JS Part000 Reading Fixtures.

Lemma digits_group_app (n : nat) (g r : string) :
  is_group n g = true -> digits_group n (g ++ r) = Some (g, r).
Proof.
  unfold is_group. revert g. induction n as [|n IH]; intros [|c g] H; simpl in *;
    try discriminate; try reflexivity.
  apply andb_true_iff in H as [Hl H]. apply andb_true_iff in H as [Hc Hg].
  rewrite Hc, IH; [reflexivity|]. rewrite Hl, Hg. reflexivity.
Qed.

Lemma digits_group_inv (n : nat) (s g r : string) :
  digits_group n s = Some (g, r) -> s = g ++ r /\ is_group n g = true.
Proof.
  unfold is_group. revert s g r. induction n as [|n IH]; intros s g r H; simpl in H.
  - inversion H; subst. split; reflexivity.
  - destruct s as [|c s]; [discriminate|].
    destruct (is_digit c) eqn:Hc; [|discriminate].
    destruct (digits_group n s) as [[g' r']|] eqn:E; [|discriminate].
    inversion H; subst. destruct (IH _ _ _ E) as [-> Hg].
    apply andb_true_iff in Hg as [Hl Hg]. simpl. rewrite Hc, Hg.
    split; [reflexivity|]. rewrite andb_true_r. exact Hl.
Qed.

Lemma startsWith_D (s : string) : startsWith "D:" s = true -> s = "D:" ++ drop2 s.
Proof.
  destruct s as [|a [|b s]]; cbn [startsWith drop2]; try discriminate.
  - rewrite andb_false_r. discriminate.
  - intros H. apply andb_true_iff in H as [Ha H]. apply andb_true_iff in H as [Hb _].
    apply Ascii.eqb_eq in Ha, Hb. subst. reflexivity.
Qed.

Lemma decimal_value_snoc (l : list ascii) (c : ascii) :
  decimal_value (l ++ [c]) = (10 * decimal_value l + digit_value c)%N.
Proof. unfold decimal_value. rewrite fold_left_app. reflexivity. Qed.

Lemma string_of_list_ascii_snoc (l : list ascii) (c : ascii) :
  string_of_list_ascii (l ++ [c]) = string_of_list_ascii l ++ String c EmptyString.
Proof. induction l as [|a l IH]; simpl; [reflexivity|]. rewrite IH. reflexivity. Qed.

Lemma digit_char (c : ascii) :
  is_digit c = true ->
  (digit_value c <= 9)%N /\ ascii_of_N (Z.to_N (48 + Z.of_N (digit_value c))) = c.
Proof.
  unfold is_digit, digit_value. intros H. apply andb_true_iff in H as [H1 H2].
  apply N.leb_le in H1, H2. split; [lia|].
  replace (Z.to_N (48 + Z.of_N (N_of_ascii c - 48))) with (N_of_ascii c) by lia.
  apply ascii_N_embedding.
Qed.

Lemma pad_decimal_value (l : list ascii) :
  forallb is_digit l = true ->
  pad (List.length l) (Z.of_N (decimal_value l)) = string_of_list_ascii l
  /\ 0 <= Z.of_N (decimal_value l) < 10 ^ Z.of_nat (List.length l).
Proof.
  induction l as [|c l IH] using rev_ind; intros H.
  - split; [reflexivity|]. simpl. unfold decimal_value. simpl. lia.
  - rewrite forallb_app in H. apply andb_true_iff in H as [Hl Hc]. simpl in Hc.
    rewrite andb_true_r in Hc. destruct (IH Hl) as [IHp IHr].
    destruct (digit_char c Hc) as [Hd Hch].
    rewrite decimal_value_snoc, length_app, string_of_list_ascii_snoc. simpl.
    rewrite Nat.add_1_r. simpl pad.
    replace (Z.of_N (10 * decimal_value l + digit_value c) / 10)
      with (Z.of_N (decimal_value l)) by (Z.to_euclidean_division_equations; lia).
    replace (Z.of_N (10 * decimal_value l + digit_value c) mod 10)
      with (Z.of_N (digit_value c)) by (Z.to_euclidean_division_equations; lia).
    rewrite IHp, Hch. split; [reflexivity|].
    rewrite Nat2Z.inj_succ, Z.pow_succ_r by lia. lia.
Qed.

Lemma all_digits_forallb (g : string) :
  all_digits g = forallb is_digit (list_ascii_of_string g).
Proof. induction g as [|c g IH]; simpl; [reflexivity|]. rewrite IH. reflexivity. Qed.

Lemma length_list_ascii (g : string) :
  List.length (list_ascii_of_string g) = String.length g.
Proof. induction g as [|c g IH]; simpl; [reflexivity|]. rewrite IH. reflexivity. Qed.

Lemma group_value (n : nat) (g : string) :
  is_group n g = true ->
  pad n (Number_of_digits g) = g /\ 0 <= Number_of_digits g < 10 ^ Z.of_nat n.
Proof.
  unfold is_group, Number_of_digits. intros H. apply andb_true_iff in H as [Hl Hg].
  apply Nat.eqb_eq in Hl. rewrite all_digits_forallb in Hg.
  destruct (pad_decimal_value _ Hg) as [Hp Hr].
  rewrite length_list_ascii, Hl, string_of_list_ascii_of_string in *. split; assumption.
Qed.
End DigitFacts.
Module PdfDateFacts.
Import JS Part000 DateFacts DigitFacts Reading Fixtures.

Lemma match_pdf_date_groups (y m d h mi sec rest : string) :
  is_group 4 y = true -> is_group 2 m = true -> is_group 2 d = true ->
  is_group 2 h = true -> is_group 2 mi = true -> is_group 2 sec = true ->
  match_pdf_date ("D:" ++ y ++ m ++ d ++ h ++ mi ++ sec ++ rest) = Some (y, m, d, h, mi, sec).
Proof.
  intros Hy Hm Hd Hh Hmi Hs. unfold match_pdf_date.
  change (startsWith "D:" ("D:" ++ y ++ m ++ d ++ h ++ mi ++ sec ++ rest)) with true.
  change (drop2 ("D:" ++ y ++ m ++ d ++ h ++ mi ++ sec ++ rest))
    with (y ++ m ++ d ++ h ++ mi ++ sec ++ rest).
  cbv iota.
  rewrite (digits_group_app 4 y _ Hy), (digits_group_app 2 m _ Hm),
    (digits_group_app 2 d _ Hd), (digits_group_app 2 h _ Hh),
    (digits_group_app 2 mi _ Hmi), (digits_group_app 2 sec _ Hs). reflexivity.
Qed.

Lemma match_pdf_date_inv (s y m d h mi sec : string) :
  match_pdf_date s = Some (y, m, d, h, mi, sec) ->
  exists rest,
    is_group 4 y = true /\ is_group 2 m = true /\ is_group 2 d = true /\
    is_group 2 h = true /\ is_group 2 mi = true /\ is_group 2 sec = true /\
    s = "D:" ++ y ++ m ++ d ++ h ++ mi ++ sec ++ rest.
Proof.
  unfold match_pdf_date. destruct (startsWith "D:" s) eqn:HD; [|discriminate].
  apply startsWith_D in HD.
  destruct (digits_group 4 (drop2 s)) as [[y' r1]|] eqn:E1; [|discriminate].
  destruct (digits_group 2 r1) as [[m' r2]|] eqn:E2; [|discriminate].
  destruct (digits_group 2 r2) as [[d' r3]|] eqn:E3; [|discriminate].
  destruct (digits_group 2 r3) as [[h' r4]|] eqn:E4; [|discriminate].
  destruct (digits_group 2 r4) as [[mi' r5]|] eqn:E5; [|discriminate].
  destruct (digits_group 2 r5) as [[sec' r6]|] eqn:E6; [|discriminate].
  intros H. inversion H; subst y' m' d' h' mi' sec'. clear H.
  apply digits_group_inv in E1 as [X1 ?], E2 as [X2 ?], E3 as [X3 ?], E4 as [X4 ?],
    E5 as [X5 ?], E6 as [X6 ?].
  exists r6. repeat split; try assumption.
  rewrite HD, X1, X2, X3, X4, X5, X6. reflexivity.
Qed.

Lemma month_start_range (leap mn : Z) :
  0 <= leap <= 1 -> 0 <= mn <= 11 -> 0 <= month_start leap mn <= 335.
Proof.
  intros Hl Hm.
  assert (mn = 0 \/ mn = 1 \/ mn = 2 \/ mn = 3 \/ mn = 4 \/ mn = 5 \/ mn = 6 \/ mn = 7
          \/ mn = 8 \/ mn = 9 \/ mn = 10 \/ mn = 11) as C by lia.
  destruct C as [E|[E|[E|[E|[E|[E|[E|[E|[E|[E|[E|E]]]]]]]]]]]; subst mn; simpl; lia.
Qed.

(** The six numbers of a match never leave the range of time values. *)
Lemma Date_UTC_of_groups (Y M D H MI S : Z) :
  0 <= Y < 10 ^ 4 -> 0 <= M < 10 ^ 2 -> 0 <= D < 10 ^ 2 -> 0 <= H < 10 ^ 2 ->
  0 <= MI < 10 ^ 2 -> 0 <= S < 10 ^ 2 ->
  exists t, Date_UTC Y (M - 1) D H MI S = Some t.
Proof.
  intros HY HM HD HH HMI HS. unfold Date_UTC, TimeClip.
  set (yr := if (0 <=? Y) && (Y <=? 99) then 1900 + Y else Y).
  assert (Hyr : 100 <= yr <= 9999).
  { unfold yr. destruct (Z.leb_spec 0 Y), (Z.leb_spec Y 99); simpl; lia. }
  set (t := MakeDate _ _).
  assert (Ht : Z.abs t <= 8640000000000000).
  { unfold t, MakeDate, MakeDay, MakeTime, msPerDay, msPerHour, msPerMinute, msPerSecond.
    set (ym := yr + (M - 1) / 12).
    assert (Hym : 99 <= ym <= 10007) by (unfold ym; Z.to_euclidean_division_equations; lia).
    pose proof (DayFromYear_mono 99 ym ltac:(lia)) as L1.
    pose proof (DayFromYear_mono ym 10007 ltac:(lia)) as L2.
    replace (DayFromYear 99) with (-683368) in L1 by reflexivity.
    replace (DayFromYear 10007) with 2935454 in L2 by reflexivity.
    pose proof (month_start_range (if DaysInYear ym =? 366 then 1 else 0) ((M - 1) mod 12)
                  ltac:(destruct (DaysInYear ym =? 366); lia)
                  ltac:(Z.to_euclidean_division_equations; lia)) as L3.
    lia. }
  exists t. destruct (Z.ltb_spec 8640000000000000 (Z.abs t)); [lia|reflexivity].
Qed.

Lemma parsePdfDate_of_groups (y m d h mi sec rest : string) :
  is_group 4 y = true -> is_group 2 m = true -> is_group 2 d = true ->
  is_group 2 h = true -> is_group 2 mi = true -> is_group 2 sec = true ->
  exists t,
    Date_UTC (Number_of_digits y) (Number_of_digits m - 1) (Number_of_digits d)
      (Number_of_digits h) (Number_of_digits mi) (Number_of_digits sec) = Some t
    /\ exists iso, toISOString (Some t) = inr iso
    /\ parsePdfDate (Some ("D:" ++ y ++ m ++ d ++ h ++ mi ++ sec ++ rest)) = inr (Some iso).
Proof.
  intros Hy Hm Hd Hh Hmi Hs.
  destruct (Date_UTC_of_groups (Number_of_digits y) (Number_of_digits m) (Number_of_digits d)
              (Number_of_digits h) (Number_of_digits mi) (Number_of_digits sec))
    as [t Ht]; try (apply (group_value 4); assumption); try (apply (group_value 2); assumption).
  exists t. split; [exact Ht|]. eexists. split; [reflexivity|].
  unfold parsePdfDate. change (truthy_string ("D:" ++ _)) with true. cbv iota. simpl negb. cbv iota.
  rewrite match_pdf_date_groups by assumption. rewrite Ht. reflexivity.
Qed.


Lemma TimeClip_Some (x y : Z) : TimeClip x = Some y -> y = x.
Proof. unfold TimeClip. destruct (_ <? _); congruence. Qed.

Lemma parsePdfDate_calendar (y m d h mi sec rest : string) :
  is_group 4 y = true -> is_group 2 m = true -> is_group 2 d = true ->
  is_group 2 h = true -> is_group 2 mi = true -> is_group 2 sec = true ->
  100 <= Number_of_digits y ->
  1 <= Number_of_digits m <= 12 ->
  1 <= Number_of_digits d <= days_in_month (Number_of_digits y) (Number_of_digits m) ->
  Number_of_digits h <= 23 -> Number_of_digits mi <= 59 -> Number_of_digits sec <= 59 ->
  parsePdfDate (Some ("D:" ++ y ++ m ++ d ++ h ++ mi ++ sec ++ rest))
  = inr (Some (y ++ "-" ++ m ++ "-" ++ d ++ "T" ++ h ++ ":" ++ mi ++ ":" ++ sec ++ ".000Z")).
Proof.
  intros Hy Hm Hd Hh Hmi Hs HY HM HD HH HMI HS.
  destruct (parsePdfDate_of_groups y m d h mi sec rest Hy Hm Hd Hh Hmi Hs)
    as (t & Ht & iso & Hiso & ->).
  do 2 f_equal.
  destruct (group_value 4 y Hy) as [Py Ry], (group_value 2 m Hm) as [Pm Rm],
    (group_value 2 d Hd) as [Pd Rd], (group_value 2 h Hh) as [Ph Rh],
    (group_value 2 mi Hmi) as [Pmi Rmi], (group_value 2 sec Hs) as [Ps Rs].
  set (Y := Number_of_digits y) in *. set (M := Number_of_digits m) in *.
  set (D := Number_of_digits d) in *. set (H := Number_of_digits h) in *.
  set (MI := Number_of_digits mi) in *. set (S := Number_of_digits sec) in *.
  unfold Date_UTC in Ht.
  replace ((0 <=? Y) && (Y <=? 99)) with false in Ht
    by (symmetry; apply andb_false_iff; right; apply Z.leb_gt; lia).
  apply TimeClip_Some in Ht. subst t.
  destruct (calendar_fields Y M D H MI S) as (EY & EM & ED & EH & EMI & ES & EMS);
    try lia.
  unfold toISOString in Hiso. rewrite EY, EM, ED, EH, EMI, ES, EMS in Hiso.
  replace ((0 <=? Y) && (Y <=? 9999)) with true in Hiso
    by (symmetry; apply andb_true_iff; split; apply Z.leb_le; change (10 ^ Z.of_nat 4) with 10000 in Ry; lia).
  replace (M - 1 + 1) with M in Hiso by lia.
  rewrite Py, Pm, Pd, Ph, Pmi, Ps in Hiso. inversion Hiso. reflexivity.
Qed.

Lemma parsePdfDate_unshaped (s : string) :
  ~ pdf_date_shaped s -> parsePdfDate (Some s) = inr None.
Proof.
  intros Hn. unfold parsePdfDate. destruct (truthy_string s); [|reflexivity]. simpl.
  destruct (match_pdf_date s) as [[[[[[y m] d] h] mi] sec]|] eqn:E; [|reflexivity].
  exfalso. apply Hn. apply match_pdf_date_inv in E as (rest & H).
  exists y, m, d, h, mi, sec, rest. exact H.
Qed.

(** C8: the legacy date parser. "D:20230615120000" gives
    "2023-06-15T12:00:00.000Z"; a missing value and every string that does
    not start with [D:] and fourteen digits give [null]; every string that
    does start so is read by [Date.UTC] into a time value and written in
    ISO form, whatever follows the fourteen digits, and never raises; and
    when the digits write a date of the calendar in a year from 0100 on,
    the ISO string shows these very digits. It does not for a year
    written 0000 to 0099: "D:00500615120000" gives
    "1950-06-15T12:00:00.000Z". *)
Theorem parsePdfDate_legacy_dates :
  parsePdfDate (Some "D:20230615120000") = inr (Some "2023-06-15T12:00:00.000Z")
  /\ parsePdfDate None = inr None
  /\ (forall s, ~ pdf_date_shaped s -> parsePdfDate (Some s) = inr None)
  /\ (forall y m d h mi sec rest,
        is_group 4 y = true -> is_group 2 m = true -> is_group 2 d = true ->
        is_group 2 h = true -> is_group 2 mi = true -> is_group 2 sec = true ->
        exists t iso,
          Date_UTC (Number_of_digits y) (Number_of_digits m - 1) (Number_of_digits d)
            (Number_of_digits h) (Number_of_digits mi) (Number_of_digits sec) = Some t
          /\ toISOString (Some t) = inr iso
          /\ parsePdfDate (Some ("D:" ++ y ++ m ++ d ++ h ++ mi ++ sec ++ rest))
             = inr (Some iso))
  /\ (forall y m d h mi sec rest,
        is_group 4 y = true -> is_group 2 m = true -> is_group 2 d = true ->
        is_group 2 h = true -> is_group 2 mi = true -> is_group 2 sec = true ->
        100 <= Number_of_digits y ->
        1 <= Number_of_digits m <= 12 ->
        1 <= Number_of_digits d <= days_in_month (Number_of_digits y) (Number_of_digits m) ->
        Number_of_digits h <= 23 -> Number_of_digits mi <= 59 -> Number_of_digits sec <= 59 ->
        parsePdfDate (Some ("D:" ++ y ++ m ++ d ++ h ++ mi ++ sec ++ rest))
        = inr (Some (y ++ "-" ++ m ++ "-" ++ d ++ "T" ++ h ++ ":" ++ mi ++ ":" ++ sec
                     ++ ".000Z")))
  /\ parsePdfDate (Some "D:00500615120000") = inr (Some "1950-06-15T12:00:00.000Z").
Proof.
  split; [vm_compute; reflexivity|].
  split; [reflexivity|].
  split; [exact parsePdfDate_unshaped|].
  split; [|split; [|vm_compute; reflexivity]].
  - intros y m d h mi sec rest Hy Hm Hd Hh Hmi Hs.
    destruct (parsePdfDate_of_groups y m d h mi sec rest Hy Hm Hd Hh Hmi Hs)
      as (t & Ht & iso & Hiso & Hp).
    exists t, iso. auto.
  - exact parsePdfDate_calendar.
Qed.

End PdfDateFacts.

Module HandlerFacts.
Import JS PdfLib Http Shared Reading Fixtures.

Lemma stamper_without_trailer (d : PDFDocument) :
  trailer (context d) = None ->
  addEndlessForgeMetadata d = ([ConsoleWarn warning], inr (stamped d)).
Proof. intros H. unfold addEndlessForgeMetadata. rewrite H. reflexivity. Qed.

Lemma stamper_with_trailer (d : PDFDocument) (t : gmap string PDFObject) :
  trailer (context d) = Some t ->
  addEndlessForgeMetadata d = ([], inl (ReferenceError "infoDictRef is not defined")).
Proof. intros H. unfold addEndlessForgeMetadata. rewrite H. reflexivity. Qed.

Lemma stamper_returns (d d' : PDFDocument) (t : list Event) :
  addEndlessForgeMetadata d = (t, inr d') ->
  trailer (context d) = None /\ t = [ConsoleWarn warning] /\ d' = stamped d.
Proof.
  destruct (trailer (context d)) as [tr|] eqn:E.
  - rewrite (stamper_with_trailer d tr E). discriminate.
  - rewrite (stamper_without_trailer d E). intros H. inversion H. auto.
Qed.

Lemma watermarkDocument_returns (w : World) (req : WatermarkRequest) (pdfFile : File)
    (opacity : number) (t : list Event) (d' : PDFDocument) :
  watermarkDocument w req pdfFile opacity = (t, inr d') ->
  exists d img pages t0,
    load w (buffer pdfFile) true = inr d
    /\ embedImage w (files_image req) (body req !! "image") = (t0, inr img)
    /\ watermarkPages w (settings_of req opacity img) (getPages d) = inr pages
    /\ trailer (context d) = None
    /\ t = (t0 ++ [ConsoleWarn warning])%list
    /\ d' = stamped (with_pages pages d).
Proof.
  unfold watermarkDocument, bind, lift.
  destruct (load w (buffer pdfFile) true) as [e|d]; [discriminate|].
  destruct (embedImage w (files_image req) (body req !! "image")) as [t0 [e|img]];
    [discriminate|].
  fold (settings_of req opacity img).
  destruct (watermarkPages w (settings_of req opacity img) (getPages d)) as [e|pages] eqn:EP;
    [discriminate|].
  destruct (addEndlessForgeMetadata (with_pages pages d)) as [t1 [e|d1]] eqn:E;
    [discriminate|].
  apply stamper_returns in E as (Htr & -> & ->).
  intros H. inversion H; subst. exists d, img, pages, t0.
  repeat split; auto.
Qed.

Lemma watermarkPages_Forall2 (w : World) (s : Settings) (pages pages' : list PDFPage) :
  watermarkPages w s pages = inr pages' ->
  Forall2 (fun p p' => watermarkPage w s p = inr p') pages pages'.
Proof.
  revert pages'. induction pages as [|p ps IH]; intros pages' H; simpl in H.
  - inversion H. constructor.
  - destruct (watermarkPage w s p) as [e|p'] eqn:E; [discriminate|].
    destruct (watermarkPages w s ps) as [e|ps']; [discriminate|].
    inversion H. constructor; auto.
Qed.

(** Without text and without an image a page is left as it is. *)
Lemma watermarkPage_nothing (w : World) (s : Settings) (p : PDFPage) :
  truthy (text s) = false -> embeddedImg s = None -> watermarkPage w s p = inr p.
Proof.
  intros Ht Hi. unfold watermarkPage.
  destruct (anchor _ _ _) as [x y]. rewrite Hi.
  destruct (text s) as [t|]; [|reflexivity].
  simpl in Ht. rewrite Ht. reflexivity.
Qed.

Lemma watermarkPages_nothing (w : World) (s : Settings) (ps : list PDFPage) :
  truthy (text s) = false -> embeddedImg s = None -> watermarkPages w s ps = inr ps.
Proof.
  intros Ht Hi. induction ps as [|p ps IH]; simpl; [reflexivity|].
  rewrite (watermarkPage_nothing w s p Ht Hi), IH. reflexivity.
Qed.

Lemma embedImage_nothing (w : World) (image : option string) :
  truthy image = false -> embedImage w None image = ([], inr None).
Proof.
  intros H. unfold embedImage. destruct image as [url|]; [|reflexivity].
  simpl in H. rewrite H. reflexivity.
Qed.

Lemma with_pages_same (d : PDFDocument) : with_pages (getPages d) d = d.
Proof. destruct d; reflexivity. Qed.

(** A request without content passes through the pipeline untouched but
    for the stamp. *)
Lemma watermarkDocument_no_content (w : World) (req : WatermarkRequest) (pdfFile : File)
    (opacity : number) (d : PDFDocument) :
  truthy (body req !! "text") = false -> truthy (body req !! "image") = false ->
  files_image req = None ->
  load w (buffer pdfFile) true = inr d -> trailer (context d) = None ->
  watermarkDocument w req pdfFile opacity = ([ConsoleWarn warning], inr (stamped d)).
Proof.
  intros Ht Hi Hf Hl Htr. unfold watermarkDocument, bind, lift.
  rewrite Hl, Hf, (embedImage_nothing w _ Hi).
  rewrite watermarkPages_nothing by (simpl; auto).
  rewrite with_pages_same, (stamper_without_trailer d Htr). reflexivity.
Qed.

End HandlerFacts.

Module WatermarkFacts.
Import JS PdfLib Http Shared HandlerFacts Reading Fixtures.

Lemma validation_rejects (w : World) (req : WatermarkRequest) (pdfFile : File) :
  files_pdf req = Some pdfFile ->
  truthy (body req !! "text") = false -> truthy (body req !! "image") = false ->
  files_image req = None ->
  Part000.watermark w req = ([], missing_content).
Proof.
  intros Hp Ht Hi Hf. unfold Part000.watermark. rewrite Hp, Ht, Hi, Hf. reflexivity.
Qed.

Lemma try_catch_pipeline_not_400 (w : World) (label : option string) (m : M PDFDocument)
    (name : string) (t : list Event) (b : Body) :
  try_catch label (let* pdfDoc := m in sendPdf w name pdfDoc) <> (t, Json 400 b).
Proof.
  destruct m as [t0 [e|d]]; simpl; [intros H; inversion H|].
  unfold sendPdf, bind, lift. destruct (save w d); simpl; intros H; inversion H.
Qed.

Lemma validation_only_rejects (w : World) (req : WatermarkRequest) (t : list Event) :
  Part000.watermark w req = (t, missing_content) ->
  t = [] /\ is_Some (files_pdf req) /\ truthy (body req !! "text") = false
  /\ truthy (body req !! "image") = false /\ files_image req = None.
Proof.
  unfold Part000.watermark.
  destruct (files_pdf req) as [pdfFile|]; [|simpl; intros H; inversion H].
  destruct (truthy (body req !! "text")) eqn:Ht; simpl.
  { intros H. exfalso. revert H. apply try_catch_pipeline_not_400. }
  destruct (truthy (body req !! "image")) eqn:Hi; simpl.
  { intros H. exfalso. revert H. apply try_catch_pipeline_not_400. }
  destruct (files_image req) as [f|] eqn:Hf.
  { rewrite bool_decide_eq_true_2 by eauto. simpl.
    intros H. exfalso. revert H. apply try_catch_pipeline_not_400. }
  rewrite bool_decide_eq_false_2 by (intros [? ?]; discriminate). simpl.
  intros H. inversion H. eauto.
Qed.

Lemma embedImage_remote_failure (w : World) (url : string) (e : Error) :
  startsWith "data:image" url = false -> startsWith "http" url = true ->
  (fetch w url = inl e
   \/ exists b, fetch w url = inr b
        /\ (if includes "png" url then embedPng w b else embedJpg w b) = inl e) ->
  embedImage w None (Some url) = ([Fetched url], inl e).
Proof.
  intros Hd Hh Hf. unfold embedImage.
  assert (truthy_string url = true) as -> by (destruct url; [discriminate|reflexivity]).
  rewrite Hd, Hh. unfold bind, emit, lift. simpl.
  destruct Hf as [Hf|(b & Hf & He)]; rewrite Hf; simpl; [reflexivity|].
  destruct (includes "png" url); rewrite He; reflexivity.
Qed.

Lemma watermarkDocument_remote_failure (w : World) (req : WatermarkRequest) (pdfFile : File)
    (opacity : number) (url : string) (d : PDFDocument) (e : Error) :
  files_image req = None -> body req !! "image" = Some url ->
  startsWith "data:image" url = false -> startsWith "http" url = true ->
  load w (buffer pdfFile) true = inr d ->
  (fetch w url = inl e
   \/ exists b, fetch w url = inr b
        /\ (if includes "png" url then embedPng w b else embedJpg w b) = inl e) ->
  watermarkDocument w req pdfFile opacity = ([Fetched url], inl e).
Proof.
  intros Hf Hi Hd Hh Hl He. unfold watermarkDocument, bind, lift.
  rewrite Hl, Hf, Hi, (embedImage_remote_failure w url e Hd Hh He). reflexivity.
Qed.

(** C1, as the code has it: when the [image] field is a remote URL and
    the fetch fails, or the fetched bytes cannot be embedded, both
    watermark handlers answer 500 with the error's message after the one
    outbound request, whether or not text is present. The longer handler
    answers 400 "Provide either watermark text or image" exactly when a
    PDF was uploaded and the text field, the image field and the image
    file are all missing or empty, and then before anything is fetched or
    logged. *)
Theorem remote_image_failure_fails_request :
  (forall (w : World) (req : WatermarkRequest) (pdfFile : File) (url : string)
          (d : PDFDocument) (e : Error),
      files_pdf req = Some pdfFile -> files_image req = None ->
      body req !! "image" = Some url ->
      startsWith "data:image" url = false -> startsWith "http" url = true ->
      load w (buffer pdfFile) true = inr d ->
      (fetch w url = inl e
       \/ exists b, fetch w url = inr b
            /\ (if includes "png" url then embedPng w b else embedJpg w b) = inl e) ->
      Part000.watermark w req
        = ([Fetched url; ConsoleError (Some "Watermark error:") e],
           Json 500 (ErrorBody (message e)))
      /\ Index.watermark w req
        = ([Fetched url; ConsoleError None e], Json 500 (ErrorBody (message e))))
  /\ (forall (w : World) (req : WatermarkRequest) (t : list Event),
        Part000.watermark w req = (t, missing_content) <->
        t = [] /\ is_Some (files_pdf req) /\ truthy (body req !! "text") = false
        /\ truthy (body req !! "image") = false /\ files_image req = None).
Proof.
  split.
  - intros w req pdfFile url d e Hp Hf Hi Hd Hh Hl He.
    assert (Hu : truthy (body req !! "image") = true).
    { rewrite Hi. destruct url; [discriminate|reflexivity]. }
    split.
    + unfold Part000.watermark. rewrite Hp, Hu, andb_false_r. simpl.
      rewrite (watermarkDocument_remote_failure w req pdfFile _ url d e Hf Hi Hd Hh Hl He).
      reflexivity.
    + unfold Index.watermark. rewrite Hp.
      rewrite (watermarkDocument_remote_failure w req pdfFile _ url d e Hf Hi Hd Hh Hl He).
      reflexivity.
  - intros w req t. split.
    + apply validation_only_rejects.
    + intros (-> & [pdfFile Hp] & Ht & Hi & Hf). eapply validation_rejects; eauto.
Qed.

Lemma remote_image_failure_witness :
  Part000.watermark offline remote_image_request
    = ([Fetched "http://example.org/logo.png";
        ConsoleError (Some "Watermark error:") (TypeError "fetch failed")],
       Json 500 (ErrorBody "fetch failed"))
  /\ Index.watermark offline remote_image_request
    = ([Fetched "http://example.org/logo.png"; ConsoleError None (TypeError "fetch failed")],
       Json 500 (ErrorBody "fetch failed")).
Proof.
  apply (proj1 remote_image_failure_fails_request offline remote_image_request upload
           "http://example.org/logo.png" report (TypeError "fetch failed"));
    try reflexivity.
  left. reflexivity.
Defined.

(** With the network down a request that carries text and a remote image
    is refused, although the same request without the image is served. *)
Lemma remote_image_failure_is_not_text_only :
  (exists url, body remote_image_request !! "image" = Some url
               /\ startsWith "http" url = true /\ fetch offline url = inl (TypeError "fetch failed"))
  /\ truthy (body remote_image_request !! "text") = true
  /\ Part000.watermark offline remote_image_request
     = ([Fetched "http://example.org/logo.png";
         ConsoleError (Some "Watermark error:") (TypeError "fetch failed")],
        Json 500 (ErrorBody "fetch failed"))
  /\ Index.watermark offline remote_image_request
     = ([Fetched "http://example.org/logo.png"; ConsoleError None (TypeError "fetch failed")],
        Json 500 (ErrorBody "fetch failed"))
  /\ Part000.watermark offline draft_request = ([ConsoleWarn warning], Pdf "watermarked.pdf" []).
Proof.
  split; [exists "http://example.org/logo.png"; repeat split; reflexivity|].
  repeat split; vm_compute; reflexivity.
Qed.

End WatermarkFacts.

Module ContentFacts.
Import JS PdfLib Http Shared HandlerFacts WatermarkFacts Reading Fixtures.

(** C5: a watermark request with a PDF but without text, image field
    and image file is answered 400 "Provide either watermark text or
    image" by the longer handler, with nothing logged. The handler of
    [src/index.js] has no such check: when the upload parses, has no
    trailer to stamp and serializes, it answers the same request with the
    stamped, otherwise untouched document. *)
Theorem missing_content_validation :
  (forall (w : World) (req : WatermarkRequest) (pdfFile : File),
      files_pdf req = Some pdfFile ->
      truthy (body req !! "text") = false -> truthy (body req !! "image") = false ->
      files_image req = None ->
      Part000.watermark w req = ([], missing_content))
  /\ (forall (w : World) (req : WatermarkRequest) (pdfFile : File) (d : PDFDocument)
             (bytes : Buffer),
        files_pdf req = Some pdfFile ->
        truthy (body req !! "text") = false -> truthy (body req !! "image") = false ->
        files_image req = None ->
        load w (buffer pdfFile) true = inr d -> trailer (context d) = None ->
        save w (stamped d) = inr bytes ->
        Index.watermark w req = ([ConsoleWarn warning], Pdf "watermarked.pdf" bytes))
  /\ Index.watermark quiet empty_request = ([ConsoleWarn warning], Pdf "watermarked.pdf" []).
Proof.
  split; [exact validation_rejects|]. split; [|vm_compute; reflexivity].
  intros w req pdfFile d bytes Hp Ht Hi Hf Hl Htr Hs.
  unfold Index.watermark. rewrite Hp.
  rewrite (watermarkDocument_no_content w req pdfFile _ d Ht Hi Hf Hl Htr).
  unfold sendPdf, bind, lift, try_catch. rewrite Hs. reflexivity.
Qed.

Lemma watermark_sends_stamped (w : World) (req : WatermarkRequest) (t : list Event)
    (name : string) (bytes : Buffer) :
  Part000.watermark w req = (t, Pdf name bytes) \/ Index.watermark w req = (t, Pdf name bytes) ->
  exists pdfFile d img pages opacity,
    files_pdf req = Some pdfFile
    /\ load w (buffer pdfFile) true = inr d
    /\ watermarkPages w (settings_of req opacity img) (getPages d) = inr pages
    /\ trailer (context d) = None
    /\ save w (stamped (with_pages pages d)) = inr bytes.
Proof.
  assert (G : forall label pdfFile opacity,
             files_pdf req = Some pdfFile ->
             try_catch label (let* pdfDoc := watermarkDocument w req pdfFile opacity in
                        sendPdf w "watermarked.pdf" pdfDoc) = (t, Pdf name bytes) ->
             exists pdfFile d img pages opacity,
               files_pdf req = Some pdfFile
               /\ load w (buffer pdfFile) true = inr d
               /\ watermarkPages w (settings_of req opacity img) (getPages d) = inr pages
               /\ trailer (context d) = None
               /\ save w (stamped (with_pages pages d)) = inr bytes).
  { intros label pdfFile opacity Hp.
    destruct (watermarkDocument w req pdfFile opacity) as [t0 [e|d']] eqn:E; simpl;
      [intros H; inversion H|].
    apply watermarkDocument_returns in E as (d & img & pages & t1 & Hl & _ & Hw & Htr & _ & ->).
    unfold sendPdf, bind, lift.
    destruct (save w (stamped (with_pages pages d))) as [e|b] eqn:Hs; simpl;
      intros H; inversion H; subst.
    exists pdfFile, d, img, pages, opacity. auto. }
  intros [H|H].
  - unfold Part000.watermark in H.
    destruct (files_pdf req) as [pdfFile|] eqn:Hp; [|simpl in H; inversion H].
    destruct (_ && _) in H; [simpl in H; inversion H|]. eapply G; eauto.
  - unfold Index.watermark in H.
    destruct (files_pdf req) as [pdfFile|] eqn:Hp; [|simpl in H; inversion H].
    eapply G; eauto.
Qed.

End ContentFacts.

Module WriterFacts.
Import JS PdfLib Http Shared HandlerFacts Reading Fixtures.

Lemma set_if_frame {A B} (proj : PDFDocument -> B) (v : option string) (f : string -> A)
    (setter : A -> PDFDocument -> PDFDocument) (d : PDFDocument) :
  (forall x d0, proj (setter x d0) = proj d0) -> proj (set_if v f setter d) = proj d.
Proof. intros H. unfold set_if. destruct v as [s|]; [destruct (truthy_string s)|]; auto. Qed.

Lemma set_if_hit {A B} (proj : PDFDocument -> option B) (v : option string) (f : string -> A)
    (g : A -> B) (setter : A -> PDFDocument -> PDFDocument) (d : PDFDocument) :
  (forall x d0, proj (setter x d0) = Some (g x)) ->
  proj (set_if v f setter d) = overwrite v (fun s => g (f s)) (proj d).
Proof.
  intros H. unfold set_if, overwrite. destruct v as [s|]; [destruct (truthy_string s)|]; auto.
Qed.

Ltac field_of_write :=
  repeat (rewrite set_if_frame by reflexivity);
  try (rewrite (set_if_hit _ _ _ id) by reflexivity);
  repeat (rewrite set_if_frame by reflexivity);
  reflexivity.

Lemma writeMetadata_fields (w : World) (b : gmap string string) (d : PDFDocument) :
  let d' := Part000.writeMetadata w b d in
  getTitle d' = overwrite (b !! "title") id (getTitle d)
  /\ getAuthor d' = overwrite (b !! "author") id (getAuthor d)
  /\ getSubject d' = overwrite (b !! "subject") id (getSubject d)
  /\ getKeywords d'
     = overwrite (b !! "keywords") (fun k => String.concat " " (map trim (split "," k)))
         (getKeywords d)
  /\ getCreator d' = overwrite (b !! "creator") id (getCreator d)
  /\ getProducer d' = overwrite (b !! "producer") id (getProducer d)
  /\ getCreationDate d' = overwrite (b !! "creationDate") (Date_parse w) (getCreationDate d)
  /\ getModificationDate d'
     = overwrite (b !! "modDate") (Date_parse w) (getModificationDate d)
  /\ context d' = context d /\ getPages d' = getPages d.
Proof.
  unfold Part000.writeMetadata. cbv zeta.
  repeat split; try field_of_write.
  repeat (rewrite set_if_frame by reflexivity).
  rewrite (set_if_hit _ _ _ (String.concat " ")) by reflexivity.
  repeat (rewrite set_if_frame by reflexivity). reflexivity.
Qed.

Lemma index_writeMetadata_fields (b : gmap string string) (d : PDFDocument) :
  let d' := Index.writeMetadata b d in
  getTitle d' = overwrite (b !! "title") id (getTitle d)
  /\ getAuthor d' = overwrite (b !! "author") id (getAuthor d)
  /\ getSubject d' = overwrite (b !! "subject") id (getSubject d)
  /\ getProducer d' = overwrite (b !! "producer") id (getProducer d)
  /\ getCreator d' = getCreator d
  /\ context d' = context d /\ getPages d' = getPages d.
Proof.
  unfold Index.writeMetadata. cbv zeta. repeat split; field_of_write.
Qed.

Lemma index_writeMetadata_keywords (b : gmap string string) (d : PDFDocument) :
  let d' := Index.writeMetadata b d in
  getKeywords d' = overwrite (b !! "keywords") (fun k => String.concat " " (split "," k))
                     (getKeywords d)
  /\ getCreationDate d' = getCreationDate d
  /\ getModificationDate d' = getModificationDate d.
Proof.
  unfold Index.writeMetadata. cbv zeta. repeat split.
  - repeat (rewrite set_if_frame by reflexivity).
    rewrite (set_if_hit _ _ _ (String.concat " ")) by reflexivity.
    repeat (rewrite set_if_frame by reflexivity). reflexivity.
  - repeat (rewrite set_if_frame by reflexivity). reflexivity.
  - repeat (rewrite set_if_frame by reflexivity). reflexivity.
Qed.

End WriterFacts.

Module ShadowFacts.
Import JS PdfLib Http Shared HandlerFacts Reading Fixtures.




End ShadowFacts.

Module ClaimFacts.
Import JS PdfLib Http Shared HandlerFacts WatermarkFacts ContentFacts WriterFacts ShadowFacts Reading Fixtures.


(** C4, as the code has it: on a document whose context has no usable
    trailer the stamper logs a warning, leaves the context (and so every
    Info dictionary) as it is, and sets the structured Producer, Creator
    and Title to the fixed values, overwriting any title. Every PDF a
    watermark handler sends is the serialization of a document stamped
    so. The metadata write handlers never call the stamper: the title,
    creator and producer they serialize are the uploaded document's
    unless the request overwrites them, and nothing is logged. *)
Theorem provenance_stamp_without_trailer :
  (forall d : PDFDocument,
      trailer (context d) = None ->
      addEndlessForgeMetadata d = ([ConsoleWarn warning], inr (stamped d))
      /\ context (stamped d) = context d
      /\ getProducer (stamped d) = Some "Endless Forge PDF API"
      /\ getCreator (stamped d) = Some "Endless Forge"
      /\ getTitle (stamped d) = Some "Generated PDF")
  /\ (forall (w : World) (req : WatermarkRequest) (t : list Event) (name : string)
             (bytes : Buffer),
        Part000.watermark w req = (t, Pdf name bytes)
        \/ Index.watermark w req = (t, Pdf name bytes) ->
        exists d' : PDFDocument,
          save w d' = inr bytes
          /\ getProducer d' = Some "Endless Forge PDF API"
          /\ getCreator d' = Some "Endless Forge"
          /\ getTitle d' = Some "Generated PDF")
  /\ (forall (w : World) (req : MetadataRequest) (t : list Event) (name : string)
             (bytes : Buffer),
        Part000.metadata_set w req = (t, Pdf name bytes) ->
        exists f d,
          file req = Some f /\ load w (buffer f) true = inr d
          /\ save w (Part000.writeMetadata w (fields req) d) = inr bytes /\ t = []
          /\ getTitle (Part000.writeMetadata w (fields req) d)
             = overwrite (fields req !! "title") id (getTitle d)
          /\ getCreator (Part000.writeMetadata w (fields req) d)
             = overwrite (fields req !! "creator") id (getCreator d)
          /\ getProducer (Part000.writeMetadata w (fields req) d)
             = overwrite (fields req !! "producer") id (getProducer d))
  /\ (forall (w : World) (req : MetadataRequest) (t : list Event) (name : string)
             (bytes : Buffer),
        Index.metadata_set w req = (t, Pdf name bytes) ->
        exists f d,
          file req = Some f /\ load w (buffer f) true = inr d
          /\ save w (Index.writeMetadata (fields req) d) = inr bytes /\ t = []
          /\ getTitle (Index.writeMetadata (fields req) d)
             = overwrite (fields req !! "title") id (getTitle d)
          /\ getCreator (Index.writeMetadata (fields req) d) = getCreator d
          /\ getProducer (Index.writeMetadata (fields req) d)
             = overwrite (fields req !! "producer") id (getProducer d)).
Proof.
  split; [|split; [|split]].
  - intros d Htr. split; [apply stamper_without_trailer, Htr|]. repeat split.
  - intros w req t name bytes H.
    destruct (watermark_sends_stamped w req t name bytes H)
      as (pdfFile & d & img & pages & opacity & _ & _ & _ & _ & Hs).
    exists (stamped (with_pages pages d)). repeat split. exact Hs.
  - intros w req t name bytes. unfold Part000.metadata_set.
    destruct (file req) as [f|]; [|simpl; intros H; inversion H].
    unfold bind, lift, sendPdf. destruct (load w (buffer f) true) as [e|d] eqn:Hl;
      [simpl; intros H; inversion H|].
    destruct (save w (Part000.writeMetadata w (fields req) d)) as [e|b] eqn:Hs; simpl;
      intros H; inversion H; subst.
    exists f, d. destruct (writeMetadata_fields w (fields req) d)
      as (Ht & _ & _ & _ & Hc & Hp & _).
    repeat split; auto.
  - intros w req t name bytes. unfold Index.metadata_set.
    destruct (file req) as [f|]; [|simpl; intros H; inversion H].
    unfold bind, lift, sendPdf. destruct (load w (buffer f) true) as [e|d] eqn:Hl;
      [simpl; intros H; inversion H|].
    destruct (save w (Index.writeMetadata (fields req) d)) as [e|b] eqn:Hs; simpl;
      intros H; inversion H; subst.
    exists f, d. destruct (index_writeMetadata_fields (fields req) d)
      as (Ht & _ & _ & Hp & Hc & _).
    repeat split; auto.
Qed.

Lemma provenance_stamp_witness :
  addEndlessForgeMetadata report = ([ConsoleWarn warning], inr (stamped report))
  /\ context (stamped report) = context report
  /\ getProducer (stamped report) = Some "Endless Forge PDF API"
  /\ getCreator (stamped report) = Some "Endless Forge"
  /\ getTitle (stamped report) = Some "Generated PDF".
Proof. apply (proj1 provenance_stamp_without_trailer report). reflexivity. Defined.

(** The document the watermark handler serializes for [draft_request]
    has no Info dictionary and no raw field. *)
Lemma stamp_creates_no_info_dictionary :
  exists d' : PDFDocument,
    watermarkDocument quiet draft_request upload (Part000.opacity_of None)
      = ([ConsoleWarn warning], inr d')
    /\ Part000.watermark quiet draft_request = ([ConsoleWarn warning], Pdf "watermarked.pdf" [])
    /\ trailer (context d') = None
    /\ Part000.infoDict d' = None
    /\ Part000.safeGet quiet (Part000.infoDict d') "Producer" = None
    /\ Part000.safeGet quiet (Part000.infoDict d') "Creator" = None
    /\ Part000.safeGet quiet (Part000.infoDict d') "Comments" = None.
Proof.
  eexists. split; [vm_compute; reflexivity|]. repeat split; vm_compute; reflexivity.
Qed.

(** C7, as the code has it: the metadata write handler overwrites each
    of its eight fields when the request's field is a non-empty string,
    untrimmed, and leaves it alone when the field is missing or empty;
    the keywords are split at commas, each piece trimmed, and stored
    joined by spaces; the dates are what the engine parses from the
    field; context and pages are untouched; the response is the
    serialization of the document written so. The handler of
    [src/index.js] does the same for title, author, subject and producer
    only: it stores the pieces of the keywords untrimmed and leaves
    creator, creation date and modification date as they are, whatever
    the request holds. *)
Theorem metadata_write_overwrites_nonempty_fields :
  (forall (w : World) (b : gmap string string) (d : PDFDocument),
      let d' := Part000.writeMetadata w b d in
      getTitle d' = overwrite (b !! "title") id (getTitle d)
      /\ getAuthor d' = overwrite (b !! "author") id (getAuthor d)
      /\ getSubject d' = overwrite (b !! "subject") id (getSubject d)
      /\ getKeywords d'
         = overwrite (b !! "keywords") (fun k => String.concat " " (map trim (split "," k)))
             (getKeywords d)
      /\ getCreator d' = overwrite (b !! "creator") id (getCreator d)
      /\ getProducer d' = overwrite (b !! "producer") id (getProducer d)
      /\ getCreationDate d' = overwrite (b !! "creationDate") (Date_parse w) (getCreationDate d)
      /\ getModificationDate d'
         = overwrite (b !! "modDate") (Date_parse w) (getModificationDate d)
      /\ context d' = context d /\ getPages d' = getPages d)
  /\ (forall (b : gmap string string) (d : PDFDocument),
        let d' := Index.writeMetadata b d in
        getTitle d' = overwrite (b !! "title") id (getTitle d)
        /\ getAuthor d' = overwrite (b !! "author") id (getAuthor d)
        /\ getSubject d' = overwrite (b !! "subject") id (getSubject d)
        /\ getKeywords d'
           = overwrite (b !! "keywords") (fun k => String.concat " " (split "," k))
               (getKeywords d)
        /\ getCreator d' = getCreator d
        /\ getProducer d' = overwrite (b !! "producer") id (getProducer d)
        /\ getCreationDate d' = getCreationDate d
        /\ getModificationDate d' = getModificationDate d
        /\ context d' = context d /\ getPages d' = getPages d)
  /\ (forall (A : Type) (f : string -> A) (old : option A),
        overwrite None f old = old /\ overwrite (Some "") f old = old
        /\ forall s, s <> "" -> overwrite (Some s) f old = Some (f s))
  /\ (forall (w : World) (f : File) (b : gmap string string) (d : PDFDocument),
        load w (buffer f) true = inr d ->
        Part000.metadata_set w (mkMetadataRequest (Some f) b)
        = try_catch (Some "Metadata edit error:")
            (sendPdf w "metadata-updated.pdf" (Part000.writeMetadata w b d))
        /\ Index.metadata_set w (mkMetadataRequest (Some f) b)
           = try_catch_silent (sendPdf w "metadata-updated.pdf" (Index.writeMetadata b d))).
Proof.
  split; [exact writeMetadata_fields|]. split; [|split].
  - intros b d. destruct (index_writeMetadata_fields b d) as (H1 & H2 & H3 & H4 & H5 & H6 & H7).
    destruct (index_writeMetadata_keywords b d) as (K1 & K2 & K3).
    cbv zeta in *. repeat split; assumption.
  - intros A f old. repeat split. intros [|c s] Hs; [contradiction|reflexivity].
  - intros w f b d Hl. unfold Part000.metadata_set, Index.metadata_set. cbn [file fields].
    unfold lift, bind. rewrite Hl.
    destruct (sendPdf w _ (Part000.writeMetadata w b d)) as [t r].
    destruct (sendPdf w _ (Index.writeMetadata b d)) as [t' r']. split; reflexivity.
Qed.

(** A title of one space is written over the old title, although nothing
    is left of it after trimming. *)
Lemma whitespace_title_is_written :
  trim " " = ""
  /\ getTitle report = Some "Quarterly figures"
  /\ getTitle (Part000.writeMetadata quiet {[ "title" := " " ]} report) = Some " "
  /\ getTitle (Index.writeMetadata {[ "title" := " " ]} report) = Some " "
  /\ overwrite_trimmed (({[ "title" := " " ]} : gmap string string) !! "title") (getTitle report)
     = Some "Quarterly figures".
Proof. repeat split; vm_compute; reflexivity. Qed.

End ClaimFacts.

Module ReadFacts.
Import JS PdfLib Http Shared Part000 DateFacts DigitFacts PdfDateFacts HandlerFacts
  WriterFacts Reading Fixtures.

Lemma truthy_string_app (a : string) (c : ascii) (b : string) :
  truthy_string (a ++ String c b) = true.
Proof. destruct a; reflexivity. Qed.

Lemma toISOString_truthy (d : Date) (iso : string) :
  toISOString d = inr iso -> truthy_string iso = true.
Proof.
  unfold toISOString. destruct d as [t|]; [|discriminate].
  intros H. inversion H. apply truthy_string_app.
Qed.

Lemma parsePdfDate_total (raw : option string) : exists r, parsePdfDate raw = inr r.
Proof.
  destruct raw as [s|]; [|exists None; reflexivity].
  unfold parsePdfDate. destruct (truthy_string s); [|exists None; reflexivity]. simpl.
  destruct (match_pdf_date s) as [[[[[[y m] d] h] mi] sec]|] eqn:E; [|exists None; reflexivity].
  apply match_pdf_date_inv in E as (rest & Hy & Hm & Hd & Hh & Hmi & Hs & ->).
  destruct (parsePdfDate_of_groups y m d h mi sec rest Hy Hm Hd Hh Hmi Hs)
    as (t & Ht & iso & Hiso & _).
  rewrite Ht, Hiso. exists (Some iso). reflexivity.
Qed.

Lemma parsePdfDate_truthy (raw : option string) (iso : string) :
  parsePdfDate raw = inr (Some iso) -> truthy_string iso = true.
Proof.
  destruct raw as [s|]; [|discriminate].
  unfold parsePdfDate. destruct (truthy_string s); [|discriminate]. simpl.
  destruct (match_pdf_date s) as [[[[[[y m] d] h] mi] sec]|]; [|discriminate].
  destruct (toISOString _) as [e|iso'] eqn:E; [discriminate|].
  intros H. inversion H; subst. eapply toISOString_truthy, E.
Qed.

Lemma date_entry_spec (raw : option string) (structured : option Date) :
  date_entry raw structured
  = match parsePdfDate raw with
    | inr (Some iso) => inr (Some iso)
    | inr None => structured_date structured
    | inl e => inl e
    end.
Proof.
  unfold date_entry, structured_date.
  destruct (parsePdfDate raw) as [e|[iso|]] eqn:E; [reflexivity| |].
  - simpl. rewrite (parsePdfDate_truthy raw iso E). reflexivity.
  - simpl. destruct structured as [d|]; [|reflexivity].
    destruct (toISOString d) as [e|iso] eqn:Ei; [reflexivity|].
    rewrite (toISOString_truthy d iso Ei). reflexivity.
Qed.

Lemma date_entry_truthy (raw : option string) (structured : option Date) (iso : string) :
  date_entry raw structured = inr (Some iso) -> truthy_string iso = true.
Proof.
  rewrite date_entry_spec.
  destruct (parsePdfDate raw) as [e|[iso'|]] eqn:E; [discriminate| |].
  - intros H. inversion H; subst. eapply parsePdfDate_truthy, E.
  - unfold structured_date. destruct structured as [d|]; [|discriminate].
    destruct (toISOString d) as [e|iso'] eqn:Ei; [discriminate|].
    intros H. inversion H; subst. eapply toISOString_truthy, Ei.
Qed.

Lemma date_entry_returns (raw : option string) (structured : option Date) :
  structured <> Some None -> exists r, date_entry raw structured = inr r.
Proof.
  intros Hs. rewrite date_entry_spec.
  destruct (parsePdfDate_total raw) as [[iso|] ->]; [eauto|].
  destruct structured as [[t|]|]; [|contradiction|]; simpl; eauto.
Qed.

Lemma entry_drop_falsy_cons (key k : string) (v : option string)
    (es : list (string * option string)) :
  entry key (drop_falsy ((k, v) :: es))
  = if String.eqb k key then
      match kept v with Some s => Some s | None => entry key (drop_falsy es) end
    else entry key (drop_falsy es).
Proof.
  unfold entry, drop_falsy, kept. simpl.
  destruct v as [s|]; simpl; [destruct (truthy_string s); simpl|];
    destruct (String.eqb k key); reflexivity.
Qed.

Lemma kept_date_entry (raw : option string) (structured : option Date) (c : option string) :
  date_entry raw structured = inr c -> kept c = c.
Proof.
  destruct c as [iso|]; [|reflexivity]. intros H. unfold kept. simpl.
  rewrite (date_entry_truthy _ _ _ H). reflexivity.
Qed.

Lemma core_metadata_returns (w : World) (d : PDFDocument) (m : list (string * option string)) :
  core_metadata w d = inr m ->
  exists c md,
    date_entry (safeGet w (infoDict d) "CreationDate") (getCreationDate d) = inr c
    /\ date_entry (safeGet w (infoDict d) "ModDate") (getModificationDate d) = inr md
    /\ m = [ ("title", or_else (getTitle d) (safeGet w (infoDict d) "Title"));
             ("author", or_else (getAuthor d) (safeGet w (infoDict d) "Author"));
             ("subject", or_else (getSubject d) (safeGet w (infoDict d) "Subject"));
             ("keywords", or_else (getKeywords d) (safeGet w (infoDict d) "Keywords"));
             ("creator", or_else (getCreator d) (safeGet w (infoDict d) "Creator"));
             ("producer", or_else (getProducer d) (safeGet w (infoDict d) "Producer"));
             ("creationDate", c);
             ("modificationDate", md) ].
Proof.
  unfold core_metadata.
  destruct (date_entry _ (getCreationDate d)) as [e|c]; [discriminate|].
  destruct (date_entry _ (getModificationDate d)) as [e|md]; [discriminate|].
  intros H. inversion H. eauto.
Qed.

Lemma metadata_get_returns (w : World) (req : MetadataRequest) (t : list Event)
    (m c : list (string * string)) (tech : Technical) :
  Part000.metadata_get w req = (t, Json 200 (MetadataBody m c tech)) ->
  t = [] /\ exists f d raw,
    file req = Some f /\ load w (buffer f) false = inr d /\ core_metadata w d = inr raw
    /\ m = drop_falsy raw /\ c = drop_falsy (custom_fields w d)
    /\ tech = technical_info w (buffer f) d.
Proof.
  unfold Part000.metadata_get. destruct (file req) as [f|]; [|simpl; intros H; inversion H].
  unfold bind, lift. destruct (load w (buffer f) false) as [e|d] eqn:Hl;
    [simpl; intros H; inversion H|].
  destruct (core_metadata w d) as [e|raw] eqn:Hc; simpl; intros H; inversion H; subst.
  split; [reflexivity|]. exists f, d, raw. repeat split; assumption || reflexivity.
Qed.

Lemma metadata_get_dates (w : World) (d : PDFDocument) (raw : list (string * option string)) :
  core_metadata w d = inr raw ->
  date_entry (safeGet w (infoDict d) "CreationDate") (getCreationDate d)
  = inr (entry "creationDate" (drop_falsy raw))
  /\ date_entry (safeGet w (infoDict d) "ModDate") (getModificationDate d)
     = inr (entry "modificationDate" (drop_falsy raw)).
Proof.
  intros H. apply core_metadata_returns in H as (c & md & Hc & Hmd & ->).
  rewrite !entry_drop_falsy_cons. simpl.
  rewrite (kept_date_entry _ _ _ Hc), (kept_date_entry _ _ _ Hmd).
  rewrite Hc, Hmd. split; f_equal.
  - destruct c; reflexivity.
  - destruct md; reflexivity.
Qed.

(** C3, as the code has it: in the metadata read handler the creation
    and modification dates come from the raw Info-dictionary string
    whenever it parses as a legacy PDF date, whatever the structured
    accessor holds; the structured accessor's date, in ISO form, is the
    fallback when the raw string is absent or does not parse (an invalid
    date there raises a RangeError), and the parser itself never raises.
    The two dates of a 200 response are exactly these values. *)
Theorem raw_date_takes_priority :
  (forall raw structured iso,
      parsePdfDate raw = inr (Some iso) -> date_entry raw structured = inr (Some iso))
  /\ (forall raw structured,
        parsePdfDate raw = inr None -> date_entry raw structured = structured_date structured)
  /\ (forall raw, exists r, parsePdfDate raw = inr r)
  /\ (forall (w : World) (req : MetadataRequest) (t : list Event)
             (m c : list (string * string)) (tech : Technical),
        Part000.metadata_get w req = (t, Json 200 (MetadataBody m c tech)) ->
        exists f d,
          file req = Some f /\ load w (buffer f) false = inr d
          /\ date_entry (safeGet w (infoDict d) "CreationDate") (getCreationDate d)
             = inr (entry "creationDate" m)
          /\ date_entry (safeGet w (infoDict d) "ModDate") (getModificationDate d)
             = inr (entry "modificationDate" m)).
Proof.
  split; [|split; [|split]].
  - intros raw structured iso H. rewrite date_entry_spec, H. reflexivity.
  - intros raw structured H. rewrite date_entry_spec, H. reflexivity.
  - exact parsePdfDate_total.
  - intros w req t m c tech H.
    apply metadata_get_returns in H as (_ & f & d & raw & Hf & Hl & Hc & -> & _).
    exists f, d. destruct (metadata_get_dates w d raw Hc) as [H1 H2]. auto.
Qed.

(** The raw creation date of [zoned] reads 12:00 and its structured
    accessor 10:00 UTC: the response carries the raw one. *)
Lemma structured_date_is_overridden :
  getCreationDate zoned = Some (Some 1686823200000)
  /\ toISOString (Some 1686823200000) = inr "2023-06-15T10:00:00.000Z"
  /\ safeGet (serving zoned) (infoDict zoned) "CreationDate" = Some "D:20230615120000+02'00'"
  /\ exists c tech,
       Part000.metadata_get (serving zoned) (mkMetadataRequest (Some upload) ∅)
       = ([], Json 200 (MetadataBody [("creationDate", "2023-06-15T12:00:00.000Z")] c tech)).
Proof.
  split; [reflexivity|]. split; [vm_compute; reflexivity|]. split; [vm_compute; reflexivity|].
  eexists _, _. vm_compute. reflexivity.
Qed.

Lemma entry_title (w : World) (d : PDFDocument) (raw : list (string * option string))
    (title : string) :
  core_metadata w d = inr raw -> getTitle d = Some title -> title <> "" ->
  entry "title" (drop_falsy raw) = Some title.
Proof.
  intros H Ht Hn. apply core_metadata_returns in H as (c & md & _ & _ & ->).
  rewrite entry_drop_falsy_cons. simpl. rewrite Ht.
  destruct title as [|a title]; [contradiction|]. reflexivity.
Qed.

Lemma date_entry_raises (raw : option string) (structured : option Date) (e : Error) :
  date_entry raw structured = inl e -> e = invalid_time /\ structured = Some None.
Proof.
  rewrite date_entry_spec. destruct (parsePdfDate_total raw) as [[iso|] ->]; [discriminate|].
  unfold structured_date. destruct structured as [[t|]|]; simpl; try discriminate.
  intros H. inversion H. split; reflexivity.
Qed.

(** C9: the title round trip through the longer application. A non-empty
    title the write handler stores is in the file it sends; when the
    library reads back from that file a document with the title it
    serialized, the read handler of [src/index.js] reports that title,
    and the read handler of the longer application either reports it or,
    when a date accessor of the document read back holds an invalid date
    that no raw date entry overrides, answers 500 "Invalid time value"
    without any title. *)
Theorem title_round_trip (w : World) (f : File) (b b' : gmap string string)
    (title mime : string) (d d' : PDFDocument) (bytes : Buffer) :
  b !! "title" = Some title -> title <> "" ->
  load w (buffer f) true = inr d ->
  save w (Part000.writeMetadata w b d) = inr bytes ->
  load w bytes false = inr d' ->
  getTitle d' = getTitle (Part000.writeMetadata w b d) ->
  Part000.metadata_set w (mkMetadataRequest (Some f) b)
    = ([], Pdf "metadata-updated.pdf" bytes)
  /\ ((exists m c tech,
          Part000.metadata_get w (mkMetadataRequest (Some (mkFile bytes mime)) b')
          = ([], Json 200 (MetadataBody m c tech))
          /\ entry "title" m = Some title)
      \/ (Part000.metadata_get w (mkMetadataRequest (Some (mkFile bytes mime)) b')
          = ([ConsoleError (Some "Metadata read error:") invalid_time],
             server_error invalid_time)
          /\ (getCreationDate d' = Some None \/ getModificationDate d' = Some None)))
  /\ (exists author subject producer company manager n,
        Index.metadata_get w (mkMetadataRequest (Some (mkFile bytes mime)) b')
        = ([], Json 200 (BasicMetadataBody (Some title) author subject producer company
                           manager n))).
Proof.
  intros Hb Hn Hl Hs Hl' Ht.
  assert (Ht' : getTitle d' = Some title).
  { rewrite Ht. destruct (writeMetadata_fields w b d) as (-> & _).
    rewrite Hb. destruct title; [contradiction|reflexivity]. }
  split; [|split].
  - unfold Part000.metadata_set, sendPdf, bind, lift. cbn [file fields]. rewrite Hl, Hs.
    reflexivity.
  - unfold Part000.metadata_get, bind, lift. cbn [file buffer]. rewrite Hl'.
    destruct (core_metadata w d') as [e|raw] eqn:Hraw.
    + right. unfold core_metadata in Hraw.
      destruct (date_entry _ (getCreationDate d')) as [e1|c] eqn:Ec.
      * apply date_entry_raises in Ec as [-> Hc]. inversion Hraw; subst.
        split; [reflexivity|]. left. exact Hc.
      * destruct (date_entry _ (getModificationDate d')) as [e2|md] eqn:Emd; [|discriminate].
        apply date_entry_raises in Emd as [-> Hm]. inversion Hraw; subst.
        split; [reflexivity|]. right. exact Hm.
    + left. do 3 eexists. split; [reflexivity|]. eapply entry_title; eauto.
  - unfold Index.metadata_get, bind, lift. cbn [file buffer]. rewrite Hl', Ht'.
    do 6 eexists. reflexivity.
Qed.

Lemma title_round_trip_witness :
  Part000.metadata_set archive title_request
    = ([], Pdf "metadata-updated.pdf" (buffer undated_report))
  /\ ((exists m c tech,
          Part000.metadata_get archive (mkMetadataRequest (Some undated_report) ∅)
          = ([], Json 200 (MetadataBody m c tech))
          /\ entry "title" m = Some "Report Q1")
      \/ (Part000.metadata_get archive (mkMetadataRequest (Some undated_report) ∅)
          = ([ConsoleError (Some "Metadata read error:") invalid_time],
             server_error invalid_time)
          /\ (getCreationDate (archive_load (buffer undated_report)) = Some None
              \/ getModificationDate (archive_load (buffer undated_report)) = Some None)))
  /\ (exists author subject producer company manager n,
        Index.metadata_get archive (mkMetadataRequest (Some undated_report) ∅)
        = ([], Json 200 (BasicMetadataBody (Some "Report Q1") author subject producer company
                           manager n))).
Proof.
  apply (title_round_trip archive upload {[ "title" := "Report Q1" ]} ∅ "Report Q1"
           "application/pdf" (archive_load []) (archive_load (buffer undated_report))
           (buffer undated_report));
    try reflexivity; discriminate.
Defined.

(** In a world whose library stores and reads back title and creation
    date, two round trips of the title "Report Q1" end in 500: the write
    that also carries a creation date that is no date, and the write of
    the title alone on an upload whose creation date is invalid. The
    library does read the title back in both, and the same write on an
    upload without a date is read back with its title. *)
Lemma invalid_date_breaks_round_trip :
  Part000.metadata_set archive misdated_request
    = ([], Pdf "metadata-updated.pdf" (buffer misdated_report))
  /\ Part000.metadata_set archive (mkMetadataRequest (Some misdated_upload)
                                     {[ "title" := "Report Q1" ]})
     = ([], Pdf "metadata-updated.pdf" (buffer misdated_report))
  /\ getTitle (archive_load (buffer misdated_report)) = Some "Report Q1"
  /\ Part000.metadata_get archive (mkMetadataRequest (Some misdated_report) ∅)
     = ([ConsoleError (Some "Metadata read error:") invalid_time],
        Json 500 (ErrorBody "Invalid time value"))
  /\ Part000.metadata_get archive (mkMetadataRequest (Some undated_report) ∅)
     = ([], Json 200 (MetadataBody [("title", "Report Q1")] []
                        (mkTechnical 1 "0.00" "Unknown" "0.00x0.00")))
  /\ Part000.metadata_get archive (mkMetadataRequest (Some dated_report) ∅)
     = ([], Json 200 (MetadataBody [("title", "Report Q1");
                                    ("creationDate", "1970-01-01T00:00:00.000Z")] []
                        (mkTechnical 1 "0.00" "Unknown" "0.00x0.00"))).
Proof. repeat split; vm_compute; reflexivity. Qed.

End ReadFacts.

(* ===================================================================== *)
(** * Further properties of the handlers                                  *)
(* ===================================================================== *)

Module LoopFacts.
Import JS PdfLib Http Shared HandlerFacts ColourFacts Reading Fixtures.

Lemma hexToRgb_returns (hex : string) : exists c, hexToRgb hex = inr c.
Proof.
  unfold hexToRgb. eexists. apply rgb_of_bytes; apply byte_mask_range.
Qed.

Lemma watermarkPage_extends (w : World) (s : Settings) (p p' : PDFPage) :
  watermarkPage w s p = inr p' -> extends_by (draw_calls s) p p'.
Proof.
  unfold watermarkPage, extends_by, draw_calls, drawText, drawImage.
  destruct (anchor _ _ _) as [x y].
  destruct (hexToRgb_returns (default "#cccccc" (color s))) as [c ->].
  destruct (text s) as [t|]; simpl; [destruct (truthy_string t); simpl|].
  - destruct (encodeText w t) as [e|]; [destruct (shadow_on (shadow s)); discriminate|].
    destruct (shadow_on (shadow s)), (embeddedImg s); intros H; inversion H; subst; simpl;
      repeat split; eexists; rewrite <- ?app_assoc; (split; [reflexivity|reflexivity]).
  - destruct (embeddedImg s); intros H; inversion H; subst; simpl; repeat split;
      eexists; (split; [try reflexivity; symmetry; apply app_nil_r|reflexivity]).
  - destruct (embeddedImg s); intros H; inversion H; subst; simpl; repeat split;
      eexists; (split; [try reflexivity; symmetry; apply app_nil_r|reflexivity]).
Qed.

(** X1: the page loop keeps the number of pages and the size of each
    page, leaves the draw calls a page already has where they are, and
    adds the same number of calls to every page: two for a text with
    shadow, one for a text without, none without text, and one more when
    an image was resolved. *)
Theorem page_loop_only_appends (w : World) (s : Settings) (pages pages' : list PDFPage) :
  watermarkPages w s pages = inr pages' ->
  List.length pages' = List.length pages
  /\ Forall2 (extends_by (draw_calls s)) pages pages'.
Proof.
  intros H. apply watermarkPages_Forall2 in H.
  split; [symmetry; eapply Forall2_length, H|].
  induction H as [|p p' ps ps' Hp _ IH]; constructor; [|exact IH].
  eapply watermarkPage_extends, Hp.
Qed.

Lemma page_loop_only_appends_witness :
  exists pages',
    watermarkPages quiet draft_settings [letter; letter] = inr pages'
    /\ List.length pages' = 2%nat
    /\ Forall2 (extends_by 3) [letter; letter] pages'.
Proof.
  eexists. split; [vm_compute; reflexivity|].
  apply (page_loop_only_appends quiet draft_settings [letter; letter]).
  vm_compute. reflexivity.
Defined.

Lemma watermarkPage_encodes (w : World) (s : Settings) (p : PDFPage) :
  (forall t, text s = Some t -> truthy_string t = true -> encodeText w t = None) ->
  exists p', watermarkPage w s p = inr p'.
Proof.
  intros He. unfold watermarkPage, drawText. destruct (anchor _ _ _) as [x y].
  destruct (hexToRgb_returns (default "#cccccc" (color s))) as [c ->].
  destruct (text s) as [t|]; [destruct (truthy_string t) eqn:Et|].
  - rewrite (He t eq_refl Et).
    destruct (shadow_on (shadow s)), (embeddedImg s); simpl; eauto.
  - destruct (embeddedImg s); eauto.
  - destruct (embeddedImg s); eauto.
Qed.

Lemma watermarkPages_encodes (w : World) (s : Settings) (pages : list PDFPage) :
  (forall t, text s = Some t -> truthy_string t = true -> encodeText w t = None) ->
  exists pages', watermarkPages w s pages = inr pages'.
Proof.
  intros He. induction pages as [|p ps [ps' IH]]; simpl; [eauto|].
  destruct (watermarkPage_encodes w s p He) as [p' ->]. rewrite IH. eauto.
Qed.

Lemma watermarkPage_unencodable (w : World) (s : Settings) (p : PDFPage) (t : string) (e : Error) :
  text s = Some t -> truthy_string t = true -> encodeText w t = Some e ->
  watermarkPage w s p = inl e.
Proof.
  intros Ht Et He. unfold watermarkPage, drawText. destruct (anchor _ _ _) as [x y].
  rewrite Ht, Et, He. destruct (shadow_on (shadow s)); [reflexivity|].
  destruct (hexToRgb_returns (default "#cccccc" (color s))) as [c ->]. reflexivity.
Qed.

Lemma watermarkPages_unencodable (w : World) (s : Settings) (p : PDFPage) (ps : list PDFPage)
    (t : string) (e : Error) :
  text s = Some t -> truthy_string t = true -> encodeText w t = Some e ->
  watermarkPages w s (p :: ps) = inl e.
Proof.
  intros Ht Et He. simpl. rewrite (watermarkPage_unencodable w s p t e Ht Et He). reflexivity.
Qed.

(** X2: the page loop raises only when the font cannot encode the text.
    It returns exactly when there is no page or the text, if one is set
    and not empty, is encodable; the colour never makes it fail; and the
    error it raises is the encoder's. *)
Theorem page_loop_fails_only_on_encoding (w : World) (s : Settings) (pages : list PDFPage) :
  ((exists pages', watermarkPages w s pages = inr pages') <->
   (pages = [] \/ forall t, text s = Some t -> truthy_string t = true -> encodeText w t = None))
  /\ (forall e, watermarkPages w s pages = inl e ->
        exists t, text s = Some t /\ truthy_string t = true /\ encodeText w t = Some e).
Proof.
  assert (D : (forall t, text s = Some t -> truthy_string t = true -> encodeText w t = None)
              \/ exists t e, text s = Some t /\ truthy_string t = true /\ encodeText w t = Some e).
  { destruct (text s) as [t|]; [|left; discriminate].
    destruct (truthy_string t) eqn:Et; [|left; intros t' H; inversion H; subst; congruence].
    destruct (encodeText w t) as [e|] eqn:He; [right; eauto|].
    left. intros t' H; inversion H; subst. auto. }
  split; [split|].
  - intros [pages' H]. destruct pages as [|p ps]; [left; reflexivity|right].
    destruct D as [D|(t & e & Ht & Et & He)]; [exact D|].
    rewrite (watermarkPages_unencodable w s p ps t e Ht Et He) in H. discriminate.
  - intros [->|H]; [simpl; eauto|]. apply watermarkPages_encodes, H.
  - intros e H. destruct D as [D|(t & e' & Ht & Et & He)].
    + destruct (watermarkPages_encodes w s pages D) as [pages' H']. congruence.
    + destruct pages as [|p ps]; [discriminate|].
      rewrite (watermarkPages_unencodable w s p ps t e' Ht Et He) in H.
      inversion H; subst. eauto.
Qed.

End LoopFacts.

Module TraceFacts.
Import JS PdfLib Http Shared HandlerFacts WatermarkFacts Reading Fixtures LoopFacts.

Lemma fetches_app (a b : list Event) : fetches (a ++ b) = (fetches a ++ fetches b)%list.
Proof. unfold fetches. apply omap_app. Qed.

Lemma startsWith_empty (p : string) : p <> "" -> startsWith p "" = false.
Proof. destruct p; [contradiction|reflexivity]. Qed.

Lemma embedImage_fetches (w : World) (req : WatermarkRequest) :
  fetches (fst (embedImage w (files_image req) (body req !! "image"))) = remote_image req.
Proof.
  unfold embedImage, remote_image, bind, lift, emit, ret.
  destruct (files_image req) as [f|].
  { destruct (includes "png" (mimetype f)); [destruct (embedPng w _)|destruct (embedJpg w _)];
      reflexivity. }
  destruct (body req !! "image") as [url|]; [|reflexivity].
  destruct (truthy_string url) eqn:Eu.
  2:{ destruct url; [reflexivity|discriminate]. }
  set (sp := split "," url !! 1%nat). set (png := includes "png" url).
  set (data := startsWith "data:image" url). set (http := startsWith "http" url).
  clearbody sp png data http.
  destruct data.
  { destruct sp as [b|]; [|reflexivity]. simpl.
    destruct png; [destruct (embedPng w _)|destruct (embedJpg w _)]; reflexivity. }
  destruct http; [|reflexivity]. simpl.
  destruct (fetch w url) as [e|b]; [reflexivity|]. simpl.
  destruct png; [destruct (embedPng w _)|destruct (embedJpg w _)]; reflexivity.
Qed.

Lemma stamper_fetches (d : PDFDocument) : fetches (fst (addEndlessForgeMetadata d)) = [].
Proof. unfold addEndlessForgeMetadata. destruct (trailer (context d)); reflexivity. Qed.

Lemma bind_trace {A B} (m : M A) (k : A -> M B) :
  fst (bind m k)
  = (fst m ++ match snd m with inr a => fst (k a) | inl _ => [] end)%list.
Proof.
  destruct m as [t [e|a]]; simpl; [rewrite app_nil_r; reflexivity|].
  destruct (k a); reflexivity.
Qed.

Lemma watermarkDocument_fetches (w : World) (req : WatermarkRequest) (pdfFile : File)
    (opacity : number) :
  fetches (fst (watermarkDocument w req pdfFile opacity))
  = match load w (buffer pdfFile) true with inr _ => remote_image req | inl _ => [] end.
Proof.
  unfold watermarkDocument. rewrite bind_trace. cbn [lift fst snd app].
  destruct (load w (buffer pdfFile) true) as [e|d]; [reflexivity|].
  rewrite bind_trace, fetches_app, embedImage_fetches.
  destruct (snd (embedImage _ _ _)) as [e|img]; [apply app_nil_r|].
  rewrite bind_trace. cbn [lift fst snd app].
  destruct (watermarkPages _ _ _) as [e|pages]; [apply app_nil_r|].
  rewrite stamper_fetches. apply app_nil_r.
Qed.

Lemma pipeline_fetches (w : World) (label : option string) (m : M PDFDocument)
    (name : string) :
  fetches (fst (try_catch label (let* pdfDoc := m in sendPdf w name pdfDoc))) = fetches (fst m).
Proof.
  destruct m as [t [e|d]]; cbn [bind try_catch fst].
  - rewrite fetches_app. apply app_nil_r.
  - unfold sendPdf, bind, lift, ret. destruct (save w d); cbn [try_catch fst];
      rewrite ?fetches_app, ?app_nil_r; reflexivity.
Qed.

Lemma no_content_no_remote (req : WatermarkRequest) :
  truthy (body req !! "image") = false -> remote_image req = [].
Proof.
  unfold remote_image. destruct (files_image req); [reflexivity|].
  destruct (body req !! "image") as [[|c url]|]; try reflexivity. discriminate.
Qed.

(** X3: the outbound requests of the service. A watermark handler
    fetches exactly when the uploaded PDF parses, no image file was
    uploaded, and the [image] field starts with [http] and not with
    [data:image]; it then fetches that URL once, whatever fails later.
    The metadata handlers fetch nothing. *)
Theorem only_the_image_url_is_fetched :
  (forall (w : World) (req : WatermarkRequest),
      fetches (fst (Part000.watermark w req))
      = match files_pdf req with
        | Some pdfFile =>
            match load w (buffer pdfFile) true with inr _ => remote_image req | inl _ => [] end
        | None => []
        end)
  /\ (forall (w : World) (req : WatermarkRequest),
        fetches (fst (Index.watermark w req))
        = match files_pdf req with
          | Some pdfFile =>
              match load w (buffer pdfFile) true with inr _ => remote_image req | inl _ => [] end
          | None => []
          end)
  /\ (forall (w : World) (req : MetadataRequest),
        fetches (fst (Part000.metadata_get w req)) = []
        /\ fetches (fst (Part000.metadata_set w req)) = []
        /\ fetches (fst (Index.metadata_get w req)) = []
        /\ fetches (fst (Index.metadata_set w req)) = []).
Proof.
  split; [|split].
  - intros w req. unfold Part000.watermark.
    destruct (files_pdf req) as [pdfFile|]; [|reflexivity].
    destruct (negb (truthy (body req !! "text")) && _ && _) eqn:V.
    + apply andb_true_iff in V as [V _]. apply andb_true_iff in V as [_ V].
      apply negb_true_iff in V. rewrite (no_content_no_remote req V).
      destruct (load w (buffer pdfFile) true); reflexivity.
    + rewrite pipeline_fetches. apply watermarkDocument_fetches.
  - intros w req. unfold Index.watermark.
    destruct (files_pdf req) as [pdfFile|]; [|reflexivity].
    rewrite pipeline_fetches. apply watermarkDocument_fetches.
  - intros w req. unfold Part000.metadata_get, Part000.metadata_set, Index.metadata_get,
      Index.metadata_set, sendPdf, bind, lift, ret.
    destruct (file req) as [f|]; [|repeat split; reflexivity].
    repeat split.
    + destruct (load w (buffer f) false) as [e|d]; [reflexivity|].
      destruct (Part000.core_metadata w d); reflexivity.
    + destruct (load w (buffer f) true) as [e|d]; [reflexivity|].
      destruct (save w _); reflexivity.
    + destruct (load w (buffer f) false) as [e|d]; reflexivity.
    + destruct (load w (buffer f) true) as [e|d]; [reflexivity|].
      destruct (save w _); reflexivity.
Qed.

Lemma includes_cons (c a : ascii) (s : string) :
  includes (String c "") (String a s) = Ascii.eqb c a || includes (String c "") s.
Proof. cbn [includes startsWith]. rewrite andb_true_r. reflexivity. Qed.

Lemma split_without_separator (c : ascii) (s : string) :
  includes (String c "") s = false -> split c s = [s].
Proof.
  induction s as [|a s IH]; [reflexivity|]. rewrite includes_cons.
  intros H. apply orb_false_iff in H as [Ha Hs]. cbn [split].
  rewrite Ascii.eqb_sym, Ha, (IH Hs). reflexivity.
Qed.

Lemma embedImage_data_without_comma (w : World) (url : string) :
  startsWith "data:image" url = true -> includes "," url = false ->
  embedImage w None (Some url) = ([], inl no_payload).
Proof.
  intros Hd Hc. unfold embedImage.
  assert (truthy_string url = true) as -> by (destruct url; [discriminate|reflexivity]).
  rewrite Hd, (split_without_separator _ _ Hc). reflexivity.
Qed.

Lemma truthy_startsWith (p url : string) :
  p <> "" -> startsWith p url = true -> truthy (Some url) = true.
Proof. intros Hp. destruct url; [rewrite (startsWith_empty p Hp); discriminate|reflexivity]. Qed.

(** X4: a data URL without a comma has no payload: [split(",")[1]] is
    [undefined], [Buffer.from] raises a TypeError, and both watermark
    handlers answer 500 with its message, text or no text. *)
Theorem data_url_without_comma_fails (w : World) (req : WatermarkRequest) (pdfFile : File)
    (url : string) (d : PDFDocument) :
  files_pdf req = Some pdfFile -> files_image req = None ->
  body req !! "image" = Some url ->
  startsWith "data:image" url = true -> includes "," url = false ->
  load w (buffer pdfFile) true = inr d ->
  Part000.watermark w req
    = ([ConsoleError (Some "Watermark error:") no_payload],
       Json 500 (ErrorBody (message no_payload)))
  /\ Index.watermark w req
     = ([ConsoleError None no_payload], Json 500 (ErrorBody (message no_payload))).
Proof.
  intros Hp Hf Hi Hd Hc Hl.
  assert (HD : forall o, watermarkDocument w req pdfFile o = ([], inl no_payload)).
  { intros o. unfold watermarkDocument, bind, lift.
    rewrite Hl, Hf, Hi, (embedImage_data_without_comma w url Hd Hc). reflexivity. }
  split.
  - unfold Part000.watermark. rewrite Hp, Hi.
    rewrite (truthy_startsWith "data:image" url ltac:(discriminate) Hd), andb_false_r. simpl.
    rewrite HD. reflexivity.
  - unfold Index.watermark. rewrite Hp, HD. reflexivity.
Qed.

Lemma data_url_without_comma_witness :
  Part000.watermark quiet inline_image_request
    = ([ConsoleError (Some "Watermark error:") no_payload],
       Json 500 (ErrorBody (message no_payload)))
  /\ Index.watermark quiet inline_image_request
     = ([ConsoleError None no_payload], Json 500 (ErrorBody (message no_payload))).
Proof.
  apply (data_url_without_comma_fails quiet inline_image_request upload "data:image/png;base64"
           report); reflexivity.
Defined.

Lemma embedImage_other_scheme (w : World) (url : string) :
  startsWith "data:image" url = false -> startsWith "http" url = false ->
  embedImage w None (Some url) = ([], inr None).
Proof.
  intros Hd Hh. unfold embedImage. rewrite Hd, Hh. destruct (truthy_string url); reflexivity.
Qed.

(** X5: an [image] field that is neither a data URL nor an [http] URL
    passes the content check of the longer handler and is then dropped
    without a word: with no text beside it the answer is the stamped,
    otherwise untouched document, in both handlers. *)
Theorem unsupported_image_reference_is_ignored (w : World) (req : WatermarkRequest)
    (pdfFile : File) (url : string) (d : PDFDocument) (bytes : Buffer) :
  files_pdf req = Some pdfFile -> files_image req = None ->
  body req !! "image" = Some url -> url <> "" ->
  startsWith "data:image" url = false -> startsWith "http" url = false ->
  truthy (body req !! "text") = false ->
  load w (buffer pdfFile) true = inr d -> trailer (context d) = None ->
  save w (stamped d) = inr bytes ->
  Part000.watermark w req = ([ConsoleWarn warning], Pdf "watermarked.pdf" bytes)
  /\ Index.watermark w req = ([ConsoleWarn warning], Pdf "watermarked.pdf" bytes).
Proof.
  intros Hp Hf Hi Hn Hd Hh Ht Hl Htr Hs.
  assert (HD : forall o, watermarkDocument w req pdfFile o
                         = ([ConsoleWarn warning], inr (stamped d))).
  { intros o. unfold watermarkDocument, bind, lift.
    rewrite Hl, Hf, Hi, (embedImage_other_scheme w url Hd Hh).
    rewrite watermarkPages_nothing by (simpl; auto).
    rewrite with_pages_same, (stamper_without_trailer d Htr). reflexivity. }
  split.
  - unfold Part000.watermark. rewrite Hp, Hi.
    assert (truthy (Some url) = true) as -> by (destruct url; [contradiction|reflexivity]).
    rewrite andb_false_r. simpl. rewrite HD. unfold sendPdf, bind, lift. rewrite Hs. reflexivity.
  - unfold Index.watermark. rewrite Hp, HD. unfold sendPdf, bind, lift. rewrite Hs. reflexivity.
Qed.

Lemma unsupported_image_reference_witness :
  Part000.watermark quiet local_image_request = ([ConsoleWarn warning], Pdf "watermarked.pdf" [])
  /\ Index.watermark quiet local_image_request = ([ConsoleWarn warning], Pdf "watermarked.pdf" []).
Proof.
  apply (unsupported_image_reference_is_ignored quiet local_image_request upload "logo.png"
           report []); try reflexivity. discriminate.
Defined.

End TraceFacts.

Module PlacementFacts.
Import JS PdfLib Http Shared HandlerFacts Reading Fixtures.

(** X6: a position that is none of the four corner names, however close
    in spelling, places the watermark where "center" and a missing field
    place it: at half the width and half the height. *)
Theorem unknown_position_is_centre (p : string) (width height : number) :
  ~ In p corner_names ->
  anchor (Some p) width height = (div width (of_Z 2), div height (of_Z 2))
  /\ anchor (Some p) width height = anchor None width height
  /\ anchor (Some p) width height = anchor (Some "center") width height.
Proof.
  intros Hp. unfold anchor, corner_names in *. cbn [default].
  assert (E : forall q, In q ["top-left"; "top-right"; "bottom-left"; "bottom-right"] ->
                        String.eqb p q = false).
  { intros q Hq. apply String.eqb_neq. intros ->. contradiction. }
  rewrite !E by (simpl; auto). repeat split.
Qed.

Lemma unknown_position_witness :
  anchor (Some "Top-Left") (of_Z 612) (of_Z 792) = (div (of_Z 612) (of_Z 2), div (of_Z 792) (of_Z 2))
  /\ anchor (Some "Top-Left") (of_Z 612) (of_Z 792) = anchor None (of_Z 612) (of_Z 792)
  /\ anchor (Some "Top-Left") (of_Z 612) (of_Z 792) = anchor (Some "center") (of_Z 612) (of_Z 792).
Proof.
  apply (unknown_position_is_centre "Top-Left" (of_Z 612) (of_Z 792)).
  simpl. intros [H|[H|[H|[H|[]]]]]; discriminate.
Defined.

(** X7: the rotation angle is never [NaN] and never a negative zero: a
    missing field gives 45, a field that reads as a number other than
    zero gives that number, and every other field gives 0. *)
Theorem rotation_is_never_NaN (degrees : option string) :
  isNaN (rotation_of degrees) = false
  /\ rotation_of degrees <> S754_zero true
  /\ (degrees = None -> rotation_of degrees = of_Z 45)
  /\ (forall s, degrees = Some s -> truthy_number (parseFloat s) = true ->
                rotation_of degrees = parseFloat s)
  /\ (forall s, degrees = Some s -> truthy_number (parseFloat s) = false ->
                rotation_of degrees = of_Z 0).
Proof.
  unfold rotation_of. destruct degrees as [s|].
  - destruct (parseFloat s) as [sg|sg| |sg m e] eqn:E; simpl;
      repeat split; try discriminate; try reflexivity;
      intros s' H; inversion H; subst; rewrite E; simpl; intros; congruence.
  - repeat split; try discriminate; vm_compute; discriminate.
Qed.

(** X8: with an uploaded image file the [image] field has no say:
    whatever it holds, both watermark handlers give the same trace and
    response, and nothing is fetched for it. *)
Theorem uploaded_image_overrides_field (w : World) (req : WatermarkRequest) (f : File)
    (v : string) :
  files_image req = Some f ->
  Part000.watermark w (with_image_field v req) = Part000.watermark w req
  /\ Index.watermark w (with_image_field v req) = Index.watermark w req
  /\ remote_image (with_image_field v req) = [].
Proof.
  intros Hf.
  assert (L : forall k, k <> "image" -> <[ "image" := v ]> (body req) !! k = body req !! k).
  { intros k Hk. apply lookup_insert_ne. congruence. }
  assert (HD : forall pdfFile o,
             watermarkDocument w (with_image_field v req) pdfFile o
             = watermarkDocument w req pdfFile o).
  { intros pdfFile o. unfold watermarkDocument, with_image_field. cbn [files_image body].
    rewrite Hf. cbn [embedImage].
    rewrite (L "text"), (L "size"), (L "color"), (L "position"), (L "scale"), (L "shadow"),
      (L "degrees") by discriminate.
    reflexivity. }
  split; [|split].
  - unfold Part000.watermark.
    change (files_pdf (with_image_field v req)) with (files_pdf req).
    change (files_image (with_image_field v req)) with (files_image req).
    destruct (files_pdf req) as [pdfFile|]; [|reflexivity].
    rewrite HD, Hf, bool_decide_eq_true_2, !andb_false_r by eauto.
    unfold with_image_field. cbn [body]. rewrite (L "opacity") by discriminate. reflexivity.
  - unfold Index.watermark.
    change (files_pdf (with_image_field v req)) with (files_pdf req).
    destruct (files_pdf req) as [pdfFile|]; [|reflexivity].
    rewrite HD. unfold with_image_field. cbn [body].
    rewrite (L "opacity") by discriminate. reflexivity.
  - unfold remote_image, with_image_field. cbn [files_image]. rewrite Hf. reflexivity.
Qed.

Lemma uploaded_image_witness :
  Part000.watermark quiet (with_image_field "http://example.org/logo.png" stamp_request)
    = Part000.watermark quiet stamp_request
  /\ Index.watermark quiet (with_image_field "http://example.org/logo.png" stamp_request)
    = Index.watermark quiet stamp_request
  /\ remote_image (with_image_field "http://example.org/logo.png" stamp_request) = [].
Proof.
  apply (uploaded_image_overrides_field quiet stamp_request stamp_file). reflexivity.
Defined.

End PlacementFacts.

Module FloatFacts.
Import JS Reading.

Lemma digits2_pos_iter_xO (p n : positive) :
  digits2_pos (Pos.iter xO p n) = (digits2_pos p + n)%positive.
Proof.
  induction n as [|n IH] using Pos.peano_ind.
  - simpl. rewrite Pos.add_1_r. reflexivity.
  - rewrite Pos.iter_succ. simpl. rewrite IH, Pos.add_succ_r. reflexivity.
Qed.

Lemma Zpos_iter_xO (p n : positive) : Zpos (Pos.iter xO p n) = Zpos p * 2 ^ Zpos n.
Proof.
  induction n as [|n IH] using Pos.peano_ind.
  - simpl. lia.
  - rewrite Pos.iter_succ, Pos2Z.inj_xO, IH, Pos2Z.inj_succ, Z.pow_succ_r by lia. lia.
Qed.

Lemma digits2_pos_bound (p : positive) :
  2 ^ (Zpos (digits2_pos p) - 1) <= Zpos p < 2 ^ Zpos (digits2_pos p).
Proof.
  induction p as [p IH|p IH|]; simpl digits2_pos; [| |simpl; lia].
  - rewrite Pos2Z.inj_succ. replace (Z.succ (Zpos (digits2_pos p)) - 1) with (Zpos (digits2_pos p)) by lia.
    rewrite Z.pow_succ_r by lia.
    replace (2 ^ Zpos (digits2_pos p)) with (2 * 2 ^ (Zpos (digits2_pos p) - 1)) in *
      by (rewrite <- Z.pow_succ_r by lia; f_equal; lia).
    lia.
  - rewrite Pos2Z.inj_succ. replace (Z.succ (Zpos (digits2_pos p)) - 1) with (Zpos (digits2_pos p)) by lia.
    rewrite Z.pow_succ_r by lia.
    replace (2 ^ Zpos (digits2_pos p)) with (2 * 2 ^ (Zpos (digits2_pos p) - 1)) in *
      by (rewrite <- Z.pow_succ_r by lia; f_equal; lia).
    lia.
Qed.

Lemma digits2_pos_le (p : positive) (k : Z) :
  0 <= k -> Zpos p < 2 ^ k -> Zpos (digits2_pos p) <= k.
Proof.
  intros Hk Hp. destruct (digits2_pos_bound p) as [Hl _].
  destruct (Z.le_gt_cases (Zpos (digits2_pos p)) k) as [|Hgt]; [assumption|].
  assert (2 ^ k <= 2 ^ (Zpos (digits2_pos p) - 1)) by (apply Z.pow_le_mono_r; lia). lia.
Qed.

Lemma binary_round_aux_exact (m : positive) (e : Z) :
  Zpos (digits2_pos m) = 53 -> -1074 <= e <= 971 ->
  binary_round_aux prec emax false (Zpos m) e loc_Exact = S754_finite false m e.
Proof.
  intros Hd He. unfold binary_round_aux, shr_fexp, fexp, emin, prec, emax, Zdigits2.
  rewrite Hd. replace (Z.max (53 + e - 53) (3 - 1024 - 53) - e) with 0 by lia.
  cbn [shr shr_record_of_loc shr_m loc_of_shr_record round_nearest_even].
  rewrite Hd. replace (Z.max (53 + e - 53) (3 - 1024 - 53) - e) with 0 by lia.
  cbn [shr shr_record_of_loc shr_m].
  replace (e <=? 1024 - 53) with true by (symmetry; apply Z.leb_le; lia). reflexivity.
Qed.

(** An integer below 2^53 is a number, and truncating the number gives the
    integer back. *)
Lemma truncate_of_Z (p : positive) :
  Zpos p < 2 ^ 53 -> truncate (of_Z (Zpos p)) = Some (Zpos p).
Proof.
  intros Hp. pose proof (digits2_pos_le p 53 ltac:(lia) Hp) as Hd.
  unfold of_Z, binary_normalize, binary_round, shl_align, fexp, emin, prec, emax.
  replace (Z.max (Zpos (digits2_pos p) + 0 - 53) (3 - 1024 - 53))
    with (Zpos (digits2_pos p) - 53) by lia.
  destruct (Zpos (digits2_pos p) - 53 - 0) as [|k|k] eqn:E; [|lia|].
  - replace (Zpos (digits2_pos p) - 53) with 0 by lia.
    change (binary_round_aux 53 1024) with (binary_round_aux prec emax).
    rewrite binary_round_aux_exact by lia. reflexivity.
  - replace (Zpos (digits2_pos p) - 53) with (Zneg k) by lia.
    change (binary_round_aux 53 1024) with (binary_round_aux prec emax).
    rewrite binary_round_aux_exact by (rewrite ?digits2_pos_iter_xO; lia).
    unfold truncate. rewrite Z.shiftr_div_pow2 by lia.
    rewrite Zpos_iter_xO, Z.div_mul by (apply Z.pow_nonzero; lia). reflexivity.
Qed.

Lemma ToInt32_of_N (n : N) :
  (n < 2 ^ 31)%N ->
  ToInt32 (match n with N0 => S754_zero false | Npos p => of_Z (Zpos p) end) = Z.of_N n.
Proof.
  intros Hn. destruct n as [|p]; [reflexivity|].
  assert (Hp : Zpos p < 2 ^ 31) by (change (2 ^ 31) with (Z.of_N (2 ^ 31)); lia).
  unfold ToInt32. rewrite truncate_of_Z by (change (2 ^ 53) with 9007199254740992; change (2 ^ 31) with 2147483648 in Hp; lia).
  rewrite Z.mod_small by (change (2 ^ 32) with 4294967296; change (2 ^ 31) with 2147483648 in Hp; lia).
  destruct (Z.leb_spec (2 ^ 31) (Zpos p)); [lia|reflexivity].
Qed.

End FloatFacts.

Module HexFacts.
Import JS PdfLib Http Shared ColourFacts Reading Fixtures FloatFacts.

Lemma hex_digit_char (c : ascii) :
  is_hex_digit c = true ->
  exists d, radix_digit 16 c = Some d /\ (d < 16)%N /\ hex_digit_value c = Z.of_N d
            /\ is_whitespace c = false /\ Ascii.eqb c "#" = false
            /\ read_sign (String c "") = (false, String c "")
            /\ Ascii.eqb "x" c = false /\ Ascii.eqb "X" c = false.
Proof.
  unfold is_hex_digit, hex_digit_value.
  destruct (radix_digit 16 c) as [d|] eqn:E; [intros _|discriminate].
  exists d. split; [reflexivity|].
  destruct c as [[] [] [] [] [] [] [] []]; vm_compute in E; try discriminate;
    inversion E; subst d; vm_compute; repeat split; reflexivity.
Qed.

Lemma read_sign_cons (c : ascii) (r : string) :
  read_sign (String c "") = (false, String c "") -> read_sign (String c r) = (false, String c r).
Proof.
  destruct c as [[] [] [] [] [] [] [] []]; try reflexivity; vm_compute; discriminate.
Qed.

Lemma byte_of_digits (d1 d2 d3 d4 d5 d6 : Z) :
  0 <= d1 < 16 -> 0 <= d2 < 16 -> 0 <= d3 < 16 -> 0 <= d4 < 16 -> 0 <= d5 < 16 ->
  0 <= d6 < 16 ->
  let n := 16 * (16 * (16 * (16 * (16 * (16 * 0 + d1) + d2) + d3) + d4) + d5) + d6 in
  and32 (Z.shiftr n 16) 255 = 16 * d1 + d2
  /\ and32 (Z.shiftr n 8) 255 = 16 * d3 + d4
  /\ and32 n 255 = 16 * d5 + d6
  /\ 0 <= n < 2 ^ 24.
Proof.
  intros H1 H2 H3 H4 H5 H6 n. unfold and32.
  change 255 with (Z.ones 8). rewrite !Z.land_ones, !Z.shiftr_div_pow2 by lia.
  change (2 ^ 16) with 65536. change (2 ^ 8) with 256. change (2 ^ 24) with 16777216.
  subst n. repeat split; try lia; Z.to_euclidean_division_equations; lia.
Qed.

Lemma parseInt_hex6 (r1 r2 g1 g2 b1 b2 : ascii) :
  forallb is_hex_digit [r1; r2; g1; g2; b1; b2] = true ->
  exists n : N,
    parseInt (hex6 r1 r2 g1 g2 b1 b2) 16
    = match n with N0 => S754_zero false | Npos p => of_Z (Zpos p) end
    /\ (n < 2 ^ 31)%N
    /\ and32 (Z.shiftr (Z.of_N n) 16) 255 = hex_byte r1 r2
    /\ and32 (Z.shiftr (Z.of_N n) 8) 255 = hex_byte g1 g2
    /\ and32 (Z.of_N n) 255 = hex_byte b1 b2
    /\ remove_first "#" (hex6 r1 r2 g1 g2 b1 b2) = hex6 r1 r2 g1 g2 b1 b2.
Proof.
  cbn [forallb]. rewrite !andb_true_iff. intros (H1 & H2 & H3 & H4 & H5 & H6 & _).
  destruct (hex_digit_char r1 H1) as (d1 & E1 & L1 & V1 & W1 & S1 & R1 & _).
  destruct (hex_digit_char r2 H2) as (d2 & E2 & L2 & V2 & _ & S2 & _ & X2 & Y2).
  destruct (hex_digit_char g1 H3) as (d3 & E3 & L3 & V3 & _ & S3 & _).
  destruct (hex_digit_char g2 H4) as (d4 & E4 & L4 & V4 & _ & S4 & _).
  destruct (hex_digit_char b1 H5) as (d5 & E5 & L5 & V5 & _ & S5 & _).
  destruct (hex_digit_char b2 H6) as (d6 & E6 & L6 & V6 & _ & S6 & _).
  exists (16 * (16 * (16 * (16 * (16 * (16 * 0 + d1) + d2) + d3) + d4) + d5) + d6)%N.
  destruct (byte_of_digits (Z.of_N d1) (Z.of_N d2) (Z.of_N d3) (Z.of_N d4) (Z.of_N d5)
              (Z.of_N d6)) as (B1 & B2 & B3 & B4); try lia.
  replace (Z.of_N (16 * (16 * (16 * (16 * (16 * (16 * 0 + d1) + d2) + d3) + d4) + d5) + d6))
    with (16 * (16 * (16 * (16 * (16 * (16 * 0 + Z.of_N d1) + Z.of_N d2) + Z.of_N d3)
                       + Z.of_N d4) + Z.of_N d5) + Z.of_N d6) by lia.
  unfold hex_byte. rewrite V1, V2, V3, V4, V5, V6.
  split; [|split; [|repeat split; try assumption]].
  - unfold parseInt, hex6. cbn [trimStart]. rewrite W1, (read_sign_cons r1 _ R1).
    cbn [N.eqb negb andb orb Pos.eqb]. unfold has_hex_prefix. cbn [startsWith].
    rewrite X2, Y2, !andb_false_r. cbn [orb andb].
    cbn [span_radix]. rewrite E1, E2, E3, E4, E5, E6. reflexivity.
  - change (2 ^ 31)%N with 2147483648%N. change (2 ^ 24) with 16777216 in B4. lia.
  - unfold hex6. cbn [remove_first]. rewrite S1, S2, S3, S4, S5, S6. reflexivity.
Qed.

(** X9: on six hexadecimal digits, with or without a leading [#],
    [hexToRgb] returns the colour whose red, green and blue channels are
    the first, second and third pair of digits, read as bytes, over
    255. *)
Theorem hexToRgb_reads_three_bytes (r1 r2 g1 g2 b1 b2 : ascii) :
  forallb is_hex_digit [r1; r2; g1; g2; b1; b2] = true ->
  let colour := mkColor (channel (hex_byte r1 r2)) (channel (hex_byte g1 g2))
                  (channel (hex_byte b1 b2)) in
  hexToRgb (hex6 r1 r2 g1 g2 b1 b2) = inr colour
  /\ hexToRgb (String "#" (hex6 r1 r2 g1 g2 b1 b2)) = inr colour.
Proof.
  intros H colour.
  destruct (parseInt_hex6 r1 r2 g1 g2 b1 b2 H) as (n & Hp & Hn & Hr & Hg & Hb & Hrm).
  assert (G : hexToRgb (hex6 r1 r2 g1 g2 b1 b2) = inr colour).
  { unfold hexToRgb, shr32. rewrite Hrm, Hp, (ToInt32_of_N n Hn), Hr, Hg, Hb.
    apply rgb_of_bytes; rewrite <- ?Hr, <- ?Hg, <- ?Hb; apply byte_mask_range. }
  split; [exact G|].
  unfold hexToRgb in *. cbn [remove_first]. rewrite Ascii.eqb_refl. rewrite Hrm in G. exact G.
Qed.

Lemma hexToRgb_default_colour :
  hexToRgb "cccccc" = inr (mkColor (channel 204) (channel 204) (channel 204))
  /\ hexToRgb "#cccccc" = inr (mkColor (channel 204) (channel 204) (channel 204)).
Proof.
  apply (hexToRgb_reads_three_bytes "c" "c" "c" "c" "c" "c"). reflexivity.
Defined.

End HexFacts.

Module StatusFacts.
Import JS PdfLib Http Shared HandlerFacts WatermarkFacts ContentFacts NumberFacts OpacityFacts
  Reading Fixtures LoopFacts TraceFacts.

(** X10: a handler answers 400 only for a missing part, and then before
    it does anything else. The watermark handler of the longer application
    does so exactly when the PDF is missing or, with a PDF, when there is
    no text, image field or image file; every other handler exactly when
    the PDF is missing; each with the message of its own and an empty
    trace. *)
Theorem bad_request_only_for_missing_parts :
  (forall (w : World) (req : WatermarkRequest) (t : list Event) (b : Body),
      Part000.watermark w req = (t, Json 400 b) <->
      t = []
      /\ ((files_pdf req = None /\ b = ErrorBody "Upload a PDF file under field 'pdf'")
          \/ (is_Some (files_pdf req) /\ has_content req = false
              /\ b = ErrorBody "Provide either watermark text or image")))
  /\ (forall (w : World) (req : WatermarkRequest) (t : list Event) (b : Body),
        Index.watermark w req = (t, Json 400 b) <->
        t = [] /\ files_pdf req = None /\ b = ErrorBody "Upload a PDF file")
  /\ (forall (w : World) (req : MetadataRequest) (t : list Event) (b : Body),
        (Part000.metadata_get w req = (t, Json 400 b) <->
         t = [] /\ file req = None /\ b = ErrorBody "Please upload a PDF file.")
        /\ (Index.metadata_get w req = (t, Json 400 b) <->
            t = [] /\ file req = None /\ b = ErrorBody "Upload a PDF file.")
        /\ (Part000.metadata_set w req = (t, Json 400 b) <->
            t = [] /\ file req = None /\ b = ErrorBody "Upload a PDF")
        /\ (Index.metadata_set w req = (t, Json 400 b) <->
            t = [] /\ file req = None /\ b = ErrorBody "Upload a PDF")).
Proof.
  split; [|split].
  - intros w req t b. unfold Part000.watermark, has_content.
    destruct (files_pdf req) as [pdfFile|].
    + rewrite <- !negb_orb.
      destruct (truthy (body req !! "text") || truthy (body req !! "image")
                || bool_decide (is_Some (files_image req))); simpl.
      * split.
        -- intros H. exfalso. revert H. apply try_catch_pipeline_not_400.
        -- intros (_ & [[H _]|(_ & H & _)]); discriminate.
      * split.
        -- intros H. inversion H. split; [reflexivity|]. right. eauto.
        -- intros (-> & [[H _]|(_ & _ & ->)]); [discriminate|reflexivity].
    + simpl. split.
      * intros H. inversion H. auto.
      * intros (-> & [[_ ->]|([? H] & _)]); [reflexivity|discriminate].
  - intros w req t b. unfold Index.watermark. destruct (files_pdf req) as [pdfFile|].
    + split; [intros H; exfalso; revert H; apply try_catch_pipeline_not_400|].
      intros (_ & H & _). discriminate.
    + simpl. split; [intros H; inversion H; auto|]. intros (-> & _ & ->). reflexivity.
  - intros w req t b.
    unfold Part000.metadata_get, Index.metadata_get, Part000.metadata_set, Index.metadata_set.
    destruct (file req) as [f|].
    + unfold bind, lift, ret.
      split; [|split; [|split]]; (split; [|intros (_ & HN & _); discriminate]).
      * destruct (load w (buffer f) false) as [e|d]; [simpl; intros H; inversion H|].
        destruct (Part000.core_metadata w d); simpl; intros H; inversion H.
      * destruct (load w (buffer f) false) as [e|d]; simpl; intros H; inversion H.
      * destruct (load w (buffer f) true) as [e|d]; [simpl; intros H; inversion H|].
        unfold sendPdf, bind, lift. destruct (save w _); simpl; intros H; inversion H.
      * destruct (load w (buffer f) true) as [e|d]; [simpl; intros H; inversion H|].
        unfold sendPdf, bind, lift. destruct (save w _); simpl; intros H; inversion H.
    + simpl.
      split; [|split; [|split]];
        (split; [intros H; inversion H; auto|intros (-> & _ & ->); reflexivity]).
Qed.

(** X11: an upload the library cannot parse is a server error in all
    six handlers: status 500 with the parser's message. The error is
    logged, except by the two metadata handlers of [src/index.js]. *)
Theorem unreadable_upload_is_a_server_error (w : World) (f : File) (e : Error)
    (wreq : WatermarkRequest) (mreq : MetadataRequest) :
  (forall updateMetadata, load w (buffer f) updateMetadata = inl e) ->
  files_pdf wreq = Some f -> has_content wreq = true -> file mreq = Some f ->
  Part000.watermark w wreq = ([ConsoleError (Some "Watermark error:") e], server_error e)
  /\ Index.watermark w wreq = ([ConsoleError None e], server_error e)
  /\ Part000.metadata_get w mreq
     = ([ConsoleError (Some "Metadata read error:") e], server_error e)
  /\ Part000.metadata_set w mreq
     = ([ConsoleError (Some "Metadata edit error:") e], server_error e)
  /\ Index.metadata_get w mreq = ([], server_error e)
  /\ Index.metadata_set w mreq = ([], server_error e).
Proof.
  intros Hl Hp Hc Hf.
  unfold Part000.watermark, Index.watermark, Part000.metadata_get, Part000.metadata_set,
    Index.metadata_get, Index.metadata_set, watermarkDocument, bind, lift.
  rewrite Hp, Hf, !Hl. unfold has_content in Hc. rewrite <- !negb_orb, Hc.
  repeat split.
Qed.

Lemma unreadable_upload_witness :
  Part000.watermark unreadable draft_request
    = ([ConsoleError (Some "Watermark error:") no_header], server_error no_header)
  /\ Index.watermark unreadable draft_request
     = ([ConsoleError None no_header], server_error no_header)
  /\ Part000.metadata_get unreadable title_request
     = ([ConsoleError (Some "Metadata read error:") no_header], server_error no_header)
  /\ Part000.metadata_set unreadable title_request
     = ([ConsoleError (Some "Metadata edit error:") no_header], server_error no_header)
  /\ Index.metadata_get unreadable title_request = ([], server_error no_header)
  /\ Index.metadata_set unreadable title_request = ([], server_error no_header).
Proof.
  apply (unreadable_upload_is_a_server_error unreadable upload no_header draft_request
           title_request); reflexivity.
Defined.

Lemma watermarkDocument_with_trailer (w : World) (req : WatermarkRequest) (pdfFile : File)
    (opacity : number) (d : PDFDocument) (tr : gmap string PDFObject) :
  load w (buffer pdfFile) true = inr d -> trailer (context d) = Some tr ->
  exists t e, watermarkDocument w req pdfFile opacity = (t, inl e).
Proof.
  intros Hl Htr.
  destruct (watermarkDocument w req pdfFile opacity) as [t [e|d']] eqn:E; [eauto|].
  apply watermarkDocument_returns in E as (d0 & img & pages & t0 & Hl' & _ & _ & Htr' & _).
  congruence.
Qed.

(** X12: when the uploaded document's context has a usable trailer, no
    watermark request is answered with a PDF, whatever it asks for: the
    longer handler answers 400 or 500, the handler of [src/index.js]
    500. *)
Theorem document_with_trailer_is_never_watermarked (w : World) (req : WatermarkRequest)
    (pdfFile : File) (d : PDFDocument) (tr : gmap string PDFObject) :
  files_pdf req = Some pdfFile -> load w (buffer pdfFile) true = inr d ->
  trailer (context d) = Some tr ->
  exists t1 t2 status msg e,
    Part000.watermark w req = (t1, Json status (ErrorBody msg))
    /\ (status = 400 \/ status = 500)%nat
    /\ Index.watermark w req = (t2, server_error e).
Proof.
  intros Hp Hl Htr. unfold Part000.watermark, Index.watermark. rewrite Hp.
  destruct (watermarkDocument_with_trailer w req pdfFile
              (Index.opacity_of (body req !! "opacity")) d tr Hl Htr) as (t2 & e2 & ->).
  destruct (negb (truthy (body req !! "text")) && _ && _).
  - exists [], (t2 ++ [ConsoleError None e2])%list, 400%nat,
      "Provide either watermark text or image", e2.
    repeat split. left. reflexivity.
  - destruct (watermarkDocument_with_trailer w req pdfFile
                (Part000.opacity_of (body req !! "opacity")) d tr Hl Htr) as (t1 & e1 & ->).
    exists (t1 ++ [ConsoleError (Some "Watermark error:") e1])%list,
      (t2 ++ [ConsoleError None e2])%list, 500%nat, (message e1), e2.
    repeat split. right. reflexivity.
Qed.

Lemma document_with_trailer_witness :
  exists t1 t2 status msg e,
    Part000.watermark (serving filed) draft_request = (t1, Json status (ErrorBody msg))
    /\ (status = 400 \/ status = 500)%nat
    /\ Index.watermark (serving filed) draft_request = (t2, server_error e).
Proof.
  apply (document_with_trailer_is_never_watermarked (serving filed) draft_request upload filed ∅);
    reflexivity.
Defined.

(** X13: on such a document a request with an encodable text and no
    image gets through the page loop and fails in the stamper: both
    handlers answer 500 "infoDictRef is not defined" and log the
    ReferenceError. *)
Theorem stamping_raises_reference_error (w : World) (req : WatermarkRequest)
    (pdfFile : File) (d : PDFDocument) (tr : gmap string PDFObject) (text : string) :
  files_pdf req = Some pdfFile -> load w (buffer pdfFile) true = inr d ->
  trailer (context d) = Some tr ->
  body req !! "text" = Some text -> text <> "" -> encodeText w text = None ->
  truthy (body req !! "image") = false -> files_image req = None ->
  Part000.watermark w req
    = ([ConsoleError (Some "Watermark error:") undeclared], server_error undeclared)
  /\ Index.watermark w req = ([ConsoleError None undeclared], server_error undeclared).
Proof.
  intros Hp Hl Htr Ht Hn He Hi Hf.
  assert (HD : forall o, watermarkDocument w req pdfFile o = ([], inl undeclared)).
  { intros o. unfold watermarkDocument, bind, lift.
    rewrite Hl, Hf, (embedImage_nothing w _ Hi).
    destruct (watermarkPages_encodes w
                (mkSettings (body req !! "text") (body req !! "size") (body req !! "color")
                   (body req !! "position") (body req !! "scale") (body req !! "shadow") o
                   (rotation_of (body req !! "degrees")) None) (getPages d))
      as [pages ->].
    { simpl. rewrite Ht. intros t H _. inversion H; subst. exact He. }
    rewrite (stamper_with_trailer (with_pages pages d) tr Htr). reflexivity. }
  split.
  - unfold Part000.watermark. rewrite Hp, Ht.
    assert (truthy (Some text) = true) as -> by (destruct text; [contradiction|reflexivity]).
    simpl. rewrite HD. reflexivity.
  - unfold Index.watermark. rewrite Hp, HD. reflexivity.
Qed.

Lemma stamping_raises_reference_error_witness :
  Part000.watermark (serving filed) draft_request
    = ([ConsoleError (Some "Watermark error:") undeclared], server_error undeclared)
  /\ Index.watermark (serving filed) draft_request
    = ([ConsoleError None undeclared], server_error undeclared).
Proof.
  apply (stamping_raises_reference_error (serving filed) draft_request upload filed ∅ "DRAFT");
    try reflexivity. discriminate.
Defined.

Lemma index_opacity_cases (v : option string) :
  Index.opacity_of v
  = if truthy_number (parseFloat_field v) then Part000.opacity_of v else default_opacity.
Proof.
  unfold Index.opacity_of, Part000.opacity_of.
  destruct (parseFloat_field v) as [s|s| |s m e]; simpl; try reflexivity.
Qed.

(** X14: the opacity of [src/index.js] against that of the longer
    handler. They differ exactly when the field reads as a zero, where
    [|| 0.3] replaces the 0; the result of [src/index.js] lies in [0, 1]
    all the same. *)
Theorem index_opacity_differs_only_at_zero (v : option string) :
  Index.opacity_of v
  = (if truthy_number (parseFloat_field v) then Part000.opacity_of v else default_opacity)
  /\ (Index.opacity_of v <> Part000.opacity_of v <->
      exists sign, parseFloat_field v = S754_zero sign)
  /\ le (of_Z 0) (Index.opacity_of v) = true /\ le (Index.opacity_of v) (of_Z 1) = true.
Proof.
  split; [apply index_opacity_cases|]. split.
  - rewrite index_opacity_cases. unfold Part000.opacity_of.
    destruct (parseFloat_field v) as [s|s| |s m e]; simpl.
    + split; [eauto|]. intros _. destruct s; vm_compute; discriminate.
    + split; [intros H; contradiction H; reflexivity|]. intros [? H]. discriminate.
    + split; [intros H; contradiction H; reflexivity|]. intros [? H]. discriminate.
    + split; [intros H; contradiction H; reflexivity|]. intros [? H]. discriminate.
  - rewrite index_opacity_cases.
    destruct (truthy_number (parseFloat_field v)) eqn:E; [|vm_compute; split; reflexivity].
    unfold Part000.opacity_of.
    assert (Hn : isNaN (parseFloat_field v) = false)
      by (destruct (parseFloat_field v); try reflexivity; discriminate).
    rewrite Hn, min_max_clamp by exact Hn. apply clamp01_range, Hn.
Qed.

(** X15: for a request with a PDF, with some content and with an opacity
    field that does not read as zero, the two watermark handlers give the
    same response. When they send a PDF their traces are the same; when
    they fail, the traces differ only in the [console.error] call that
    ends them, which the longer handler labels "Watermark error:" and
    [src/index.js] does not. *)
Theorem watermark_handlers_agree (w : World) (req : WatermarkRequest) :
  is_Some (files_pdf req) -> has_content req = true ->
  (forall sign, parseFloat_field (body req !! "opacity") <> S754_zero sign) ->
  snd (Index.watermark w req) = snd (Part000.watermark w req)
  /\ ((exists t name bytes,
          Part000.watermark w req = (t, Pdf name bytes)
          /\ Index.watermark w req = (t, Pdf name bytes))
      \/ (exists t e,
            Part000.watermark w req
              = ((t ++ [ConsoleError (Some "Watermark error:") e])%list, server_error e)
            /\ Index.watermark w req = ((t ++ [ConsoleError None e])%list, server_error e))).
Proof.
  intros [pdfFile Hp] Hc Hz. unfold Index.watermark, Part000.watermark.
  unfold has_content in Hc. rewrite Hp, <- !negb_orb, Hc. cbn [negb].
  assert (Ho : Index.opacity_of (body req !! "opacity")
               = Part000.opacity_of (body req !! "opacity")).
  { rewrite index_opacity_cases.
    destruct (parseFloat_field (body req !! "opacity")) as [s|s| |s m e] eqn:E; simpl;
      try reflexivity.
    - contradiction (Hz s). reflexivity.
    - unfold Part000.opacity_of. rewrite E. reflexivity. }
  rewrite Ho.
  destruct (watermarkDocument w req pdfFile (Part000.opacity_of (body req !! "opacity")))
    as [t [e|d]].
  - split; [reflexivity|]. right. exists t, e. split; reflexivity.
  - unfold sendPdf, bind, lift, ret. destruct (save w d) as [e|bytes].
    + split; [reflexivity|]. right. exists (t ++ [])%list, e. split; reflexivity.
    + split; [reflexivity|]. left. exists (t ++ [] ++ [])%list, "watermarked.pdf", bytes.
      split; reflexivity.
Qed.

Lemma watermark_handlers_agree_witness :
  snd (Index.watermark offline remote_image_request)
    = snd (Part000.watermark offline remote_image_request)
  /\ ((exists t name bytes,
          Part000.watermark offline remote_image_request = (t, Pdf name bytes)
          /\ Index.watermark offline remote_image_request = (t, Pdf name bytes))
      \/ (exists t e,
            Part000.watermark offline remote_image_request
              = ((t ++ [ConsoleError (Some "Watermark error:") e])%list, server_error e)
            /\ Index.watermark offline remote_image_request
              = ((t ++ [ConsoleError None e])%list, server_error e))).
Proof.
  apply (watermark_handlers_agree offline remote_image_request).
  - exists upload. reflexivity.
  - reflexivity.
  - intros sign. vm_compute. discriminate.
Defined.

End StatusFacts.

Module RecordFacts.
Import JS PdfLib Http Shared HandlerFacts WriterFacts ReadFacts Reading Fixtures.

Lemma drop_falsy_In (es : list (string * option string)) (k v : string) :
  In (k, v) (Part000.drop_falsy es) <-> In (k, Some v) es /\ v <> "".
Proof.
  unfold Part000.drop_falsy. induction es as [|[k' v'] es IH]; simpl.
  - tauto.
  - destruct v' as [[|c s]|]; simpl; rewrite IH; clear IH.
    + split; [intros [H Hn]; tauto|]. intros [[H|H] Hn]; [|tauto].
      inversion H; subst. contradiction.
    + split.
      * intros [H|[H Hn]]; [inversion H; subst; split; [auto|discriminate]|tauto].
      * intros [[H|H] Hn]; [inversion H; subst; auto|tauto].
    + split; [tauto|]. intros [[H|H] Hn]; [discriminate|tauto].
Qed.

Lemma drop_falsy_sublist (es : list (string * option string)) :
  sublist (map fst (Part000.drop_falsy es)) (map fst es).
Proof.
  unfold Part000.drop_falsy. induction es as [|[k v] es IH]; simpl; [constructor|].
  destruct v as [[|c s]|]; simpl; constructor; exact IH.
Qed.

(** X16: the filter of the read handler keeps an entry exactly when its
    value is a non-empty string, keeps the order of the keys, and, keys
    being distinct, leaves under each key the value it had if that is not
    empty. *)
Theorem drop_falsy_keeps_the_nonempty (es : list (string * option string)) :
  (forall k v, In (k, v) (Part000.drop_falsy es) <-> In (k, Some v) es /\ v <> "")
  /\ sublist (map fst (Part000.drop_falsy es)) (map fst es)
  /\ (forall key, List.NoDup (map fst es) ->
        entry key (Part000.drop_falsy es) = entry key es ≫= kept).
Proof.
  split; [intros k v; apply drop_falsy_In|]. split; [apply drop_falsy_sublist|].
  intros key. induction es as [|[k v] es IH]; intros Hnd; [reflexivity|].
  rewrite entry_drop_falsy_cons. inversion Hnd as [|? ? Hk Hnd']; subst.
  specialize (IH Hnd').
  assert (Hhead : entry key ((k, v) :: es)
                  = if String.eqb k key then Some v else entry key es).
  { unfold entry. simpl. destruct (String.eqb k key); reflexivity. }
  rewrite Hhead. destruct (String.eqb k key) eqn:E; [|exact IH].
  simpl. destruct (kept v) eqn:Ev; [reflexivity|].
  apply String.eqb_eq in E. subst k. rewrite IH.
  unfold entry. destruct (find _ es) as [[k' v']|] eqn:Ef; [|reflexivity].
  exfalso. apply find_some in Ef as [Hin Hk']. simpl in Hk'. apply String.eqb_eq in Hk'.
  subst k'. apply Hk. apply in_map_iff. exists (key, v'). auto.
Qed.

Lemma kept_entry (v : option string) (rest : option string) :
  rest = None -> match kept v with Some s => Some s | None => rest end = kept v.
Proof. intros ->. destruct (kept v); reflexivity. Qed.

Lemma count_char_app (c : ascii) (a b : string) :
  count_char c (a ++ b) = (count_char c a + count_char c b)%nat.
Proof. induction a as [|x a IH]; simpl; [reflexivity|]. rewrite IH. lia. Qed.

Lemma page_size_known (a b : string) : a ++ "x" ++ b <> "Unknown".
Proof.
  intros H. apply (f_equal (count_char "x")) in H.
  rewrite count_char_app in H. simpl in H. lia.
Qed.

(** X17: what a 200 answer of the longer read handler holds. Each of the
    six string fields is the accessor's value, or the raw Info entry when
    the accessor's is missing or empty; each custom field is the raw
    entry; no value is empty; the page count is the number of pages, and
    the page size is "Unknown" exactly for a document without pages. *)
Theorem metadata_read_resolves_each_field (w : World) (req : MetadataRequest)
    (t : list Event) (m c : list (string * string)) (tech : Technical) :
  Part000.metadata_get w req = (t, Json 200 (MetadataBody m c tech)) ->
  exists f d,
    file req = Some f /\ load w (buffer f) false = inr d
    /\ resolved w d m c /\ all_nonempty m /\ all_nonempty c
    /\ pageCount tech = List.length (getPages d)
    /\ (pageSize tech = "Unknown" <-> getPages d = []).
Proof.
  intros H. apply metadata_get_returns in H as (_ & f & d & raw & Hf & Hl & Hc & -> & -> & ->).
  exists f, d. split; [exact Hf|]. split; [exact Hl|].
  split; [|split; [|split; [|split]]].
  - apply core_metadata_returns in Hc as (cd & md & _ & _ & ->).
    unfold resolved, Part000.custom_fields. cbv zeta.
    repeat split; rewrite !entry_drop_falsy_cons; cbn [String.eqb Ascii.eqb Bool.eqb];
      apply kept_entry; try reflexivity;
      repeat (match goal with |- context [kept ?v] => destruct (kept v) end); reflexivity.
  - apply List.Forall_forall. intros [k v] Hin. apply drop_falsy_In in Hin. apply Hin.
  - apply List.Forall_forall. intros [k v] Hin. apply drop_falsy_In in Hin. apply Hin.
  - reflexivity.
  - unfold Part000.technical_info. cbn [pageSize].
    destruct (getPages d) as [|p ps]; [split; reflexivity|].
    split; [intros H; contradiction (page_size_known _ _ H)|discriminate].
Qed.

Lemma metadata_read_witness :
  exists f d,
    file zoned_upload = Some f /\ load (serving zoned) (buffer f) false = inr d
    /\ resolved (serving zoned) d [("creationDate", "2023-06-15T12:00:00.000Z")] []
    /\ all_nonempty [("creationDate", "2023-06-15T12:00:00.000Z")] /\ all_nonempty []
    /\ pageCount (mkTechnical 1 "0.00" "Unknown" "0.00x0.00") = List.length (getPages d)
    /\ (pageSize (mkTechnical 1 "0.00" "Unknown" "0.00x0.00") = "Unknown" <-> getPages d = []).
Proof.
  apply (metadata_read_resolves_each_field (serving zoned) zoned_upload []).
  vm_compute. reflexivity.
Defined.

(** X18: the two versions of [safeGet] return the same value unless the
    entry is a string whose [decodeText] raises: there the longer handler
    falls back on [String(val)] and [src/index.js] returns [null]. *)
Theorem safeGet_versions_differ_only_on_decoding (w : World) (d : PDFDocument) (key : string) :
  Index.safeGet w d key = Part000.safeGet w (Part000.infoDict d) key
  \/ exists info val e,
       Part000.infoDict d = Some info /\ info !! key = Some val
       /\ has_decodeText val = true /\ decodeText w val = inl e
       /\ Index.safeGet w d key = None
       /\ Part000.safeGet w (Part000.infoDict d) key = Some (toString w val).
Proof.
  unfold Index.safeGet, Part000.safeGet, Part000.infoDict.
  destruct (trailer (context d)) as [tr|]; [|left; reflexivity].
  destruct (tr !! "Info") as [ref|]; [|left; reflexivity].
  destruct (context_lookup (context d) ref) as [[n|info|v|v|k|x]|]; try (left; reflexivity).
  destruct (info !! key) as [val|] eqn:Ek; [|left; reflexivity].
  destruct (has_decodeText val) eqn:Eh; [|left; reflexivity].
  destruct (decodeText w val) as [e|s] eqn:Ed; [|left; reflexivity].
  right. exists info, val, e. repeat split; assumption.
Qed.

Lemma overwrite_twice {A} (v : option string) (f : string -> A) (old : option A) :
  overwrite v f (overwrite v f old) = overwrite v f old.
Proof. unfold overwrite. destruct v as [s|]; [destruct (truthy_string s)|]; reflexivity. Qed.

Lemma document_ext (a b : PDFDocument) :
  getTitle a = getTitle b -> getAuthor a = getAuthor b -> getSubject a = getSubject b ->
  getKeywords a = getKeywords b -> getCreator a = getCreator b ->
  getProducer a = getProducer b -> getCreationDate a = getCreationDate b ->
  getModificationDate a = getModificationDate b -> context a = context b ->
  getPages a = getPages b -> a = b.
Proof. destruct a, b; simpl; intros; subst; reflexivity. Qed.

(** X19: writing the same fields twice gives the document that writing
    them once gives, and writing no field gives the document back, in
    both write handlers. *)
Theorem metadata_write_is_idempotent (w : World) (b : gmap string string) (d : PDFDocument) :
  Part000.writeMetadata w b (Part000.writeMetadata w b d) = Part000.writeMetadata w b d
  /\ Index.writeMetadata b (Index.writeMetadata b d) = Index.writeMetadata b d
  /\ Part000.writeMetadata w ∅ d = d /\ Index.writeMetadata ∅ d = d.
Proof.
  split; [|split; [|split]].
  - pose proof (writeMetadata_fields w b (Part000.writeMetadata w b d)) as H2.
    pose proof (writeMetadata_fields w b d) as H1. cbv zeta in H1, H2.
    destruct H1 as (A1 & A2 & A3 & A4 & A5 & A6 & A7 & A8 & A9 & A10).
    destruct H2 as (B1 & B2 & B3 & B4 & B5 & B6 & B7 & B8 & B9 & B10).
    apply document_ext; try congruence;
      match goal with |- ?p (Part000.writeMetadata w b (Part000.writeMetadata w b d)) = _ =>
        first [rewrite B1, A1|rewrite B2, A2|rewrite B3, A3|rewrite B4, A4|rewrite B5, A5
              |rewrite B6, A6|rewrite B7, A7|rewrite B8, A8]; apply overwrite_twice end.
  - pose proof (index_writeMetadata_fields b (Index.writeMetadata b d)) as H2.
    pose proof (index_writeMetadata_fields b d) as H1.
    pose proof (index_writeMetadata_keywords b (Index.writeMetadata b d)) as K2.
    pose proof (index_writeMetadata_keywords b d) as K1. cbv zeta in H1, H2, K1, K2.
    destruct H1 as (A1 & A2 & A3 & A6 & A5 & A9 & A10).
    destruct H2 as (B1 & B2 & B3 & B6 & B5 & B9 & B10).
    destruct K1 as (A4 & A7 & A8). destruct K2 as (B4 & B7 & B8).
    apply document_ext; try congruence;
      match goal with |- ?p (Index.writeMetadata b (Index.writeMetadata b d)) = _ =>
        first [rewrite B1, A1|rewrite B2, A2|rewrite B3, A3|rewrite B4, A4|rewrite B6, A6];
        apply overwrite_twice end.
  - destruct d; reflexivity.
  - destruct d; reflexivity.
Qed.

End RecordFacts.

Module KeywordFacts.
Import JS PdfLib Http Shared HandlerFacts WriterFacts Reading Fixtures.












End KeywordFacts.

Module CompareFacts.
Import JS PdfLib Http Shared Part000 DateFacts DigitFacts PdfDateFacts ReadFacts RecordFacts
  Reading Fixtures.

(** X21: a legacy date whose year is written 0000 to 0099 comes out in
    the twentieth century: [Date.UTC] counts such a year from 1900, so the
    ISO string shows the year plus 1900 before the month, day and time as
    written. *)
Theorem two_digit_years_count_from_1900 (y m d h mi sec rest : string) :
  is_group 4 y = true -> is_group 2 m = true -> is_group 2 d = true ->
  is_group 2 h = true -> is_group 2 mi = true -> is_group 2 sec = true ->
  Number_of_digits y <= 99 ->
  1 <= Number_of_digits m <= 12 ->
  1 <= Number_of_digits d <= days_in_month (1900 + Number_of_digits y) (Number_of_digits m) ->
  Number_of_digits h <= 23 -> Number_of_digits mi <= 59 -> Number_of_digits sec <= 59 ->
  parsePdfDate (Some ("D:" ++ y ++ m ++ d ++ h ++ mi ++ sec ++ rest))
  = inr (Some (pad 4 (1900 + Number_of_digits y) ++ "-" ++ m ++ "-" ++ d ++ "T" ++ h ++ ":"
               ++ mi ++ ":" ++ sec ++ ".000Z")).
Proof.
  intros Hy Hm Hd Hh Hmi Hs HY HM HD HH HMI HS.
  destruct (parsePdfDate_of_groups y m d h mi sec rest Hy Hm Hd Hh Hmi Hs)
    as (t & Ht & iso & Hiso & ->).
  do 2 f_equal.
  destruct (group_value 4 y Hy) as [Py Ry], (group_value 2 m Hm) as [Pm Rm],
    (group_value 2 d Hd) as [Pd Rd], (group_value 2 h Hh) as [Ph Rh],
    (group_value 2 mi Hmi) as [Pmi Rmi], (group_value 2 sec Hs) as [Ps Rs].
  set (Y := Number_of_digits y) in *. set (M := Number_of_digits m) in *.
  set (D := Number_of_digits d) in *. set (H := Number_of_digits h) in *.
  set (MI := Number_of_digits mi) in *. set (S := Number_of_digits sec) in *.
  unfold Date_UTC in Ht.
  replace ((0 <=? Y) && (Y <=? 99)) with true in Ht
    by (symmetry; apply andb_true_iff; split; apply Z.leb_le; lia).
  apply TimeClip_Some in Ht. subst t.
  destruct (calendar_fields (1900 + Y) M D H MI S) as (EY & EM & ED & EH & EMI & ES & EMS);
    try lia.
  unfold toISOString in Hiso. rewrite EY, EM, ED, EH, EMI, ES, EMS in Hiso.
  replace ((0 <=? 1900 + Y) && (1900 + Y <=? 9999)) with true in Hiso
    by (symmetry; apply andb_true_iff; split; apply Z.leb_le; lia).
  replace (M - 1 + 1) with M in Hiso by lia.
  rewrite Pm, Pd, Ph, Pmi, Ps in Hiso. inversion Hiso. reflexivity.
Qed.

Lemma two_digit_years_witness :
  parsePdfDate (Some ("D:" ++ "0050" ++ "06" ++ "15" ++ "12" ++ "00" ++ "00" ++ "Z"))
  = inr (Some (pad 4 (1900 + Number_of_digits "0050") ++ "-" ++ "06" ++ "-" ++ "15" ++ "T"
               ++ "12" ++ ":" ++ "00" ++ ":" ++ "00" ++ ".000Z")).
Proof.
  apply (two_digit_years_count_from_1900 "0050" "06" "15" "12" "00" "00" "Z");
    vm_compute; try reflexivity; try (split; discriminate); discriminate.
Defined.

Lemma kept_truthy (v : option string) : truthy v = true -> kept v = v.
Proof. unfold kept. intros ->. reflexivity. Qed.

Lemma or_else_truthy (a b : option string) : truthy a = true -> or_else a b = a.
Proof. unfold or_else. intros ->. reflexivity. Qed.

Lemma index_safeGet_truthy (w : World) (d : PDFDocument) (key : string) :
  truthy (Index.safeGet w d key) = true ->
  Part000.safeGet w (Part000.infoDict d) key = Index.safeGet w d key.
Proof.
  unfold Index.safeGet, Part000.safeGet, Part000.infoDict.
  destruct (trailer (context d)) as [tr|]; [|reflexivity].
  destruct (tr !! "Info") as [ref|]; [|reflexivity].
  destruct (context_lookup (context d) ref) as [[n|info|v|v|k|x]|]; try reflexivity.
  destruct (info !! key) as [val|]; [|reflexivity].
  destruct (has_decodeText val); [|reflexivity].
  destruct (decodeText w val); [discriminate|reflexivity].
Qed.

(** X22: the two read handlers on the same request. Whenever the longer
    one answers 200, so does [src/index.js], with the same page count;
    and each value [src/index.js] reports that is not empty (title,
    author, subject, producer from the accessors, company and manager
    from the raw entries) is the value the longer handler reports under
    the same key. *)
Theorem read_handlers_agree_on_accessors (w : World) (req : MetadataRequest)
    (t : list Event) (m c : list (string * string)) (tech : Technical) :
  Part000.metadata_get w req = (t, Json 200 (MetadataBody m c tech)) ->
  exists title author subject producer company manager,
    Index.metadata_get w req
    = ([], Json 200 (BasicMetadataBody title author subject producer company manager
                      (pageCount tech)))
    /\ (truthy title = true -> entry "title" m = title)
    /\ (truthy author = true -> entry "author" m = author)
    /\ (truthy subject = true -> entry "subject" m = subject)
    /\ (truthy producer = true -> entry "producer" m = producer)
    /\ (truthy company = true -> entry "company" c = company)
    /\ (truthy manager = true -> entry "manager" c = manager).
Proof.
  intros H. apply metadata_get_returns in H as (_ & f & d & raw & Hf & Hl & Hc & -> & -> & ->).
  apply core_metadata_returns in Hc as (cd & md & _ & _ & ->).
  exists (getTitle d), (getAuthor d), (getSubject d), (getProducer d),
    (Index.safeGet w d "Company"), (Index.safeGet w d "Manager").
  split; [unfold Index.metadata_get, bind, lift; rewrite Hf, Hl; reflexivity|].
  unfold custom_fields. cbv zeta.
  repeat split; intros Ht;
    repeat (rewrite entry_drop_falsy_cons; cbn [String.eqb Ascii.eqb Bool.eqb]);
    try rewrite (index_safeGet_truthy w d _ Ht);
    try rewrite (or_else_truthy _ _ Ht); rewrite (kept_truthy _ Ht);
    match goal with |- match ?v with _ => _ end = _ => destruct v; [reflexivity|discriminate] end.
Qed.

Lemma read_handlers_agree_witness :
  exists title author subject producer company manager,
    Index.metadata_get (serving zoned) zoned_upload
    = ([], Json 200 (BasicMetadataBody title author subject producer company manager
                      (pageCount (mkTechnical 1 "0.00" "Unknown" "0.00x0.00"))))
    /\ (truthy title = true
        -> entry "title" [("creationDate", "2023-06-15T12:00:00.000Z")] = title)
    /\ (truthy author = true
        -> entry "author" [("creationDate", "2023-06-15T12:00:00.000Z")] = author)
    /\ (truthy subject = true
        -> entry "subject" [("creationDate", "2023-06-15T12:00:00.000Z")] = subject)
    /\ (truthy producer = true
        -> entry "producer" [("creationDate", "2023-06-15T12:00:00.000Z")] = producer)
    /\ (truthy company = true -> entry "company" [] = company)
    /\ (truthy manager = true -> entry "manager" [] = manager).
Proof.
  apply (read_handlers_agree_on_accessors (serving zoned) zoned_upload []).
  vm_compute. reflexivity.
Defined.

End CompareFacts.
